(** * merge_maniobras_to_csv: a shallow embedding and its properties

    The script walks [INPUT/Driver*/*.xlsx], reads one sheet per workbook
    with pandas, prepends the columns [driver] and [maneuver], drops a fixed
    list of columns, concatenates everything and writes one CSV file.

    Conventions of the embedding.
    - A Python [str] is a [string] holding its UTF-8 bytes.  The characters
      the script looks at (underscore, dot, the letters of the two glob
      patterns) are ASCII, and the order of code points is the order of
      UTF-8 byte sequences, so splitting, matching and sorting agree.
    - A [pathlib.Path] is its anchor and the list of its components, as
      pathlib stores them (POSIX flavour, case sensitive).
    - The file system is a tree of directories and files, without symbolic
      links, permissions or concurrent writers.  A step that changes it
      and fails hands back the file system as far as it got: the
      directories [mkdir] made before it failed stay, and so do the bytes
      that reached a file before the write broke off.
    - pandas objects are modelled by their documented behaviour: a
      DataFrame is a list of column labels and a list of rows; a cell is
      a missing value, a text, or another scalar, carried as the text
      that [to_csv] writes for it.  How [concat] rewrites the scalars of
      a column whose dtype changes (10 becomes 10.0 in a column that is
      padded with missing values) is a parameter of the world.
    - The CSV writer is that of Python 3.13, which quotes a field that
      holds a carriage return; earlier versions write such a field bare.
      The statements that spell out bytes are made for fields without
      comma, quote and line break, where all versions agree. *)

From Stdlib Require Import String Ascii List Bool Arith ZArith Lia.
From Stdlib Require Import Sorting.Sorted Sorting.Permutation.
From Stdlib Require Import DecimalString DecimalNat.
Import ListNotations.

#[local] Set Warnings "-register-all".
Local Open Scope string_scope.
Local Open Scope list_scope.

(** ** Python exceptions and results *)

(** The exceptions a run can end with.  [ReaderError] stands for
    whatever the reading of a workbook raises, [WriteError] for whatever
    is raised while the CSV is written to the open file. *)
Inductive exn : Type :=
| SystemExit (message : string)
| IndexError (message : string)
| ValueError (message : string)
| ImportError
| OSError (errno : string) (path : string)
| ReaderError (message : string)
| WriteError (message : string).

Inductive result (A : Type) : Type :=
| Ok (value : A)
| Raise (e : exn).

Arguments Ok {A} value.
Arguments Raise {A} e.

Definition bind {A B : Type} (r : result A) (k : A -> result B) : result B :=
  match r with
  | Ok a => k a
  | Raise e => Raise e
  end.

Notation "x <- r ;; k" := (bind r (fun x => k))
  (at level 61, r at next level, right associativity).

(** ** Python string operations *)

Module PyStr.

(** [s.split(sep)] for a separator of one character: one segment more
    than there are separators, never the empty list. *)
Fixpoint split (sep : ascii) (s : string) : list string :=
  match s with
  | EmptyString => [EmptyString]
  | String c rest =>
      if Ascii.eqb c sep then EmptyString :: split sep rest
      else match split sep rest with
           | [] => [String c EmptyString]
           | seg :: segs => String c seg :: segs
           end
  end.

(** [s.rfind(c)]: the highest index of [c] in [s], or [-1]. *)
Fixpoint rfind (c : ascii) (s : string) : Z :=
  match s with
  | EmptyString => (-1)%Z
  | String a rest =>
      let i := rfind c rest in
      if (0 <=? i)%Z then (i + 1)%Z
      else if Ascii.eqb a c then 0%Z else (-1)%Z
  end.

Definition len (s : string) : Z := Z.of_nat (String.length s).

(** [s[:i]] for [0 <= i]. *)
Definition take (i : Z) (s : string) : string := substring 0 (Z.to_nat i) s.

(** [s[i:]] for [0 <= i]. *)
Definition drop (i : Z) (s : string) : string :=
  substring (Z.to_nat i) (String.length s - Z.to_nat i) s.

(** [sep.join(items)]. *)
Fixpoint join (sep : string) (items : list string) : string :=
  match items with
  | [] => EmptyString
  | [x] => x
  | x :: rest => x ++ sep ++ join sep rest
  end.

Fixpoint contains (c : ascii) (s : string) : bool :=
  match s with
  | EmptyString => false
  | String a rest => Ascii.eqb a c || contains c rest
  end.

(** [xs[i]] on a list, for [0 <= i]; out of range raises. *)
Definition index {A : Type} (xs : list A) (i : nat) : result A :=
  match nth_error xs i with
  | Some x => Ok x
  | None => Raise (IndexError "list index out of range")
  end.

(** What the specification calls a name that starts, or ends, with a
    given text. *)
Definition starts_with (pre s : string) : Prop :=
  exists rest, s = (pre ++ rest)%string.

Definition ends_with (suf s : string) : Prop :=
  exists base, s = (base ++ suf)%string.

(** A pattern piece without wildcard. *)
Fixpoint literal (s : string) : bool :=
  match s with
  | EmptyString => true
  | String c rest =>
      negb (Ascii.eqb c "*") && negb (Ascii.eqb c "?") && literal rest
  end.

End PyStr.

(** ** pathlib *)

Module Pathlib.

(** A pure POSIX path: whether it starts at the root, and its components
    ([_parts] without the anchor).  pathlib drops empty and single-dot
    components when it parses a path, so [Path(".")] has no component. *)
Record Path : Type := mkPath { anchored : bool; parts : list string }.

(** [p.name]: the final component, or the empty string. *)
Definition name (p : Path) : string := last (parts p) EmptyString.

(** [p.parent]; the parent of a path without components is itself. *)
Definition parent (p : Path) : Path :=
  mkPath (anchored p) (removelast (parts p)).

(** [p / child] for a child that is one plain component. *)
Definition joinpath (p : Path) (child : string) : Path :=
  mkPath (anchored p) (parts p ++ [child]).

(** The stem of a file name (pathlib 3.8 to 3.13):
<<
  i = name.rfind('.')
  if 0 < i < len(name) - 1: return name[:i]
  else: return name
>> *)
Definition stem_of_name (nm : string) : string :=
  let i := PyStr.rfind "." nm in
  if ((0 <? i) && (i <? PyStr.len nm - 1))%Z then PyStr.take i nm else nm.

Definition stem (p : Path) : string := stem_of_name (name p).

(** [p.suffix], the companion of [stem]. *)
Definition suffix_of_name (nm : string) : string :=
  let i := PyStr.rfind "." nm in
  if ((0 <? i) && (i <? PyStr.len nm - 1))%Z then PyStr.drop i nm
  else EmptyString.

Definition suffix (p : Path) : string := suffix_of_name (name p).

(** [str(p)]. *)
Definition to_str (p : Path) : string :=
  match anchored p, parts p with
  | false, [] => "."
  | false, ps => PyStr.join "/" ps
  | true, ps => "/" ++ PyStr.join "/" ps
  end.

End Pathlib.

Import Pathlib.

(** ** Label extraction *)

(** <<
def parse_maneuver_from_filename(xlsx_path: Path) -> str:
    stem = xlsx_path.stem
    parts = stem.split("_")
    return parts[1] if len(parts) >= 2 else ""
>> *)
Definition parse_maneuver_from_filename (xlsx_path : Path) : result string :=
  let stem := Pathlib.stem xlsx_path in
  let parts := PyStr.split "_" stem in
  if (2 <=? List.length parts)%nat then PyStr.index parts 1
  else Ok EmptyString.

(** The contract in the words of the specification: the segments of the
    file name without its extension, cut at every underscore; the label is
    the segment at index 1 when there are at least two, else empty. *)
Definition maneuver_label_spec (xlsx_path : Path) : string :=
  match PyStr.split "_" (Pathlib.stem xlsx_path) with
  | _ :: second :: _ => second
  | _ => EmptyString
  end.

(** ** Glob patterns *)

(** [fnmatch.fnmatchcase(name, pattern)] for patterns made of literal
    characters, [*] (any run of characters, also the empty one) and [?]
    (any one character); the two patterns of the script have no bracket
    expression.  pathlib matches every entry of the directory against the
    pattern, entries whose name starts with a dot included. *)
Fixpoint fnmatch (pattern : string) (nm : string) : bool :=
  match pattern with
  | EmptyString =>
      match nm with
      | EmptyString => true
      | String _ _ => false
      end
  | String p pattern' =>
      if Ascii.eqb p "*" then
        (fix star (nm : string) : bool :=
           fnmatch pattern' nm
           || match nm with
              | EmptyString => false
              | String _ nm' => star nm'
              end) nm
      else
        match nm with
        | EmptyString => false
        | String c nm' =>
            (Ascii.eqb p "?" || Ascii.eqb p c) && fnmatch pattern' nm'
        end
  end.

(** ** The file system *)

Module FS.

Inductive errno : Type := ENOENT | ENOTDIR | EEXIST | EISDIR.

(** A directory lists its entries in the order the operating system
    reports them ([os.scandir]), which is arbitrary. *)
Inductive Node : Type :=
| File (data : string)
| Dir (entries : list (string * Node)).

Record FileSystem : Type := mkFS {
  tree : Node;              (* the root directory *)
  cwd : list string         (* the working directory, from the root *)
}.

Fixpoint assoc {A : Type} (k : string) (l : list (string * A)) : option A :=
  match l with
  | [] => None
  | (k', v) :: rest => if String.eqb k k' then Some v else assoc k rest
  end.

(** Replace the binding of [k], or add one at the end. *)
Fixpoint set_entry {A : Type} (k : string) (v : A) (l : list (string * A))
  : list (string * A) :=
  match l with
  | [] => [(k, v)]
  | (k', v') :: rest =>
      if String.eqb k k' then (k', v) :: rest
      else (k', v') :: set_entry k v rest
  end.

(** The node at a location, a list of names from the root. *)
Fixpoint node_at (n : Node) (loc : list string) : option Node :=
  match loc with
  | [] => Some n
  | c :: rest =>
      match n with
      | Dir entries =>
          match assoc c entries with
          | Some child => node_at child rest
          | None => None
          end
      | File _ => None
      end
  end.

(** Store [new] at [loc]; the parent of [loc] has to be a directory. *)
Fixpoint put (n : Node) (loc : list string) (new : Node) : Node :=
  match loc with
  | [] => new
  | c :: rest =>
      match n with
      | Dir entries =>
          match assoc c entries with
          | Some child => Dir (set_entry c (put child rest new) entries)
          | None =>
              match rest with
              | [] => Dir (set_entry c new entries)
              | _ :: _ => n
              end
          end
      | File _ => n
      end
  end.

Definition is_dir_at (t : Node) (loc : list string) : bool :=
  match node_at t loc with
  | Some (Dir _) => true
  | _ => false
  end.

(** Every directory of [t] is a directory of [t']. *)
Definition keeps_dirs (t t' : Node) : Prop :=
  forall loc, is_dir_at t loc = true -> is_dir_at t' loc = true.

Definition oserr (e : errno) (p : Path) : exn :=
  OSError
    match e with
    | ENOENT => "ENOENT"
    | ENOTDIR => "ENOTDIR"
    | EEXIST => "EEXIST"
    | EISDIR => "EISDIR"
    end (Pathlib.to_str p).

Definition oserror {A : Type} (e : errno) (p : Path) : result A :=
  Raise (oserr e p).

(** What a step that writes leaves behind: the file system, changed as
    far as the step got, and the exception when it failed. *)
Definition effect : Type := (FileSystem * option exn)%type.

(** Path resolution: every component is looked up in a directory that has
    to exist; [..] goes to the parent (the root is its own parent). *)
Fixpoint walk (t : Node) (cur : list string) (comps : list string)
  : errno + list string :=
  match comps with
  | [] => inr cur
  | c :: rest =>
      match node_at t cur with
      | Some (Dir _) =>
          walk t (if String.eqb c ".." then removelast cur else cur ++ [c])
               rest
      | Some (File _) => inl ENOTDIR
      | None => inl ENOENT
      end
  end.

Definition locate (fsys : FileSystem) (p : Path) : errno + list string :=
  walk (tree fsys) (if anchored p then [] else cwd fsys) (parts p).

Definition stat (fsys : FileSystem) (p : Path) : errno + Node :=
  match locate fsys p with
  | inl e => inl e
  | inr loc =>
      match node_at (tree fsys) loc with
      | Some n => inr n
      | None => inl ENOENT
      end
  end.

(** [p.exists()] and [p.is_dir()]: a failing [stat] answers no. *)
Definition exists_ (fsys : FileSystem) (p : Path) : bool :=
  match stat fsys p with
  | inr _ => true
  | inl _ => false
  end.

Definition is_dir (fsys : FileSystem) (p : Path) : bool :=
  match stat fsys p with
  | inr (Dir _) => true
  | _ => false
  end.

(** [os.scandir(p)]: the names in the directory, in its order. *)
Definition listdir (fsys : FileSystem) (p : Path) : list string :=
  match stat fsys p with
  | inr (Dir entries) => map fst entries
  | _ => []
  end.

(** [p.glob(pattern)] for a pattern of one component: nothing when [p] is
    not a directory, else the children whose name matches, of any kind, in
    the order of the directory. *)
Definition glob (fsys : FileSystem) (p : Path) (pattern : string)
  : list Path :=
  if is_dir fsys p then
    map (joinpath p) (filter (fnmatch pattern) (listdir fsys p))
  else [].

(** [os.mkdir(p)]. *)
Definition os_mkdir (fsys : FileSystem) (p : Path) : errno + FileSystem :=
  match parts p with
  | [] => inl EEXIST
  | _ :: _ =>
      match locate fsys p with
      | inl e => inl e
      | inr loc =>
          match node_at (tree fsys) loc with
          | Some _ => inl EEXIST
          | None => inr (mkFS (put (tree fsys) loc (Dir [])) (cwd fsys))
          end
      end
  end.

(** [p.mkdir(parents=False, exist_ok=True)]: an error of [os.mkdir] other
    than a missing parent is swallowed when [p] is a directory. *)
Definition mkdir_exist_ok (fsys : FileSystem) (p : Path) : effect :=
  match os_mkdir fsys p with
  | inr fsys' => (fsys', None)
  | inl ENOENT => (fsys, Some (oserr ENOENT p))
  | inl e => if is_dir fsys p then (fsys, None) else (fsys, Some (oserr e p))
  end.

(** [p.mkdir(parents=True, exist_ok=True)], on the components of [p] in
    reverse, so that the parent is the tail:
<<
  try: os.mkdir(self)
  except FileNotFoundError:
      if not parents or self.parent == self: raise
      self.parent.mkdir(parents=True, exist_ok=True)
      self.mkdir(parents=False, exist_ok=exist_ok)
  except OSError:
      if not exist_ok or not self.is_dir(): raise
>>
    The ancestors that were made stay when a later step fails. *)
Fixpoint mkdir_parents_rev (fsys : FileSystem) (anch : bool)
  (rparts : list string) : effect :=
  let self := mkPath anch (rev rparts) in
  match os_mkdir fsys self with
  | inr fsys' => (fsys', None)
  | inl ENOENT =>
      match rparts with
      | [] => (fsys, Some (oserr ENOENT self))
      | _ :: rparent =>
          match mkdir_parents_rev fsys anch rparent with
          | (fsys1, None) => mkdir_exist_ok fsys1 self
          | (fsys1, Some e) => (fsys1, Some e)
          end
      end
  | inl e =>
      if is_dir fsys self then (fsys, None) else (fsys, Some (oserr e self))
  end.

Definition mkdir_parents (fsys : FileSystem) (p : Path) : effect :=
  mkdir_parents_rev fsys (anchored p) (rev (parts p)).

(** [open(p, "w")], write [data], close.  The open fails on a path that
    does not resolve or is a directory, and then nothing changes.  Once
    the file is open it is empty, and the write itself may fail (text
    that cannot be encoded, a full disk): [fault] is then the message of
    the exception and the bytes that reached the file, which stay in
    it. *)
Definition write_file (fault : option (string * string)) (fsys : FileSystem)
  (p : Path) (data : string) : effect :=
  match locate fsys p with
  | inl e => (fsys, Some (oserr e p))
  | inr loc =>
      match node_at (tree fsys) loc, parts p with
      | Some (Dir _), _ => (fsys, Some (oserr EISDIR p))
      | None, [] => (fsys, Some (oserr ENOENT p))
      | _, _ =>
          match fault with
          | Some (message, partial) =>
              (mkFS (put (tree fsys) loc (File partial)) (cwd fsys),
               Some (WriteError message))
          | None =>
              (mkFS (put (tree fsys) loc (File data)) (cwd fsys), None)
          end
      end
  end.

(** [p.resolve()] (not strict): the absolute location when the path
    resolves, else the components appended to the starting directory. *)
Definition resolve (fsys : FileSystem) (p : Path) : Path :=
  match locate fsys p with
  | inr loc => mkPath true loc
  | inl _ => mkPath true ((if anchored p then [] else cwd fsys) ++ parts p)
  end.

End FS.

Import FS.

(** ** Sorting paths *)

(** Python compares two lists item by item; a proper prefix is smaller. *)
Fixpoint list_leb (a b : list string) : bool :=
  match a, b with
  | [], _ => true
  | _ :: _, [] => false
  | x :: a', y :: b' =>
      match String.compare x y with
      | Lt => true
      | Eq => list_leb a' b'
      | Gt => false
      end
  end.

(** Paths are ordered by their parts, the anchor first. *)
Definition cparts (p : Path) : list string :=
  (if anchored p then ["/"] else []) ++ parts p.

Definition path_leb (p q : Path) : bool := list_leb (cparts p) (cparts q).

(** [sorted(xs)]: a stable sort; insertion from the right keeps equal
    items in their order. *)
Fixpoint insert_sorted (x : Path) (l : list Path) : list Path :=
  match l with
  | [] => [x]
  | y :: rest =>
      if path_leb x y then x :: l else y :: insert_sorted x rest
  end.

Fixpoint sorted (l : list Path) : list Path :=
  match l with
  | [] => []
  | x :: rest => insert_sorted x (sorted rest)
  end.

Definition path_le (p q : Path) : Prop := path_leb p q = true.

Definition name_le (a b : string) : Prop := String.leb a b = true.

(** ** Discovery *)

(** <<
def iter_excel_files(root: Path) -> Iterable[Path]:
    for driver_dir in sorted(root.glob("Driver*")):
        if not driver_dir.is_dir():
            continue
        for xlsx in sorted(driver_dir.glob("*.xlsx")):
            yield xlsx
>>
    The generator only reads the file system, and the loop that consumes
    it does not write, so the list of everything it yields is the same
    whenever it is computed. *)
Definition iter_excel_files (fsys : FileSystem) (root : Path) : list Path :=
  flat_map
    (fun driver_dir =>
       if negb (is_dir fsys driver_dir) then []
       else sorted (glob fsys driver_dir "*.xlsx"))
    (sorted (glob fsys root "Driver*")).

(** ** pandas *)

Module Pandas.

(** A cell is a missing value ([NaN]), a Python [str] ([Value]), or any
    other scalar (a number, a boolean, a date), carried as the text that
    [to_csv] writes for it at the dtype its column has.  How pandas
    chooses that text (floating point) is outside the model; that it may
    change when the dtype of the column changes is not, see [concat]. *)
Inductive Cell : Type :=
| NaN
| Value (text : string)
| Scalar (repr : string).

(** A table: the column labels, and the rows in order, each row listing
    its cells in the order of the labels.  [read_excel] renames repeated
    headers, so the labels of a sheet are distinct. *)
Record DataFrame : Type := mkDF {
  columns : list string;
  rows : list (list Cell)
}.

Definition mem (c : string) (l : list string) : bool :=
  existsb (String.eqb c) l.

Definition insert_at {A : Type} (loc : nat) (x : A) (l : list A) : list A :=
  firstn loc l ++ x :: skipn loc l.

(** [df.insert(loc, column, value)] with a scalar value, which fills the
    whole column.  A label already present is refused
    ([allow_duplicates] is false), and so is a position past the end. *)
Definition insert (df : DataFrame) (loc : nat) (column : string)
  (value : Cell) : result DataFrame :=
  if mem column (columns df) then
    Raise (ValueError ("cannot insert " ++ column ++ ", already exists"))
  else if (List.length (columns df) <? loc)%nat then
    Raise (IndexError "index out of bounds")
  else
    Ok (mkDF (insert_at loc column (columns df))
             (map (insert_at loc value) (rows df))).

(** Keep the items whose position is marked. *)
Fixpoint select {A : Type} (mask : list bool) (l : list A) : list A :=
  match mask, l with
  | b :: mask', x :: l' =>
      if b then x :: select mask' l' else select mask' l'
  | _, _ => []
  end.

(** [df.drop(columns=labels, errors="ignore")]: every column whose label
    is listed goes; a listed label that is absent is passed over. *)
Definition drop (df : DataFrame) (labels : list string) : DataFrame :=
  let keep := map (fun c => negb (mem c labels)) (columns df) in
  mkDF (select keep (columns df)) (map (select keep) (rows df)).

(** The cell of a row under a label; missing when the table has no such
    column. *)
Fixpoint cell_at (cols : list string) (row : list Cell) (c : string)
  : Cell :=
  match cols, row with
  | k :: cols', v :: row' =>
      if String.eqb c k then v else cell_at cols' row' c
  | _, _ => NaN
  end.

Definition add_label (acc : list string) (c : string) : list string :=
  if mem c acc then acc else acc ++ [c].

(** The union of the labels, in order of first appearance
    ([join="outer"], [sort=False]). *)
Definition union_columns (frames : list DataFrame) : list string :=
  fold_left (fun acc df => fold_left add_label (columns df) acc) frames [].

(** A cell moved to a column of another dtype: a missing value stays
    missing, a [str] stays as it is (its column has dtype object, and so
    has the result), another scalar is written anew. *)
Definition recast (rewrite : string -> string) (c : Cell) : Cell :=
  match c with
  | NaN => NaN
  | Value text => Value text
  | Scalar repr => Scalar (rewrite repr)
  end.

(** How [concat] rewrites the scalars: each column of the result gets
    the common dtype of its pieces, where a table without the column
    counts as a piece of missing values.  An int64 column that is padded
    becomes float64, so that 10 is written 10.0.  The rule is pandas's;
    the model takes it as a function of the tables that are concatenated,
    the table and the column of the cell, and the text before. *)
Definition Cast : Type := list DataFrame -> DataFrame -> string -> string
                          -> string.

(** A row of [df] laid out on the columns of the result. *)
Definition reindex (rewrite : string -> string -> string) (df : DataFrame)
  (out : list string) (row : list Cell) : list Cell :=
  map (fun c => recast (rewrite c) (cell_at (columns df) row c)) out.

(** [pd.concat(frames, ignore_index=True, sort=False)]. *)
Definition concat (cast : Cast) (frames : list DataFrame)
  : result DataFrame :=
  match frames with
  | [] => Raise (ValueError "No objects to concatenate")
  | _ :: _ =>
      let out := union_columns frames in
      Ok (mkDF out
               (flat_map (fun df => map (reindex (cast frames df) df out)
                                        (rows df))
                         frames))
  end.

(** [len(df)]. *)
Definition len (df : DataFrame) : nat := List.length (rows df).

(** *** Writing CSV *)

Definition quote_char : ascii := ascii_of_nat 34.
Definition line_feed : ascii := ascii_of_nat 10.
Definition carriage_return : ascii := ascii_of_nat 13.

Fixpoint double_quotes (s : string) : string :=
  match s with
  | EmptyString => EmptyString
  | String c rest =>
      if Ascii.eqb c quote_char
      then String c (String c (double_quotes rest))
      else String c (double_quotes rest)
  end.

(** [csv.QUOTE_MINIMAL]: a field is quoted when it holds the delimiter,
    the quote character or a line break (Python 3.13; earlier versions
    quote a line break only when it occurs in the line terminator). *)
Definition needs_quotes (field : string) : bool :=
  PyStr.contains "," field || PyStr.contains quote_char field
  || PyStr.contains line_feed field || PyStr.contains carriage_return field.

Definition csv_field (field : string) : string :=
  if needs_quotes field
  then String quote_char
         (double_quotes field ++ String quote_char EmptyString)%string
  else field.

(** One record without its terminator; a record that is one empty field
    is written as a pair of quotes. *)
Definition csv_record (fields : list string) : string :=
  match fields with
  | [EmptyString] => String quote_char (String quote_char EmptyString)
  | _ => PyStr.join "," (map csv_field fields)
  end.

Definition cell_text (c : Cell) : string :=
  match c with
  | NaN => EmptyString         (* [na_rep] *)
  | Value text => text
  | Scalar repr => repr
  end.

Definition line_terminator : string := String line_feed EmptyString.

Definition csv_lines (records : list (list string)) : string :=
  String.concat EmptyString
    (map (fun r => (csv_record r ++ line_terminator)%string) records).

(** The byte order mark, the UTF-8 encoding of U+FEFF. *)
Definition BOM : string :=
  String (ascii_of_nat 239)
    (String (ascii_of_nat 187) (String (ascii_of_nat 191) EmptyString)).

(** The bytes of [df.to_csv(path, index=False, encoding="utf-8-sig")]:
    the mark, the header record, then one record per row. *)
Definition to_csv_bytes (df : DataFrame) : string :=
  BOM ++ csv_lines (columns df :: map (map cell_text) (rows df)).

End Pandas.

Import Pandas.

(** ** Formatting *)

(** Commas between groups of three digits, on the digits in reverse. *)
Fixpoint group_thousands (rev_digits : list ascii) : list ascii :=
  match rev_digits with
  | a :: b :: c :: ((_ :: _) as more) =>
      a :: b :: c :: ","%char :: group_thousands more
  | _ => rev_digits
  end.

Fixpoint decimal_digits (d : Decimal.uint) : list ascii :=
  match d with
  | Decimal.Nil => []
  | Decimal.D0 d' => "0"%char :: decimal_digits d'
  | Decimal.D1 d' => "1"%char :: decimal_digits d'
  | Decimal.D2 d' => "2"%char :: decimal_digits d'
  | Decimal.D3 d' => "3"%char :: decimal_digits d'
  | Decimal.D4 d' => "4"%char :: decimal_digits d'
  | Decimal.D5 d' => "5"%char :: decimal_digits d'
  | Decimal.D6 d' => "6"%char :: decimal_digits d'
  | Decimal.D7 d' => "7"%char :: decimal_digits d'
  | Decimal.D8 d' => "8"%char :: decimal_digits d'
  | Decimal.D9 d' => "9"%char :: decimal_digits d'
  end.

(** [f"{n:,}"]. *)
Definition format_thousands (n : nat) : string :=
  string_of_list_ascii
    (rev (group_thousands (rev (decimal_digits (Nat.to_uint n))))).

(** ** The program *)

(** The parsed command line. *)
Record Args : Type := mkArgs {
  input : Path;              (* --input, default ManiobrasSimulador *)
  output : Path;             (* --output, default maniobras_combined.csv *)
  sheet : option string;     (* --sheet, default None *)
  skiprows : Z               (* --skiprows, default 0 *)
}.

Inductive SheetSelector : Type :=
| SheetName (sheet_name : string)
| SheetIndex (i : Z).

(** What [pd.read_excel] hands back: a table, [None], or a dictionary
    from sheet names to tables, in insertion order. *)
Inductive Sheets : Type :=
| OneFrame (df : DataFrame)
| NoFrame
| SheetDict (items : list (string * option DataFrame)).

(** What the program runs in.  The workbook parser (openpyxl behind
    pandas) is a function of the bytes of the file, the sheet selector
    and the number of rows to skip; it may raise.  The cast of [concat]
    is pandas's.  A write to an open file fails or not as the
    environment has it. *)
Record World : Type := mkWorld {
  fsys : FileSystem;
  pandas_import_error : option string;   (* [None]: the import succeeds *)
  parse_workbook : string -> SheetSelector -> Z -> result Sheets;
  number_cast : Cast;
  write_fault : Path -> string -> option (string * string)
}.

(** [pd.read_excel(path, sheet_name=..., engine="openpyxl", skiprows=...)]. *)
Definition read_excel (w : World) (path : Path) (sheet_name : SheetSelector)
  (skip : Z) : result Sheets :=
  match stat (fsys w) path with
  | inr (File data) => parse_workbook w data sheet_name skip
  | inr (Dir _) => oserror EISDIR path
  | inl e => oserror e path
  end.

Definition columns_to_remove : list string :=
  [ "Accidents";
    "Collisions";
    "Peds Hit";
    "Speeding Tics";
    "Red Lgt Tics";
    "Speed Exceed";
    "Stop Sign Ticks" ].

(** [sheet_to_read = args.sheet if args.sheet is not None else 0] *)
Definition sheet_to_read (args : Args) : SheetSelector :=
  match sheet args with
  | Some s => SheetName s
  | None => SheetIndex 0
  end.

(** The table the specification lets a reading stand for: the table
    itself, the first sheet of a collection, nothing for an empty
    collection or a missing table. *)
Definition first_sheet (v : Sheets) : option DataFrame :=
  match v with
  | OneFrame df => Some df
  | NoFrame => None
  | SheetDict [] => None
  | SheetDict ((_, first) :: _) => first
  end.

(** What a reading of a single table, or of none, looks like. *)
Definition single (v : option DataFrame) : Sheets :=
  match v with
  | Some df => OneFrame df
  | None => NoFrame
  end.

(** The body of the loop of [main] for one file: [Ok None] is [continue],
    [Ok (Some df)] is [frames.append(df)].
<<
    driver = xlsx_path.parent.name
    maneuver = parse_maneuver_from_filename(xlsx_path)
    sheet_to_read = args.sheet if args.sheet is not None else 0
    df = pd.read_excel(xlsx_path, sheet_name=sheet_to_read,
                       engine="openpyxl", skiprows=args.skiprows)
    if isinstance(df, dict):
        if not df:
            continue
        df = next(iter(df.values()))
    if df is None:
        continue
    df.insert(0, "driver", driver)
    df.insert(1, "maneuver", maneuver)
    df = df.drop(columns=columns_to_remove, errors="ignore")
    frames.append(df)
>> *)
Definition process_file (w : World) (args : Args) (xlsx_path : Path)
  : result (option DataFrame) :=
  let driver := Pathlib.name (Pathlib.parent xlsx_path) in
  maneuver <- parse_maneuver_from_filename xlsx_path ;;
  df <- read_excel w xlsx_path (sheet_to_read args) (skiprows args) ;;
  match df with
  | SheetDict [] => Ok None
  | _ =>
      let df :=
        match df with
        | SheetDict ((_, first) :: _) => first
        | SheetDict [] => None
        | OneFrame f => Some f
        | NoFrame => None
        end in
      match df with
      | None => Ok None
      | Some df =>
          df <- Pandas.insert df 0 "driver" (Value driver) ;;
          df <- Pandas.insert df 1 "maneuver" (Value maneuver) ;;
          Ok (Some (Pandas.drop df columns_to_remove))
      end
  end.

(** The loop over the discovered files; the first exception ends it. *)
Fixpoint collect_frames (w : World) (args : Args) (files : list Path)
  (frames : list DataFrame) : result (list DataFrame) :=
  match files with
  | [] => Ok frames
  | xlsx_path :: rest =>
      r <- process_file w args xlsx_path ;;
      collect_frames w args rest
        match r with
        | Some df => frames ++ [df]
        | None => frames
        end
  end.

(** The end of a run: the file system it leaves, what it printed on the
    standard output, and how it ended ([Ok code]: [main] returned, an
    exception otherwise). *)
Record Outcome : Type := mkOutcome {
  fs_after : FileSystem;
  stdout : list string;
  exit : result Z
}.

(** The exit status of the process: the value [main] returns, and 1 for
    [SystemExit] with a message as for any other exception. *)
Definition exit_status (o : Outcome) : Z :=
  match exit o with
  | Ok code => code
  | Raise _ => 1%Z
  end.


Definition no_files_message (input_root : Path) : string :=
  "No .xlsx files found under " ++ Pathlib.to_str input_root
  ++ ". Expected: " ++ Pathlib.to_str input_root ++ "/Driver*/.xlsx".

Definition wrote_message (n : nat) (resolved : Path) : string :=
  "Wrote " ++ format_thousands n ++ " rows to: " ++ Pathlib.to_str resolved.

(** [main], after the command line is parsed. *)
Definition main (w : World) (args : Args) : Outcome :=
  let input_root := input args in
  let output_csv := output args in
  let fs0 := fsys w in
  if negb (exists_ fs0 input_root) || negb (is_dir fs0 input_root) then
    mkOutcome fs0 []
      (Raise (SystemExit ("Input folder not found or not a directory: "
                          ++ Pathlib.to_str input_root)))
  else
    match pandas_import_error w with
    | Some exc =>
        mkOutcome fs0 []
          (Raise (SystemExit
                    ("Missing dependency: pandas. "
                     ++ "Install with: pip install pandas openpyxl"
                     ++ String line_feed ("Original error: " ++ exc))))
    | None =>
        match collect_frames w args (iter_excel_files fs0 input_root) [] with
        | Raise e => mkOutcome fs0 [] (Raise e)
        | Ok [] =>
            mkOutcome fs0 [] (Raise (SystemExit (no_files_message input_root)))
        | Ok frames =>
            match Pandas.concat (number_cast w) frames with
            | Raise e => mkOutcome fs0 [] (Raise e)
            | Ok combined =>
                match mkdir_parents fs0 (Pathlib.parent output_csv) with
                | (fs1, Some e) => mkOutcome fs1 [] (Raise e)
                | (fs1, None) =>
                    match write_file
                            (write_fault w output_csv (to_csv_bytes combined))
                            fs1 output_csv (to_csv_bytes combined)
                    with
                    | (fs2, Some e) => mkOutcome fs2 [] (Raise e)
                    | (fs2, None) =>
                        mkOutcome fs2
                          [wrote_message (Pandas.len combined)
                                         (resolve fs2 output_csv)]
                          (Ok 0%Z)
                    end
                end
            end
        end
    end.

(** ** A small world to run the program in *)

Module Sample.

Definition table_a : DataFrame :=
  mkDF ["Time"; "Speed"; "Collisions"]
       [[Value "0.0"; Value "10"; Value "0"];
        [Value "0.1"; Value "12"; Value "1"]].

Definition table_b : DataFrame :=
  mkDF ["Time"; "Brake"]
       [[Value "0.0"; Value "0.3"]].

Definition table_empty : DataFrame := mkDF ["Time"] [].

Definition table_driver : DataFrame :=
  mkDF ["Time"; "driver"] [[Value "0.0"; Value "x"]].

(** Two sheets of numbers. *)
Definition table_speed : DataFrame :=
  mkDF ["Time"; "Speed"; "Collisions"]
       [[Scalar "0.0"; Scalar "10"; Scalar "0"];
        [Scalar "0.1"; Scalar "12"; Scalar "1"]].

Definition table_brake : DataFrame :=
  mkDF ["Time"; "Brake"] [[Scalar "0.0"; Scalar "0.3"]].

(** A toy workbook format: the bytes name the content. *)
Definition parser (data : string) (sel : SheetSelector) (skip : Z)
  : result Sheets :=
  if String.eqb data "A" then Ok (OneFrame table_a)
  else if String.eqb data "B" then Ok (OneFrame table_b)
  else if String.eqb data "E" then Ok (OneFrame table_empty)
  else if String.eqb data "D" then Ok (OneFrame table_driver)
  else if String.eqb data "AB" then
    Ok (SheetDict [("s1", Some table_a); ("s2", Some table_b)])
  else if String.eqb data "{}" then Ok (SheetDict [])
  else if String.eqb data "None" then Ok NoFrame
  else if String.eqb data "N1" then Ok (OneFrame table_speed)
  else if String.eqb data "N2" then Ok (OneFrame table_brake)
  else Raise (ReaderError "File is not a zip file").

Definition root_two_drivers : Node :=
  Dir [("data",
        Dir [("notes.txt", File "hello");
             ("DriverB", Dir [("STISIMData_Braking.xlsx", File "B")]);
             ("Other", Dir [("STISIMData_X.xlsx", File "A")]);
             ("DriverA", Dir [("readme.md", File "-");
                              ("STISIMData_U-Turnings.xlsx", File "A")]);
             ("Driver.txt", File "not a folder")])].

(** The sample sheets hold texts only, which no cast changes. *)
Definition no_cast : Cast := fun _ _ _ repr => repr.

(** Writes that do not fail. *)
Definition no_fault : Path -> string -> option (string * string) :=
  fun _ _ => None.

Definition world_of (t : Node) : World :=
  mkWorld (mkFS t []) None parser no_cast no_fault.

Definition args_data : Args :=
  mkArgs (mkPath false ["data"]) (mkPath false ["out"; "merged.csv"])
         None 0.

(** One driver folder holding the file [name] with the bytes [data]. *)
Definition root_one_file (name data : string) : Node :=
  Dir [("data", Dir [("Driver1", Dir [(name, File data)])])].

Definition the_file (name : string) : Path :=
  mkPath false ["data"; "Driver1"; name].


(** Two workbooks, each read as nothing. *)
Definition root_all_skipped : Node :=
  Dir [("data",
        Dir [("Driver1", Dir [("S_a.xlsx", File "{}");
                              ("S_b.xlsx", File "None")])])].

(** A folder named like a workbook, and a file named [.xlsx]. *)
Definition root_odd_names : Node :=
  Dir [("data",
        Dir [("Driver1", Dir [("folder.xlsx", Dir []);
                              (".xlsx", File "A")])])].

Definition args_nowhere : Args :=
  mkArgs (mkPath false ["nowhere"]) (mkPath false ["out"; "merged.csv"])
         None 0.

(** The sample tree with every directory listed in another order. *)
Definition root_two_drivers_shuffled : Node :=
  Dir [("data",
        Dir [("Driver.txt", File "not a folder");
             ("DriverA", Dir [("STISIMData_U-Turnings.xlsx", File "A");
                              ("readme.md", File "-")]);
             ("DriverB", Dir [("STISIMData_Braking.xlsx", File "B")]);
             ("notes.txt", File "hello");
             ("Other", Dir [("STISIMData_X.xlsx", File "A")])])].


(** A good workbook, then one that cannot be parsed, then one whose
    sheet has a column [driver]. *)
Definition root_mixed : Node :=
  Dir [("data",
        Dir [("Driver1", Dir [("S_c.xlsx", File "D");
                              ("S_a.xlsx", File "A");
                              ("S_b.xlsx", File "zip")])])].

(** The output path is the input folder. *)
Definition args_onto_folder : Args :=
  mkArgs (mkPath false ["data"]) (mkPath false ["data"]) None 0.

(** The output path lies under a workbook. *)
Definition args_under_file : Args :=
  mkArgs (mkPath false ["data"])
         (mkPath false ["data"; "DriverA"; "STISIMData_U-Turnings.xlsx";
                        "merged.csv"])
         None 0.

(** A cast in the manner of pandas: a whole number of a column that some
    table lacks is written as a float. *)
Definition float_cast : Cast :=
  fun frames _ c repr =>
    if forallb (fun df => Pandas.mem c (columns df)) frames then repr
    else if PyStr.contains "." repr then repr
    else (repr ++ ".0")%string.

Definition root_numbers : Node :=
  Dir [("data",
        Dir [("DriverB", Dir [("S_Braking.xlsx", File "N2")]);
             ("DriverA", Dir [("S_Speeding.xlsx", File "N1")])])].

Definition world_numbers : World :=
  mkWorld (mkFS root_numbers []) None parser float_cast no_fault.


(** The two sheets of numbers as pandas concatenates them. *)
Definition table_both : DataFrame :=
  mkDF ["Time"; "Speed"; "Collisions"; "Brake"]
       [[Scalar "0.0"; Scalar "10.0"; Scalar "0.0"; NaN];
        [Scalar "0.1"; Scalar "12.0"; Scalar "1.0"; NaN];
        [Scalar "0.0"; NaN; NaN; Scalar "0.3"]].



End Sample.

(** ** Reading aids for the statements *)

(** The three statements that tag and project the table of one file. *)
Definition label_and_project (driver maneuver : string) (df : DataFrame)
  : result DataFrame :=
  df <- Pandas.insert df 0 "driver" (Value driver) ;;
  df <- Pandas.insert df 1 "maneuver" (Value maneuver) ;;
  Ok (Pandas.drop df columns_to_remove).

(** The table a file contributes when its sheet uses neither of the two
    injected labels. *)
Definition labelled (driver maneuver : string) (df : DataFrame) : DataFrame :=
  let keep := map (fun c => negb (Pandas.mem c columns_to_remove)) (columns df) in
  mkDF ("driver" :: "maneuver"
          :: filter (fun c => negb (Pandas.mem c columns_to_remove)) (columns df))
       (map (fun r => Value driver :: Value maneuver :: Pandas.select keep r)
            (rows df)).

Definition total_rows (frames : list DataFrame) : nat :=
  list_sum (map Pandas.len frames).

(** The per-file tables of a run and the table it writes. *)
Definition per_file_tables (w : World) (args : Args)
  : result (list DataFrame) :=
  collect_frames w args (iter_excel_files (fsys w) (input args)) [].

(** How a run ends without touching the file system. *)
Definition aborted (w : World) (o : Outcome) : Prop :=
  fs_after o = fsys w /\ stdout o = [] /\ exists e, exit o = Raise e.

(** One file system extends another: same working directory, and every
    directory still there. *)
Definition extends (fsys fsys' : FileSystem) : Prop :=
  cwd fsys' = cwd fsys /\ keeps_dirs (tree fsys) (tree fsys').

Definition opt_list {A : Type} (o : option A) : list A :=
  match o with
  | Some a => [a]
  | None => []
  end.

(** The sheet a file stands for, when its reading succeeds and is not
    skipped. *)
Definition sheet_of (w : World) (args : Args) (p : Path)
  : option DataFrame :=
  match read_excel w p (sheet_to_read args) (skiprows args) with
  | Ok v => first_sheet v
  | Raise _ => None
  end.

(** The input sheets of a run, each with its file, in discovery order. *)
Definition used_sheets (w : World) (args : Args) : list (Path * DataFrame) :=
  flat_map (fun p => map (pair p) (opt_list (sheet_of w args p)))
           (iter_excel_files (fsys w) (input args)).

(** The table of one input sheet, tagged and projected. *)
Definition table_of (entry : Path * DataFrame) : DataFrame :=
  labelled (Pathlib.name (Pathlib.parent (fst entry)))
           (maneuver_label_spec (fst entry)) (snd entry).

(** A file whose reading succeeds and yields no table: the loop passes
    over it. *)
Definition skipped (w : World) (args : Args) (p : Path) : Prop :=
  exists v, read_excel w p (sheet_to_read args) (skiprows args) = Ok v
            /\ first_sheet v = None.

(** The strict order that goes with [path_le]. *)
Definition path_lt (p q : Path) : Prop := path_le p q /\ p <> q.

(** Two file systems with the same files: the same locations hold a
    file, with the same bytes. *)
Definition same_files (fsys fsys' : FileSystem) : Prop :=
  forall (loc : list string) (d : string),
    node_at (tree fsys') loc = Some (File d)
    <-> node_at (tree fsys) loc = Some (File d).

(** The same files everywhere but at one location. *)
Definition same_files_but (at_loc : list string) (fsys fsys' : FileSystem)
  : Prop :=
  forall (loc : list string) (d : string),
    loc <> at_loc ->
    (node_at (tree fsys') loc = Some (File d)
     <-> node_at (tree fsys) loc = Some (File d)).

(** A node without anything below it: a file or an empty directory. *)
Definition leaf (n : Node) : Prop :=
  forall (c : string) (rest : list string), node_at n (c :: rest) = None.

(** The tables of a run when its loop succeeds, none otherwise. *)
Definition tables_or_none (w : World) (args : Args) : list DataFrame :=
  match per_file_tables w args with
  | Ok frames => frames
  | Raise _ => []
  end.

(** A numeral as a reader takes it: the commas put aside. *)
Definition without_commas (s : string) : string :=
  string_of_list_ascii
    (filter (fun c => negb (Ascii.eqb c ",")) (list_ascii_of_string s)).

(** [int(s.replace(",", ""))] for a text of decimal digits. *)
Definition read_count (s : string) : option nat :=
  option_map Nat.of_uint (NilEmpty.uint_of_string (without_commas s)).

(** What a write that got past the open leaves: the bytes it was given,
    or the bytes that reached the file when it failed. *)
Definition written (fault : option (string * string)) (data : string)
  : string :=
  match fault with
  | Some (_, partial) => partial
  | None => data
  end.

(** ** Reading tables and bytes in the statements *)

(** A cell that went through [concat]: a missing value is still missing,
    a text is the same text, another scalar is still a scalar, written
    as its new column has it. *)
Definition kept (before after : Cell) : Prop :=
  match before, after with
  | NaN, NaN => True
  | Value s, Value t => s = t
  | Scalar _, Scalar _ => True
  | _, _ => False
  end.

(** A label on the list of removed columns. *)
Definition listed (c : string) : bool :=
  existsb (String.eqb c) columns_to_remove.

(** The cells of a row whose label is not listed, in order. *)
Definition kept_cells (cols : list string) (row : list Cell) : list Cell :=
  map snd (filter (fun cv => negb (listed (fst cv))) (combine cols row)).

(** The table of a sheet as the specification describes it: the two
    labels in front, the listed columns gone, labels and cells. *)
Definition expected_table (driver label : string) (sheet : DataFrame)
  : DataFrame :=
  mkDF ("driver" :: "maneuver"
          :: filter (fun c => negb (listed c)) (columns sheet))
       (map (fun r => Value driver :: Value label
                        :: kept_cells (columns sheet) r)
            (rows sheet)).

(** The number of rows of the first [i] tables. *)
Definition rows_before (i : nat) (frames : list DataFrame) : nat :=
  list_sum (map (fun df => List.length (rows df)) (firstn i frames)).

(** A field that no CSV dialect quotes: no comma, no quote, no line
    break. *)
Definition plain (field : string) : Prop :=
  PyStr.contains "," field = false
  /\ PyStr.contains quote_char field = false
  /\ PyStr.contains line_feed field = false
  /\ PyStr.contains carriage_return field = false.

(** Records of plain fields: the fields with commas between, a line
    feed after each record. *)
Definition plain_lines (records : list (list string)) : string :=
  String.concat EmptyString
    (map (fun r => (String.concat "," r ++ line_terminator)%string) records).

(** * Properties *)

(** ** Strings and paths *)

Lemma split_not_nil (sep : ascii) (s : string) : PyStr.split sep s <> [].
Proof.
  induction s as [|c rest IH]; simpl; [discriminate|].
  destruct (Ascii.eqb c sep); [discriminate|].
  destruct (PyStr.split sep rest); [contradiction|discriminate].
Qed.

(** A string without the separator is a single segment. *)
Lemma split_no_sep (sep : ascii) (s : string) :
  PyStr.contains sep s = false -> PyStr.split sep s = [s].
Proof.
  induction s as [|c rest IH]; simpl; [reflexivity|].
  destruct (Ascii.eqb c sep); simpl; [discriminate|].
  intros H. rewrite (IH H). reflexivity.
Qed.

(** Cutting [a ++ sep ++ t] where [a] has no separator. *)
Lemma split_app_sep (sep : ascii) (a t : string) :
  PyStr.contains sep a = false ->
  PyStr.split sep (a ++ String sep t)%string = a :: PyStr.split sep t.
Proof.
  induction a as [|c rest IH]; simpl.
  - intros _. rewrite Ascii.eqb_refl. reflexivity.
  - destruct (Ascii.eqb c sep); simpl; [discriminate|].
    intros H. rewrite (IH H). reflexivity.
Qed.

(** C1. For every path, [parse_maneuver_from_filename] returns (it never
    raises) the segment at index 1 of the stem cut at underscores when
    there are at least two segments, and the empty string otherwise.  The
    two cases are also stated on the shape of the stem: a stem without an
    underscore gives the empty label, and a stem [a_b] or [a_b_rest] with
    no underscore in [a] and [b] gives [b].  The two examples of the
    specification are evaluated. *)
Theorem parse_maneuver_total_and_correct :
  (forall p : Path,
      parse_maneuver_from_filename p = Ok (maneuver_label_spec p)) /\
  (forall p : Path,
      PyStr.contains "_" (Pathlib.stem p) = false ->
      parse_maneuver_from_filename p = Ok EmptyString) /\
  (forall (p : Path) (a b : string),
      PyStr.contains "_" a = false -> PyStr.contains "_" b = false ->
      Pathlib.stem p = (a ++ String "_" b)%string ->
      parse_maneuver_from_filename p = Ok b) /\
  (forall (p : Path) (a b rest : string),
      PyStr.contains "_" a = false -> PyStr.contains "_" b = false ->
      Pathlib.stem p = (a ++ String "_" (b ++ String "_" rest))%string ->
      parse_maneuver_from_filename p = Ok b) /\
  parse_maneuver_from_filename (mkPath false ["STISIMData_U-Turnings.xlsx"])
    = Ok "U-Turnings" /\
  parse_maneuver_from_filename (mkPath false ["NoUnderscoreName.xlsx"])
    = Ok EmptyString.
Proof.
  assert (main : forall p, parse_maneuver_from_filename p
                           = Ok (maneuver_label_spec p)).
  { intros p. unfold parse_maneuver_from_filename, maneuver_label_spec.
    destruct (PyStr.split "_" (stem p)) as [|x [|y l]]; reflexivity. }
  split; [exact main|].
  split; [|split; [|split; [|split; reflexivity]]].
  - intros p H. rewrite main. unfold maneuver_label_spec.
    rewrite (split_no_sep _ _ H). reflexivity.
  - intros p a b Ha Hb E. rewrite main. unfold maneuver_label_spec.
    rewrite E, (split_app_sep _ _ _ Ha), (split_no_sep _ _ Hb). reflexivity.
  - intros p a b rest Ha Hb E. rewrite main. unfold maneuver_label_spec.
    rewrite E, (split_app_sep _ _ _ Ha), (split_app_sep _ _ _ Hb).
    reflexivity.
Qed.


(** ** Glob patterns *)

Lemma fnmatch_star (pat nm : string) :
  fnmatch (String "*" pat) nm
  = fnmatch pat nm
    || match nm with
       | EmptyString => false
       | String _ nm' => fnmatch (String "*" pat) nm'
       end.
Proof. destruct nm; reflexivity. Qed.

Lemma fnmatch_star_iff (pat nm : string) :
  fnmatch (String "*" pat) nm = true <->
  exists a b, nm = (a ++ b)%string /\ fnmatch pat b = true.
Proof.
  induction nm as [|c nm IH]; rewrite fnmatch_star, orb_true_iff.
  - split.
    + intros [H|H]; [|discriminate]. exists EmptyString, EmptyString. auto.
    + intros (a & b & E & H). left.
      destruct a; [|discriminate]. simpl in E. subst b. exact H.
  - rewrite IH. split.
    + intros [H|(a & b & E & H)].
      * exists EmptyString, (String c nm). auto.
      * exists (String c a), b. simpl. rewrite E. auto.
    + intros (a & b & E & H). destruct a as [|c' a]; simpl in E.
      * left. subst b. exact H.
      * right. injection E as -> ->. eauto.
Qed.

Lemma fnmatch_literal_cons (p : ascii) (pat nm : string) :
  Ascii.eqb p "*" = false -> Ascii.eqb p "?" = false ->
  fnmatch (String p pat) nm
  = match nm with
    | EmptyString => false
    | String c nm' => Ascii.eqb p c && fnmatch pat nm'
    end.
Proof. intros H1 H2. simpl. rewrite H1, H2. reflexivity. Qed.

(** A pattern without wildcard matches itself only. *)
Lemma fnmatch_literal (lit nm : string) :
  PyStr.literal lit = true -> (fnmatch lit nm = true <-> nm = lit).
Proof.
  revert nm. induction lit as [|p lit IH]; intros nm L.
  - destruct nm; simpl; split; congruence.
  - simpl in L. apply andb_true_iff in L as [L L3].
    apply andb_true_iff in L as [L1 L2].
    apply negb_true_iff in L1, L2.
    rewrite (fnmatch_literal_cons _ _ _ L1 L2).
    destruct nm as [|c nm]; [split; discriminate|].
    rewrite andb_true_iff, Ascii.eqb_eq, (IH nm L3).
    split; [intros [-> ->]; reflexivity|]. intros E. injection E as -> ->. auto.
Qed.

(** [lit*] matches the names that start with [lit]. *)
Lemma fnmatch_prefix (lit nm : string) :
  PyStr.literal lit = true ->
  (fnmatch (lit ++ "*") nm = true <-> PyStr.starts_with lit nm).
Proof.
  revert nm. induction lit as [|p lit IH]; intros nm L.
  - simpl append. rewrite fnmatch_star_iff. split.
    + intros _. exists nm. reflexivity.
    + intros _. exists nm, EmptyString. split; [|reflexivity].
      clear. induction nm; simpl; congruence.
  - simpl in L. apply andb_true_iff in L as [L L3].
    apply andb_true_iff in L as [L1 L2].
    apply negb_true_iff in L1, L2.
    simpl append. rewrite (fnmatch_literal_cons _ _ _ L1 L2).
    destruct nm as [|c nm].
    + split; [discriminate|]. intros (rest & E). discriminate.
    + rewrite andb_true_iff, Ascii.eqb_eq, (IH nm L3). split.
      * intros [-> (rest & ->)]. exists rest. reflexivity.
      * intros (rest & E). injection E as -> ->. split; [reflexivity|].
        exists rest. reflexivity.
Qed.

(** [*lit] matches the names that end with [lit]. *)
Lemma fnmatch_suffix (lit nm : string) :
  PyStr.literal lit = true ->
  (fnmatch (String "*" lit) nm = true <-> PyStr.ends_with lit nm).
Proof.
  intros L. rewrite fnmatch_star_iff. split.
  - intros (a & b & -> & H). apply (fnmatch_literal _ _ L) in H. subst b.
    exists a. reflexivity.
  - intros (base & ->). exists base, lit. split; [reflexivity|].
    apply (fnmatch_literal _ _ L). reflexivity.
Qed.

Lemma fnmatch_Driver (nm : string) :
  fnmatch "Driver*" nm = true <-> PyStr.starts_with "Driver" nm.
Proof. exact (fnmatch_prefix "Driver" nm eq_refl). Qed.

Lemma fnmatch_xlsx (nm : string) :
  fnmatch "*.xlsx" nm = true <-> PyStr.ends_with ".xlsx" nm.
Proof. exact (fnmatch_suffix ".xlsx" nm eq_refl). Qed.

(** ** Paths *)

Lemma name_joinpath (p : Path) (c : string) :
  Pathlib.name (joinpath p c) = c.
Proof. unfold Pathlib.name, joinpath. simpl. apply last_last. Qed.

Lemma parent_joinpath (p : Path) (c : string) :
  Pathlib.parent (joinpath p c) = p.
Proof.
  destruct p as [a ps]. unfold Pathlib.parent, joinpath. simpl.
  rewrite removelast_last. reflexivity.
Qed.

(** ** Sorting *)

Lemma string_compare_refl (s : string) : String.compare s s = Eq.
Proof.
  induction s as [|c s IH]; simpl; [reflexivity|].
  unfold Ascii.compare. rewrite N.compare_refl. exact IH.
Qed.

Lemma list_leb_total (a b : list string) :
  list_leb a b = false -> list_leb b a = true.
Proof.
  revert b. induction a as [|x a IH]; intros [|y b]; simpl; try congruence.
  rewrite (String.compare_antisym y x).
  destruct (String.compare x y); simpl; auto; discriminate.
Qed.

Lemma path_leb_total (p q : Path) :
  path_leb p q = false -> path_leb q p = true.
Proof. apply list_leb_total. Qed.

Lemma list_leb_app (pre a b : list string) :
  list_leb (pre ++ a) (pre ++ b) = list_leb a b.
Proof.
  induction pre as [|x pre IH]; simpl; [reflexivity|].
  rewrite string_compare_refl. exact IH.
Qed.

(** Two children of one directory compare as their names do. *)
Lemma path_leb_siblings (p : Path) (a b : string) :
  path_leb (joinpath p a) (joinpath p b) = String.leb a b.
Proof.
  unfold path_leb, cparts, joinpath. simpl.
  rewrite !app_assoc, list_leb_app. simpl. unfold String.leb.
  destruct (String.compare a b); reflexivity.
Qed.

Lemma insert_sorted_In (x y : Path) (l : list Path) :
  In y (insert_sorted x l) <-> y = x \/ In y l.
Proof.
  induction l as [|z l IH]; simpl.
  - intuition.
  - destruct (path_leb x z); simpl; rewrite ?IH; intuition.
Qed.

Lemma sorted_In (y : Path) (l : list Path) : In y (sorted l) <-> In y l.
Proof.
  induction l as [|x l IH]; simpl; [reflexivity|].
  rewrite insert_sorted_In, IH. intuition.
Qed.

Lemma insert_sorted_perm (x : Path) (l : list Path) :
  Permutation (x :: l) (insert_sorted x l).
Proof.
  induction l as [|z l IH]; simpl; [reflexivity|].
  destruct (path_leb x z); [reflexivity|].
  rewrite perm_swap. apply perm_skip. exact IH.
Qed.

Lemma sorted_perm (l : list Path) : Permutation l (sorted l).
Proof.
  induction l as [|x l IH]; simpl; [reflexivity|].
  rewrite <- insert_sorted_perm. apply perm_skip. exact IH.
Qed.

Lemma insert_sorted_HdRel (x a : Path) (l : list Path) :
  path_le a x -> HdRel path_le a l -> HdRel path_le a (insert_sorted x l).
Proof.
  intros Hax H. destruct l as [|z l]; simpl.
  - constructor. exact Hax.
  - destruct (path_leb x z); constructor; [exact Hax|].
    inversion H; assumption.
Qed.

Lemma insert_sorted_Sorted (x : Path) (l : list Path) :
  Sorted path_le l -> Sorted path_le (insert_sorted x l).
Proof.
  induction 1 as [|z l S IH H]; simpl.
  - repeat constructor.
  - destruct (path_leb x z) eqn:E.
    + constructor; [constructor; assumption|]. constructor. exact E.
    + constructor; [exact IH|].
      apply insert_sorted_HdRel; [|exact H].
      apply path_leb_total. exact E.
Qed.

Lemma sorted_Sorted (l : list Path) : Sorted path_le (sorted l).
Proof.
  induction l as [|x l IH]; simpl; [constructor|].
  apply insert_sorted_Sorted. exact IH.
Qed.

(** ** Discovery *)

Lemma glob_In (fsys : FileSystem) (p q : Path) (pattern : string) :
  In q (glob fsys p pattern) <->
  exists nm, q = joinpath p nm /\ In nm (listdir fsys p)
             /\ fnmatch pattern nm = true.
Proof.
  unfold glob. destruct (is_dir fsys p) eqn:D.
  - rewrite in_map_iff. split.
    + intros (nm & <- & H). apply filter_In in H. eauto.
    + intros (nm & -> & H1 & H2). exists nm. split; [reflexivity|].
      apply filter_In. auto.
  - split; [intros []|]. intros (nm & _ & H & _).
    unfold listdir in H. unfold is_dir in D.
    destruct (stat fsys p) as [e|[data|entries]]; simpl in H;
      solve [contradiction | discriminate].
Qed.

(** The files one directory contributes: none when it is not a
    directory, else its entries matching [*.xlsx], sorted. *)
Lemma xlsx_of_dir_In (fsys : FileSystem) (d f : Path) :
  In f (if negb (is_dir fsys d) then []
        else sorted (glob fsys d "*.xlsx")) <->
  is_dir fsys d = true /\
  exists nm, f = joinpath d nm /\ In nm (listdir fsys d)
             /\ PyStr.ends_with ".xlsx" nm.
Proof.
  destruct (is_dir fsys d); simpl.
  - rewrite sorted_In, glob_In. split.
    + intros (nm & E & H & M). split; [reflexivity|].
      exists nm. rewrite <- fnmatch_xlsx. auto.
    + intros (_ & nm & E & H & M). exists nm. rewrite fnmatch_xlsx. auto.
  - split; [intros []|intros [D _]; discriminate].
Qed.

Lemma iter_excel_files_In (fsys : FileSystem) (root p : Path) :
  In p (iter_excel_files fsys root) <->
  exists d f,
    p = joinpath (joinpath root d) f
    /\ In d (listdir fsys root) /\ PyStr.starts_with "Driver" d
    /\ is_dir fsys (joinpath root d) = true
    /\ In f (listdir fsys (joinpath root d)) /\ PyStr.ends_with ".xlsx" f.
Proof.
  unfold iter_excel_files. rewrite in_flat_map. split.
  - intros (dp & Hd & Hf). apply sorted_In, glob_In in Hd.
    destruct Hd as (d & -> & Hd & Md). apply xlsx_of_dir_In in Hf.
    destruct Hf as (D & f & -> & Hf & Mf).
    exists d, f. rewrite <- fnmatch_Driver. auto 8.
  - intros (d & f & -> & Hd & Md & D & Hf & Mf).
    exists (joinpath root d). split.
    + apply sorted_In, glob_In. exists d. rewrite fnmatch_Driver. auto.
    + apply xlsx_of_dir_In. split; [exact D|]. exists f. auto.
Qed.

(** C5. Discovery yields exactly the entries named [*.xlsx] (files of any
    kind, as [glob] reports them) of the directories named [Driver*]
    directly under the root.  The result is the concatenation, over the
    sorted list of the entries of the root named [Driver*], of the sorted
    list of matching entries of each; an entry of the root that is not a
    directory contributes nothing, and so does one whose name does not
    start with [Driver].  Children of one directory are ordered as their
    names are.  The function is total: nothing raises. *)
Theorem iter_excel_files_exact_and_sorted :
  forall (fsys : FileSystem) (root : Path),
    (forall p : Path,
        In p (iter_excel_files fsys root) <->
        exists d f,
          p = joinpath (joinpath root d) f
          /\ In d (listdir fsys root) /\ PyStr.starts_with "Driver" d
          /\ is_dir fsys (joinpath root d) = true
          /\ In f (listdir fsys (joinpath root d))
          /\ PyStr.ends_with ".xlsx" f)
    /\ (exists (dirs : list Path) (files : Path -> list Path),
           iter_excel_files fsys root = flat_map files dirs
           /\ Sorted path_le dirs
           /\ (forall d : Path,
                  In d dirs <->
                  exists nm, d = joinpath root nm
                             /\ In nm (listdir fsys root)
                             /\ PyStr.starts_with "Driver" nm)
           /\ (forall d : Path, Sorted path_le (files d))
           /\ (forall d f : Path,
                  In f (files d) <->
                  is_dir fsys d = true /\
                  exists nm, f = joinpath d nm
                             /\ In nm (listdir fsys d)
                             /\ PyStr.ends_with ".xlsx" nm))
    /\ (forall (d : Path) (a b : string),
           path_le (joinpath d a) (joinpath d b) <-> name_le a b)
    /\ (forall d : string,
           is_dir fsys (joinpath root d) = false
           \/ ~ PyStr.starts_with "Driver" d ->
           forall f : string,
             ~ In (joinpath (joinpath root d) f)
                  (iter_excel_files fsys root)).
Proof.
  intros fsys root. split; [apply iter_excel_files_In|]. split; [|split].
  - exists (sorted (glob fsys root "Driver*")),
      (fun d => if negb (is_dir fsys d) then []
                else sorted (glob fsys d "*.xlsx")).
    split; [reflexivity|]. split; [apply sorted_Sorted|].
    split; [|split].
    + intros d. rewrite sorted_In, glob_In.
      split; intros (nm & E & H & M); exists nm;
        [rewrite <- fnmatch_Driver | rewrite fnmatch_Driver]; auto.
    + intros d. destruct (negb (is_dir fsys d)); [constructor|].
      apply sorted_Sorted.
    + intros d f. apply xlsx_of_dir_In.
  - intros d a b. unfold path_le, name_le.
    rewrite path_leb_siblings. reflexivity.
  - intros d H f Hin. apply iter_excel_files_In in Hin.
    destruct Hin as (d' & f' & E & _ & Md & D & _).
    assert (d' = d) as ->.
    { apply (f_equal Pathlib.parent) in E. rewrite !parent_joinpath in E.
      apply (f_equal Pathlib.name) in E. rewrite !name_joinpath in E.
      congruence. }
    destruct H as [H|H]; [congruence|contradiction].
Qed.

(** ** Tables *)

Lemma mem_In (c : string) (l : list string) :
  Pandas.mem c l = true <-> In c l.
Proof.
  unfold Pandas.mem. rewrite existsb_exists. split.
  - intros (x & H & E). apply String.eqb_eq in E. subst. exact H.
  - intros H. exists c. split; [exact H|apply String.eqb_refl].
Qed.

Lemma mem_false (c : string) (l : list string) :
  Pandas.mem c l = false <-> ~ In c l.
Proof.
  rewrite <- mem_In. destruct (Pandas.mem c l); split; congruence.
Qed.

Lemma select_filter (f : string -> bool) (cols : list string) :
  Pandas.select (map f cols) cols = filter f cols.
Proof.
  induction cols as [|c cols IH]; simpl; [reflexivity|].
  destruct (f c); rewrite IH; reflexivity.
Qed.

Lemma drop_columns (df : DataFrame) (labels : list string) :
  columns (Pandas.drop df labels)
  = filter (fun c => negb (Pandas.mem c labels)) (columns df).
Proof. unfold Pandas.drop. simpl. apply select_filter. Qed.

Lemma drop_columns_In (df : DataFrame) (labels : list string) (c : string) :
  In c (columns (Pandas.drop df labels)) <->
  In c (columns df) /\ ~ In c labels.
Proof.
  rewrite drop_columns, filter_In, negb_true_iff, mem_false. reflexivity.
Qed.

Lemma drop_len (df : DataFrame) (labels : list string) :
  Pandas.len (Pandas.drop df labels) = Pandas.len df.
Proof. unfold Pandas.len, Pandas.drop. simpl. apply length_map. Qed.

Lemma select_all {A : Type} (mask : list bool) (l : list A) :
  Forall (fun b => b = true) mask -> List.length l <= List.length mask ->
  Pandas.select mask l = l.
Proof.
  intros H. revert l. induction H as [|b mask -> _ IH]; intros [|x l] Hl;
    simpl in *; try reflexivity; [lia|].
  rewrite IH; [reflexivity|lia].
Qed.

(** Dropping labels that the table does not have changes nothing. *)
Lemma drop_absent (df : DataFrame) (labels : list string) :
  (forall c, In c labels -> ~ In c (columns df)) ->
  Forall (fun r => List.length r = List.length (columns df)) (rows df) ->
  Pandas.drop df labels = df.
Proof.
  intros Habs Hwf. destruct df as [cols rws]. simpl in *. unfold Pandas.drop.
  simpl.
  assert (M : Forall (fun b => b = true)
                (map (fun c => negb (Pandas.mem c labels)) cols)).
  { apply Forall_map, Forall_forall. intros c Hc.
    apply negb_true_iff, mem_false. intros Hl. exact (Habs c Hl Hc). }
  f_equal.
  - apply select_all; [exact M|]. rewrite length_map. lia.
  - rewrite <- (map_id rws) at 2. apply map_ext_in. intros r Hr.
    apply select_all; [exact M|]. rewrite length_map.
    rewrite Forall_forall in Hwf. rewrite (Hwf r Hr). lia.
Qed.

Lemma insert_raises (df : DataFrame) (loc : nat) (c : string) (v : Cell) :
  In c (columns df) ->
  Pandas.insert df loc c v
  = Raise (ValueError ("cannot insert " ++ c ++ ", already exists")).
Proof.
  intros H. unfold Pandas.insert. apply mem_In in H. rewrite H. reflexivity.
Qed.

Lemma insert_front (df : DataFrame) (c : string) (v : Cell) :
  ~ In c (columns df) ->
  Pandas.insert df 0 c v
  = Ok (mkDF (c :: columns df) (map (cons v) (rows df))).
Proof.
  intros H. unfold Pandas.insert. apply mem_false in H. rewrite H.
  reflexivity.
Qed.

Lemma insert_second (c0 : string) (cols : list string)
  (rws : list (list Cell)) (v0 : Cell) (c : string) (v : Cell) :
  ~ In c (c0 :: cols) ->
  Pandas.insert (mkDF (c0 :: cols) (map (cons v0) rws)) 1 c v
  = Ok (mkDF (c0 :: c :: cols) (map (fun r => v0 :: v :: r) rws)).
Proof.
  intros H. unfold Pandas.insert. apply mem_false in H. simpl columns.
  rewrite H. simpl. rewrite map_map. reflexivity.
Qed.

(** What tagging and projecting one table gives, case by case. *)
Lemma label_and_project_cases (driver maneuver : string) (df : DataFrame) :
  (In "driver" (columns df) ->
   label_and_project driver maneuver df
   = Raise (ValueError "cannot insert driver, already exists"))
  /\ (~ In "driver" (columns df) -> In "maneuver" (columns df) ->
      label_and_project driver maneuver df
      = Raise (ValueError "cannot insert maneuver, already exists"))
  /\ (~ In "driver" (columns df) -> ~ In "maneuver" (columns df) ->
      label_and_project driver maneuver df
      = Ok (labelled driver maneuver df)).
Proof.
  unfold label_and_project. split; [|split].
  - intros H. rewrite (insert_raises _ _ _ _ H). reflexivity.
  - intros H1 H2. rewrite (insert_front _ _ _ H1). simpl.
    rewrite insert_raises; [reflexivity|]. simpl. auto.
  - intros H1 H2. rewrite (insert_front _ _ _ H1). simpl.
    rewrite insert_second.
    + simpl. unfold Pandas.drop, labelled. simpl. rewrite select_filter.
      rewrite map_map. reflexivity.
    + simpl. intros [E|E]; [discriminate|contradiction].
Qed.

Lemma labelled_len (driver maneuver : string) (df : DataFrame) :
  Pandas.len (labelled driver maneuver df) = Pandas.len df.
Proof. unfold Pandas.len, labelled. simpl. apply length_map. Qed.

(** ** The loop body *)

Lemma parse_maneuver_returns (p : Path) :
  parse_maneuver_from_filename p = Ok (maneuver_label_spec p).
Proof.
  unfold parse_maneuver_from_filename, maneuver_label_spec.
  destruct (PyStr.split "_" (stem p)) as [|x [|y l]]; reflexivity.
Qed.

Lemma process_file_read_raises (w : World) (args : Args) (p : Path) (e : exn) :
  read_excel w p (sheet_to_read args) (skiprows args) = Raise e ->
  process_file w args p = Raise e.
Proof.
  intros H. unfold process_file. rewrite parse_maneuver_returns. simpl.
  rewrite H. reflexivity.
Qed.

Lemma process_file_read_ok (w : World) (args : Args) (p : Path) (v : Sheets) :
  read_excel w p (sheet_to_read args) (skiprows args) = Ok v ->
  process_file w args p
  = match first_sheet v with
    | None => Ok None
    | Some df =>
        df' <- label_and_project (Pathlib.name (Pathlib.parent p))
                 (maneuver_label_spec p) df ;;
        Ok (Some df')
    end.
Proof.
  intros H. unfold process_file. rewrite parse_maneuver_returns. simpl.
  rewrite H. simpl. unfold label_and_project.
  destruct v as [df| |[|[k [df|]] items]]; simpl; try reflexivity;
    destruct (Pandas.insert df 0 "driver" _) as [df1|e]; simpl;
      try reflexivity;
      destruct (Pandas.insert df1 1 "maneuver" _); reflexivity.
Qed.

(** ** The loop *)

Lemma collect_frames_app (w : World) (args : Args) (files : list Path)
  (acc : list DataFrame) :
  collect_frames w args files acc
  = frames <- collect_frames w args files [] ;; Ok (acc ++ frames).
Proof.
  revert acc. induction files as [|p files IH]; intros acc; simpl.
  - rewrite app_nil_r. reflexivity.
  - destruct (process_file w args p) as [r|e]; simpl; [|reflexivity].
    destruct r as [df|]; simpl; [|apply IH].
    rewrite (IH (acc ++ [df])), (IH [df]).
    destruct (collect_frames w args files []) as [frames|e]; simpl;
      [|reflexivity].
    rewrite <- app_assoc. reflexivity.
Qed.

Lemma collect_frames_cons (w : World) (args : Args) (p : Path)
  (files : list Path) :
  collect_frames w args (p :: files) []
  = r <- process_file w args p ;;
    frames <- collect_frames w args files [] ;;
    Ok (opt_list r ++ frames).
Proof.
  simpl. destruct (process_file w args p) as [r|e]; simpl; [|reflexivity].
  rewrite collect_frames_app. destruct r; reflexivity.
Qed.

(** The loop succeeds exactly when the body succeeds on every file, and
    then it has the tables of the files that were not skipped, in order. *)
Lemma collect_frames_ok (w : World) (args : Args) (files : list Path)
  (frames : list DataFrame) :
  collect_frames w args files [] = Ok frames <->
  exists rs : list (option DataFrame),
    Forall2 (fun p r => process_file w args p = Ok r) files rs
    /\ frames = flat_map opt_list rs.
Proof.
  revert frames. induction files as [|p files IH]; intros frames.
  - simpl. split.
    + intros E. injection E as <-. exists []. split; constructor.
    + intros (rs & F & ->). inversion F. reflexivity.
  - rewrite collect_frames_cons. split.
    + destruct (process_file w args p) as [r|e] eqn:Ep; simpl; [|discriminate].
      destruct (collect_frames w args files []) as [fs|e] eqn:Ec; simpl;
        [|discriminate].
      intros E. injection E as <-.
      destruct (proj1 (IH fs) eq_refl) as (rs & F & ->).
      exists (r :: rs). split; [constructor; assumption|reflexivity].
    + intros (rs & F & ->). inversion F as [|p' r files' rs' Hp F' E1 E2].
      subst. rewrite Hp. simpl.
      rewrite (proj2 (IH (flat_map opt_list rs'))); [reflexivity|].
      exists rs'. auto.
Qed.

(** An exception of the body on any file ends the loop with an
    exception, that one or an earlier one. *)
Lemma collect_frames_raises (w : World) (args : Args) (files : list Path)
  (acc : list DataFrame) (p : Path) (e : exn) :
  In p files -> process_file w args p = Raise e ->
  exists e', collect_frames w args files acc = Raise e'.
Proof.
  revert acc. induction files as [|q files IH]; intros acc [].
  - subst q. intros H. simpl. rewrite H. simpl. eauto.
  - intros Hp. simpl. destruct (process_file w args q); simpl; eauto.
Qed.

(** ** The shape of a run *)

Lemma aborted_status (w : World) (o : Outcome) :
  aborted w o -> exit_status o = 1%Z.
Proof. intros (_ & _ & e & E). unfold exit_status. rewrite E. reflexivity. Qed.

Lemma main_bad_input (w : World) (args : Args) :
  exists_ (fsys w) (input args) = false
  \/ is_dir (fsys w) (input args) = false ->
  main w args
  = mkOutcome (fsys w) []
      (Raise (SystemExit ("Input folder not found or not a directory: "
                          ++ Pathlib.to_str (input args)))).
Proof.
  intros H. unfold main.
  destruct (exists_ (fsys w) (input args)), (is_dir (fsys w) (input args));
    simpl; try reflexivity.
  destruct H; discriminate.
Qed.

Lemma main_good_input (w : World) (args : Args) :
  is_dir (fsys w) (input args) = true ->
  negb (exists_ (fsys w) (input args)) || negb (is_dir (fsys w) (input args))
  = false.
Proof.
  intros H. rewrite H. unfold exists_. unfold is_dir in H.
  destruct (stat (fsys w) (input args)); [discriminate|reflexivity].
Qed.

Lemma main_missing_pandas (w : World) (args : Args) (exc : string) :
  pandas_import_error w = Some exc ->
  exists message,
    main w args = mkOutcome (fsys w) [] (Raise (SystemExit message)).
Proof.
  intros H. unfold main. rewrite H.
  destruct (negb _ || negb _); eauto.
Qed.

Lemma main_loop_raises (w : World) (args : Args) (e : exn) :
  per_file_tables w args = Raise e -> aborted w (main w args).
Proof.
  unfold per_file_tables. intros H. unfold main, aborted. rewrite H.
  destruct (negb _ || negb _); simpl; [eauto|].
  destruct (pandas_import_error w); simpl; eauto.
Qed.

Lemma main_no_frames (w : World) (args : Args) :
  per_file_tables w args = Ok [] ->
  exists message,
    main w args = mkOutcome (fsys w) [] (Raise (SystemExit message))
    /\ (is_dir (fsys w) (input args) = true ->
        pandas_import_error w = None ->
        message = no_files_message (input args)).
Proof.
  unfold per_file_tables. intros H. unfold main. rewrite H.
  destruct (is_dir (fsys w) (input args)) eqn:D.
  - pose proof (main_good_input _ _ D) as G. rewrite D in G. rewrite G.
    destruct (pandas_import_error w); eexists; split;
      try reflexivity; intros; congruence.
  - rewrite orb_true_r. eexists. split; [reflexivity|]. discriminate.
Qed.

(** A write that succeeds is a write without fault. *)
Lemma write_file_no_fault (fault : option (string * string))
  (fsys fsys' : FileSystem) (p : Path) (data : string) :
  write_file fault fsys p data = (fsys', None) ->
  write_file None fsys p data = (fsys', None).
Proof.
  unfold write_file. destruct (locate fsys p) as [e|loc]; [discriminate|].
  destruct (node_at (tree fsys) loc) as [[d|es]|], (parts p);
    try discriminate; destruct fault as [[e partial]|]; try discriminate;
    auto.
Qed.

(** A run that returns went through every stage. *)
Lemma main_returns (w : World) (args : Args) (code : Z) :
  exit (main w args) = Ok code ->
  code = 0%Z
  /\ is_dir (fsys w) (input args) = true
  /\ pandas_import_error w = None
  /\ exists frames combined fs1,
      per_file_tables w args = Ok frames
      /\ frames <> []
      /\ Pandas.concat (number_cast w) frames = Ok combined
      /\ mkdir_parents (fsys w) (Pathlib.parent (output args)) = (fs1, None)
      /\ write_file None fs1 (output args) (to_csv_bytes combined)
         = (fs_after (main w args), None)
      /\ stdout (main w args)
         = [wrote_message (Pandas.len combined)
                          (resolve (fs_after (main w args)) (output args))].
Proof.
  unfold main, per_file_tables.
  destruct (is_dir (fsys w) (input args)) eqn:D;
    [pose proof (main_good_input _ _ D) as G; rewrite D in G; rewrite G
    |rewrite orb_true_r; discriminate].
  destruct (pandas_import_error w); [discriminate|].
  destruct (collect_frames _ _ _ _) as [[|df frames]|e]; try discriminate.
  destruct (Pandas.concat (number_cast w) (df :: frames)) as [combined|e] eqn:C;
    [|discriminate].
  destruct (mkdir_parents _ _) as [fs1 [e|]]; [discriminate|].
  destruct (write_file _ _ _ _) as [fs2 [e|]] eqn:W; [discriminate|].
  simpl. intros E. injection E as <-.
  repeat split. exists (df :: frames), combined, fs1.
  repeat split; auto; [discriminate|].
  apply write_file_no_fault in W. exact W.
Qed.

(** Conversely, when every stage succeeds the run returns 0. *)
Lemma main_runs (w : World) (args : Args) (frames : list DataFrame)
  (combined : DataFrame) (fs1 fs2 : FileSystem) :
  is_dir (fsys w) (input args) = true ->
  pandas_import_error w = None ->
  per_file_tables w args = Ok frames ->
  frames <> [] ->
  Pandas.concat (number_cast w) frames = Ok combined ->
  mkdir_parents (fsys w) (Pathlib.parent (output args)) = (fs1, None) ->
  write_file (write_fault w (output args) (to_csv_bytes combined))
             fs1 (output args) (to_csv_bytes combined) = (fs2, None) ->
  main w args
  = mkOutcome fs2
      [wrote_message (Pandas.len combined) (resolve fs2 (output args))]
      (Ok 0%Z).
Proof.
  unfold per_file_tables. intros D P F N C M W. unfold main.
  rewrite (main_good_input _ _ D), P, F.
  destruct frames as [|df frames]; [congruence|].
  rewrite C, M, W. reflexivity.
Qed.

(** ** The file system *)

Lemma assoc_set_entry_same {A : Type} (k : string) (v : A)
  (l : list (string * A)) :
  assoc k (set_entry k v l) = Some v.
Proof.
  induction l as [|[k' v'] l IH]; simpl.
  - rewrite String.eqb_refl. reflexivity.
  - destruct (String.eqb k k') eqn:E; simpl; rewrite E; auto.
Qed.

Lemma assoc_set_entry_other {A : Type} (k k' : string) (v : A)
  (l : list (string * A)) :
  k' <> k -> assoc k' (set_entry k v l) = assoc k' l.
Proof.
  intros N. induction l as [|[k0 v0] l IH]; simpl.
  - apply String.eqb_neq in N. rewrite N. reflexivity.
  - destruct (String.eqb k k0) eqn:E; simpl.
    + apply String.eqb_eq in E. subst k0.
      apply String.eqb_neq in N. rewrite N. reflexivity.
    + rewrite IH. reflexivity.
Qed.

Lemma node_at_app (t : Node) (pre suf : list string) :
  node_at t (pre ++ suf)
  = match node_at t pre with
    | Some n => node_at n suf
    | None => None
    end.
Proof.
  revert t. induction pre as [|c pre IH]; intros t; simpl; [reflexivity|].
  destruct t as [d|entries]; [reflexivity|].
  destruct (assoc c entries); [apply IH|reflexivity].
Qed.

Lemma node_at_removelast (t : Node) (loc : list string) (n : Node) :
  node_at t loc = Some n -> exists m, node_at t (removelast loc) = Some m.
Proof.
  destruct loc as [|a l]; [simpl; eauto|].
  destruct (@exists_last _ (a :: l)) as (pre & c & E); [discriminate|].
  rewrite E, removelast_last, node_at_app.
  destruct (node_at t pre); [eauto|discriminate].
Qed.

Lemma put_existing (t : Node) (loc : list string) (n new : Node) :
  node_at t loc = Some n -> node_at (put t loc new) loc = Some new.
Proof.
  revert t. induction loc as [|c rest IH]; intros t; simpl; [reflexivity|].
  destruct t as [d|entries]; [discriminate|].
  destruct (assoc c entries) as [child|] eqn:E; [|discriminate].
  intros H. simpl. rewrite assoc_set_entry_same. apply IH. exact H.
Qed.

Lemma put_new (t : Node) (pre : list string) (c : string) (new : Node) :
  is_dir_at t pre = true -> node_at t (pre ++ [c]) = None ->
  node_at (put t (pre ++ [c]) new) (pre ++ [c]) = Some new.
Proof.
  unfold is_dir_at. revert t. induction pre as [|a pre IH]; intros t; simpl.
  - destruct t as [d|entries]; [discriminate|]. intros _.
    destruct (assoc c entries) eqn:E; [discriminate|]. intros _.
    simpl. rewrite assoc_set_entry_same. reflexivity.
  - destruct t as [d|entries]; [discriminate|].
    destruct (assoc a entries) as [child|] eqn:E; [|discriminate].
    intros D N. simpl. rewrite assoc_set_entry_same. apply IH; assumption.
Qed.

(** Storing a node where there is none, or over a file, keeps every
    directory in place. *)
Lemma put_keeps_dirs (t : Node) (loc : list string) (new : Node) :
  is_dir_at t loc = false -> keeps_dirs t (put t loc new).
Proof.
  unfold keeps_dirs, is_dir_at. revert t.
  induction loc as [|c rest IH]; intros t; simpl.
  - destruct t as [d|entries]; [|discriminate]. intros _ [|q qs]; discriminate.
  - destruct t as [d|entries]; [auto|].
    destruct (assoc c entries) as [child|] eqn:E.
    + intros H [|q qs]; simpl; [reflexivity|].
      destruct (String.eqb q c) eqn:Q.
      * apply String.eqb_eq in Q. subst q. rewrite E, assoc_set_entry_same.
        apply IH. exact H.
      * apply String.eqb_neq in Q. rewrite (assoc_set_entry_other _ _ _ _ Q).
        auto.
    + intros _. destruct rest as [|r rest]; [|auto].
      intros [|q qs]; simpl; [reflexivity|].
      destruct (String.eqb q c) eqn:Q.
      * apply String.eqb_eq in Q. subst q. rewrite E. discriminate.
      * apply String.eqb_neq in Q. rewrite (assoc_set_entry_other _ _ _ _ Q).
        auto.
Qed.

Lemma keeps_dirs_trans (t1 t2 t3 : Node) :
  keeps_dirs t1 t2 -> keeps_dirs t2 t3 -> keeps_dirs t1 t3.
Proof. unfold keeps_dirs. auto. Qed.

Lemma keeps_dirs_refl (t : Node) : keeps_dirs t t.
Proof. unfold keeps_dirs. auto. Qed.

Lemma walk_keeps (t t' : Node) (cur comps loc : list string) :
  keeps_dirs t t' -> walk t cur comps = inr loc -> walk t' cur comps = inr loc.
Proof.
  intros K. revert cur. induction comps as [|c comps IH]; intros cur; simpl;
    [auto|].
  pose proof (K cur) as Kc. unfold is_dir_at in Kc.
  destruct (node_at t cur) as [[d|es]|]; try discriminate.
  specialize (Kc eq_refl).
  destruct (node_at t' cur) as [[d'|es']|]; try discriminate. apply IH.
Qed.

(** Where a walk over at least one component ends: at a new or old name
    inside a directory, or at a node that exists. *)
Lemma walk_end (t : Node) (cur comps loc : list string) :
  comps <> [] -> walk t cur comps = inr loc ->
  (exists pre c, loc = pre ++ [c] /\ is_dir_at t pre = true)
  \/ (exists n, node_at t loc = Some n).
Proof.
  revert cur. induction comps as [|c comps IH]; intros cur N; [congruence|].
  simpl. destruct (node_at t cur) as [[d|es]|] eqn:E; try discriminate.
  destruct comps as [|c' comps].
  - simpl. intros H. injection H as <-.
    destruct (String.eqb c "..").
    + right. apply (node_at_removelast _ _ _ E).
    + left. exists cur, c. unfold is_dir_at. rewrite E. auto.
  - apply IH. discriminate.
Qed.

Lemma is_dir_iff (fsys : FileSystem) (p : Path) :
  is_dir fsys p = true <->
  exists loc, locate fsys p = inr loc /\ is_dir_at (tree fsys) loc = true.
Proof.
  unfold is_dir, stat, is_dir_at. destruct (locate fsys p) as [e|loc].
  - split; [discriminate|]. intros (l & H & _). discriminate.
  - split.
    + intros H. exists loc. split; [reflexivity|].
      destruct (node_at (tree fsys) loc) as [[d|es]|]; auto.
    + intros (l & H & D). injection H as <-.
      destruct (node_at (tree fsys) loc) as [[d|es]|]; auto.
Qed.

Lemma extends_refl (fsys : FileSystem) : extends fsys fsys.
Proof. split; [reflexivity|apply keeps_dirs_refl]. Qed.

Lemma extends_trans (a b c : FileSystem) :
  extends a b -> extends b c -> extends a c.
Proof.
  intros [C1 K1] [C2 K2]. split; [congruence|].
  exact (keeps_dirs_trans _ _ _ K1 K2).
Qed.

Lemma extends_locate (fsys fsys' : FileSystem) (p : Path) (loc : list string) :
  extends fsys fsys' -> locate fsys p = inr loc -> locate fsys' p = inr loc.
Proof.
  intros [C K]. unfold locate. rewrite C. apply walk_keeps. exact K.
Qed.

Lemma extends_is_dir (fsys fsys' : FileSystem) (p : Path) :
  extends fsys fsys' -> is_dir fsys p = true -> is_dir fsys' p = true.
Proof.
  intros X. rewrite !is_dir_iff. intros (loc & L & D). exists loc. split.
  - exact (extends_locate _ _ _ _ X L).
  - destruct X as [_ K]. apply K. exact D.
Qed.

Lemma os_mkdir_ok (fsys fsys' : FileSystem) (p : Path) :
  os_mkdir fsys p = inr fsys' ->
  is_dir fsys p = false /\ is_dir fsys' p = true /\ extends fsys fsys'.
Proof.
  unfold os_mkdir. destruct (parts p) as [|c0 cs] eqn:P; [discriminate|].
  destruct (locate fsys p) as [e|loc] eqn:L; [discriminate|].
  destruct (node_at (tree fsys) loc) as [n|] eqn:N; [discriminate|].
  intros H. injection H as <-.
  assert (D : is_dir_at (tree fsys) loc = false).
  { unfold is_dir_at. rewrite N. reflexivity. }
  assert (X : extends fsys (mkFS (put (tree fsys) loc (Dir [])) (cwd fsys))).
  { split; [reflexivity|]. apply put_keeps_dirs. exact D. }
  split; [|split; [|exact X]].
  - unfold is_dir, stat. rewrite L, N. reflexivity.
  - apply is_dir_iff. exists loc. split; [exact (extends_locate _ _ _ _ X L)|].
    unfold locate in L. rewrite P in L.
    apply walk_end in L; [|discriminate].
    destruct L as [(pre & c & -> & Dp)|(n & E)]; [|congruence].
    unfold is_dir_at. simpl. rewrite (put_new _ _ _ _ Dp N). reflexivity.
Qed.

(** The branch [if not exist_ok or not self.is_dir(): raise]. *)
Ltac already_there :=
  match goal with
  | |- (if is_dir ?f ?q then _ else _) = _ -> _ =>
      let D := fresh "D" in
      destruct (is_dir f q) eqn:D; [|discriminate];
      let H := fresh "H" in
      intros H; injection H as <-; split; [exact D|apply extends_refl]
  end.

Lemma mkdir_exist_ok_ok (fsys fsys' : FileSystem) (p : Path) :
  mkdir_exist_ok fsys p = (fsys', None) ->
  is_dir fsys' p = true /\ extends fsys fsys'.
Proof.
  unfold mkdir_exist_ok. destruct (os_mkdir fsys p) as [e|f] eqn:M.
  - destruct e; try discriminate; already_there.
  - intros H. injection H as <-. apply os_mkdir_ok in M. tauto.
Qed.

Lemma mkdir_parents_rev_ok (anch : bool) (rparts : list string)
  (fsys fsys' : FileSystem) :
  mkdir_parents_rev fsys anch rparts = (fsys', None) ->
  is_dir fsys' (mkPath anch (rev rparts)) = true /\ extends fsys fsys'.
Proof.
  revert fsys fsys'. induction rparts as [|c rparent IH]; intros fsys fsys';
    simpl; [already_there|].
  match goal with
  | |- context [os_mkdir fsys ?q] =>
      destruct (os_mkdir fsys q) as [e|f] eqn:M
  end.
  - destruct e; try already_there.
    destruct (mkdir_parents_rev fsys anch rparent) as [fsys1 [e1|]] eqn:R;
      [discriminate|].
    intros H. apply mkdir_exist_ok_ok in H. destruct H as [D X].
    split; [exact D|]. apply IH in R. destruct R as [_ X1].
    exact (extends_trans _ _ _ X1 X).
  - intros H. injection H as <-. apply os_mkdir_ok in M. tauto.
Qed.

(** After [mkdir(parents=True, exist_ok=True)] the path is a directory,
    and no directory was lost. *)
Lemma mkdir_parents_ok (fsys fsys' : FileSystem) (p : Path) :
  mkdir_parents fsys p = (fsys', None) ->
  is_dir fsys' p = true /\ extends fsys fsys'.
Proof.
  unfold mkdir_parents. intros H. apply mkdir_parents_rev_ok in H.
  rewrite rev_involutive in H. destruct p. exact H.
Qed.

Lemma os_mkdir_existing (fsys : FileSystem) (p : Path) :
  is_dir fsys p = true -> os_mkdir fsys p = inl EEXIST.
Proof.
  intros D. unfold os_mkdir. apply is_dir_iff in D.
  destruct D as (loc & L & A). rewrite L. unfold is_dir_at in A.
  destruct (parts p); [reflexivity|].
  destruct (node_at (tree fsys) loc); [reflexivity|discriminate].
Qed.

Lemma mkdir_parents_rev_eq (fsys : FileSystem) (anch : bool)
  (rparts : list string) :
  mkdir_parents_rev fsys anch rparts
  = match os_mkdir fsys (mkPath anch (rev rparts)) with
    | inr fsys' => (fsys', None)
    | inl ENOENT =>
        match rparts with
        | [] => (fsys, Some (oserr ENOENT (mkPath anch (rev rparts))))
        | _ :: rparent =>
            match mkdir_parents_rev fsys anch rparent with
            | (fsys1, None) =>
                mkdir_exist_ok fsys1 (mkPath anch (rev rparts))
            | (fsys1, Some e) => (fsys1, Some e)
            end
        end
    | inl e =>
        if is_dir fsys (mkPath anch (rev rparts)) then (fsys, None)
        else (fsys, Some (oserr e (mkPath anch (rev rparts))))
    end.
Proof. destruct rparts; reflexivity. Qed.

(** A directory that is already there is left as it is. *)
Lemma mkdir_parents_existing (fsys : FileSystem) (p : Path) :
  is_dir fsys p = true -> mkdir_parents fsys p = (fsys, None).
Proof.
  intros D. unfold mkdir_parents.
  assert (E : mkPath (anchored p) (rev (rev (parts p))) = p).
  { rewrite rev_involutive. destruct p. reflexivity. }
  rewrite <- E in D. clear E.
  rewrite mkdir_parents_rev_eq, (os_mkdir_existing _ _ D), D. reflexivity.
Qed.

(** After a write that got past the open the path is a file, and no
    directory was lost; a write that failed at the open changed
    nothing. *)
Lemma write_file_cases (fault : option (string * string))
  (fsys fsys' : FileSystem) (p : Path) (data : string) (r : option exn) :
  write_file fault fsys p data = (fsys', r) ->
  (fsys' = fsys /\ r <> None)
  \/ (stat fsys' p = inr (File (written fault data))
      /\ extends fsys fsys'
      /\ r = option_map (fun f => WriteError (fst f)) fault).
Proof.
  unfold write_file. destruct (locate fsys p) as [e|loc] eqn:L.
  { intros H. injection H as <- <-. left. split; [reflexivity|discriminate]. }
  assert (G : is_dir_at (tree fsys) loc = false ->
              (exists n, node_at (tree fsys) loc = Some n)
              \/ (parts p <> [] /\ node_at (tree fsys) loc = None) ->
              forall bytes,
              let f := mkFS (put (tree fsys) loc (File bytes)) (cwd fsys) in
              stat f p = inr (File bytes) /\ extends fsys f).
  { intros D C bytes f.
    assert (X : extends fsys f).
    { split; [reflexivity|]. apply put_keeps_dirs. exact D. }
    split; [|exact X]. unfold stat.
    rewrite (extends_locate _ _ _ _ X L). simpl.
    destruct C as [(n & N)|(P & N)].
    - rewrite (put_existing _ _ _ _ N). reflexivity.
    - unfold locate in L. apply walk_end in L; [|exact P].
      destruct L as [(pre & c & -> & Dp)|(n & E)]; [|congruence].
      rewrite (put_new _ _ _ _ Dp N). reflexivity. }
  unfold is_dir_at in G.
  assert (K : forall f r0,
             (is_dir_at (tree fsys) loc = false) ->
             (exists n, node_at (tree fsys) loc = Some n)
             \/ (parts p <> [] /\ node_at (tree fsys) loc = None) ->
             match fault with
             | Some (m, partial) =>
                 (mkFS (put (tree fsys) loc (File partial)) (cwd fsys),
                  Some (WriteError m))
             | None => (mkFS (put (tree fsys) loc (File data)) (cwd fsys), None)
             end = (f, r0) ->
             stat f p = inr (File (written fault data))
             /\ extends fsys f
             /\ r0 = option_map (fun f => WriteError (fst f)) fault).
  { intros f r0 D C H. unfold is_dir_at in D.
    destruct fault as [[e partial]|]; injection H as <- <-; simpl;
      (split; [|split; [|reflexivity]]); apply G; assumption. }
  unfold is_dir_at in K.
  destruct (node_at (tree fsys) loc) as [[d|es]|] eqn:N.
  - intros H. right. apply K; eauto.
  - intros H. injection H as <- <-. left. split; [reflexivity|discriminate].
  - destruct (parts p) eqn:P.
    + intros H. injection H as <- <-. left. split; [reflexivity|discriminate].
    + intros H. right. apply K; auto. right. split; [discriminate|reflexivity].
Qed.

(** After a write the path is a file with the bytes written, and no
    directory was lost. *)
Lemma write_file_ok (fault : option (string * string))
  (fsys fsys' : FileSystem) (p : Path) (data : string) :
  write_file fault fsys p data = (fsys', None) ->
  stat fsys' p = inr (File data) /\ extends fsys fsys'.
Proof.
  intros H. destruct (write_file_cases _ _ _ _ _ _ H) as [[_ N]|(S & X & R)];
    [congruence|].
  destruct fault as [[e partial]|]; [discriminate|]. auto.
Qed.

(** ** Concatenation *)

Lemma add_label_In (acc : list string) (x c : string) :
  In c (add_label acc x) <-> In c acc \/ c = x.
Proof.
  unfold add_label. destruct (Pandas.mem x acc) eqn:M.
  - apply mem_In in M. split; [auto|]. intros [H| ->]; assumption.
  - rewrite in_app_iff. simpl. intuition.
Qed.

Lemma add_labels_In (cols acc : list string) (c : string) :
  In c (fold_left add_label cols acc) <-> In c acc \/ In c cols.
Proof.
  revert acc. induction cols as [|x cols IH]; intros acc; simpl.
  - intuition.
  - rewrite IH, add_label_In. intuition.
Qed.

Lemma add_labels_NoDup (cols acc : list string) :
  NoDup acc -> NoDup (fold_left add_label cols acc).
Proof.
  revert acc. induction cols as [|x cols IH]; intros acc N; simpl; [exact N|].
  apply IH. unfold add_label. destruct (Pandas.mem x acc) eqn:M; [exact N|].
  apply mem_false in M. apply NoDup_app; [exact N|repeat constructor; auto|].
  intros y Hy [<-|[]]. contradiction.
Qed.

Lemma union_from_In (frames : list DataFrame) (acc : list string) (c : string) :
  In c (fold_left (fun acc df => fold_left add_label (columns df) acc)
                  frames acc)
  <-> In c acc \/ exists df, In df frames /\ In c (columns df).
Proof.
  revert acc. induction frames as [|df frames IH]; intros acc; simpl.
  - split; [auto|]. intros [H|(df & [] & _)]. exact H.
  - rewrite IH, add_labels_In. split.
    + intros [[H|H]|(df' & H1 & H2)]; eauto 6.
    + intros [H|(df' & [<-|H1] & H2)]; eauto 6.
Qed.

Lemma union_from_NoDup (frames : list DataFrame) (acc : list string) :
  NoDup acc ->
  NoDup (fold_left (fun acc df => fold_left add_label (columns df) acc)
                   frames acc).
Proof.
  revert acc. induction frames as [|df frames IH]; intros acc N; simpl;
    [exact N|].
  apply IH, add_labels_NoDup, N.
Qed.

Lemma union_columns_In (frames : list DataFrame) (c : string) :
  In c (union_columns frames) <->
  exists df, In df frames /\ In c (columns df).
Proof.
  unfold union_columns. rewrite union_from_In. simpl. intuition.
Qed.

Lemma union_columns_NoDup (frames : list DataFrame) :
  NoDup (union_columns frames).
Proof. apply union_from_NoDup. constructor. Qed.

(** A table has only missing values under a label it does not have. *)
Lemma cell_at_absent (cols : list string) (row : list Cell) (c : string) :
  ~ In c cols -> cell_at cols row c = NaN.
Proof.
  revert row. induction cols as [|k cols IH]; intros [|v row] H; simpl;
    try reflexivity.
  destruct (String.eqb c k) eqn:E.
  - apply String.eqb_eq in E. subst k. exfalso. apply H. left. reflexivity.
  - apply IH. intros Hc. apply H. right. exact Hc.
Qed.

(** A row laid out on other columns keeps its cell under every label of
    those columns. *)
Lemma cell_at_reindex (rewrite : string -> string -> string)
  (df : DataFrame) (out : list string) (row : list Cell) (c : string) :
  In c out ->
  cell_at out (reindex rewrite df out row) c
  = recast (rewrite c) (cell_at (columns df) row c).
Proof.
  unfold reindex. induction out as [|k out IH]; intros []; simpl.
  - subst k. rewrite String.eqb_refl. reflexivity.
  - destruct (String.eqb c k) eqn:E.
    + apply String.eqb_eq in E. subst k. reflexivity.
    + apply IH. assumption.
Qed.

Lemma flat_map_rows_length {A : Type} (f : DataFrame -> list Cell -> A)
  (frames : list DataFrame) :
  List.length (flat_map (fun df => map (f df) (rows df)) frames)
  = total_rows frames.
Proof.
  unfold total_rows, Pandas.len.
  induction frames as [|df frames IH]; simpl; [reflexivity|].
  rewrite length_app, length_map, IH. reflexivity.
Qed.

Lemma concat_ok (cast : Cast) (frames : list DataFrame)
  (combined : DataFrame) :
  Pandas.concat cast frames = Ok combined ->
  frames <> []
  /\ combined
     = mkDF (union_columns frames)
            (flat_map (fun df => map (reindex (cast frames df) df
                                              (union_columns frames))
                                     (rows df)) frames).
Proof.
  destruct frames as [|df frames]; simpl; [discriminate|].
  intros H. injection H as <-. split; [discriminate|reflexivity].
Qed.

Lemma concat_nonempty (cast : Cast) (frames : list DataFrame) :
  frames <> [] -> exists combined, Pandas.concat cast frames = Ok combined.
Proof. destruct frames; [congruence|]. simpl. eauto. Qed.

(** ** The tables of a run *)

Lemma process_file_ok (w : World) (args : Args) (p : Path)
  (r : option DataFrame) :
  process_file w args p = Ok r ->
  r = option_map (fun sheet => table_of (p, sheet)) (sheet_of w args p).
Proof.
  unfold sheet_of.
  destruct (read_excel w p (sheet_to_read args) (skiprows args))
    as [v|e] eqn:R.
  - rewrite (process_file_read_ok _ _ _ _ R).
    destruct (first_sheet v) as [df|]; simpl; [|congruence].
    destruct (label_and_project_cases (Pathlib.name (Pathlib.parent p))
                (maneuver_label_spec p) df) as (C1 & C2 & C3).
    destruct (Pandas.mem "driver" (columns df)) eqn:M1.
    { apply mem_In in M1. rewrite (C1 M1). discriminate. }
    apply mem_false in M1.
    destruct (Pandas.mem "maneuver" (columns df)) eqn:M2.
    { apply mem_In in M2. rewrite (C2 M1 M2). discriminate. }
    apply mem_false in M2. rewrite (C3 M1 M2). simpl.
    intros H. injection H as <-. reflexivity.
  - rewrite (process_file_read_raises _ _ _ _ R). discriminate.
Qed.

(** When the loop succeeds, its tables are those of the input sheets, in
    discovery order. *)
Lemma per_file_tables_ok (w : World) (args : Args) (frames : list DataFrame) :
  per_file_tables w args = Ok frames ->
  frames = map table_of (used_sheets w args).
Proof.
  unfold per_file_tables, used_sheets. intros H.
  apply collect_frames_ok in H. destruct H as (rs & F & ->).
  induction F as [|p r files rs Hp F IH]; simpl; [reflexivity|].
  rewrite map_app, <- IH. f_equal.
  rewrite (process_file_ok _ _ _ _ Hp).
  destruct (sheet_of w args p); reflexivity.
Qed.

Lemma table_of_len (entry : Path * DataFrame) :
  Pandas.len (table_of entry) = Pandas.len (snd entry).
Proof. apply labelled_len. Qed.

Lemma total_rows_tables (entries : list (Path * DataFrame)) :
  total_rows (map table_of entries) = total_rows (map snd entries).
Proof.
  unfold total_rows. rewrite !map_map. f_equal. apply map_ext.
  intros e. apply table_of_len.
Qed.

Lemma used_sheets_In (w : World) (args : Args) (p : Path) (sheet : DataFrame) :
  In (p, sheet) (used_sheets w args) <->
  In p (iter_excel_files (fsys w) (input args))
  /\ sheet_of w args p = Some sheet.
Proof.
  unfold used_sheets. rewrite in_flat_map. split.
  - intros (q & Hq & H). apply in_map_iff in H.
    destruct H as (s & E & Hs). injection E as -> ->.
    split; [exact Hq|]. destruct (sheet_of w args p); simpl in Hs.
    + destruct Hs as [->|[]]. reflexivity.
    + contradiction.
  - intros [Hp E]. exists p. split; [exact Hp|]. rewrite E. simpl. auto.
Qed.

Lemma skipped_process_file (w : World) (args : Args) (p : Path) :
  skipped w args p -> process_file w args p = Ok None.
Proof.
  intros (v & R & F). rewrite (process_file_read_ok _ _ _ _ R), F.
  reflexivity.
Qed.

Lemma collect_frames_all_skipped (w : World) (args : Args)
  (files : list Path) :
  (forall p, In p files -> skipped w args p) ->
  collect_frames w args files [] = Ok [].
Proof.
  induction files as [|q files IH]; intros H; [reflexivity|].
  rewrite collect_frames_cons, (skipped_process_file _ _ _ (H q (or_introl eq_refl))).
  simpl. rewrite IH; [reflexivity|]. intros p Hp. apply H. right. exact Hp.
Qed.

(** A run that returns has written the concatenation of the tables of
    its input sheets. *)
Lemma main_success (w : World) (args : Args) (code : Z) :
  exit (main w args) = Ok code ->
  code = 0%Z
  /\ is_dir (fsys w) (input args) = true
  /\ pandas_import_error w = None
  /\ used_sheets w args <> []
  /\ exists combined fs1,
      Pandas.concat (number_cast w) (map table_of (used_sheets w args))
      = Ok combined
      /\ mkdir_parents (fsys w) (Pathlib.parent (output args)) = (fs1, None)
      /\ write_file None fs1 (output args) (to_csv_bytes combined)
         = (fs_after (main w args), None)
      /\ stdout (main w args)
         = [wrote_message (Pandas.len combined)
                          (resolve (fs_after (main w args)) (output args))].
Proof.
  intros H. apply main_returns in H.
  destruct H as (-> & D & P & frames & combined & fs1 & F & N & C & M & W & S).
  apply per_file_tables_ok in F. subst frames.
  repeat split; try assumption.
  - intros E. apply N. rewrite E. reflexivity.
  - exists combined, fs1. auto.
Qed.

Lemma main_success_fs (w : World) (args : Args) (code : Z) :
  exit (main w args) = Ok code ->
  exists combined,
    Pandas.concat (number_cast w) (map table_of (used_sheets w args))
      = Ok combined
    /\ stat (fs_after (main w args)) (output args)
       = inr (File (to_csv_bytes combined))
    /\ is_dir (fs_after (main w args)) (Pathlib.parent (output args)) = true
    /\ extends (fsys w) (fs_after (main w args))
    /\ stdout (main w args)
       = [wrote_message (Pandas.len combined)
                        (resolve (fs_after (main w args)) (output args))].
Proof.
  intros H. apply main_success in H.
  destruct H as (_ & _ & _ & _ & combined & fs1 & C & M & W & S).
  apply mkdir_parents_ok in M. destruct M as [D X1].
  apply write_file_ok in W. destruct W as [St X2].
  exists combined. repeat split; try assumption.
  - exact (extends_is_dir _ _ _ X2 D).
  - destruct X1, X2. congruence.
  - destruct X1 as [_ K1], X2 as [_ K2]. exact (keeps_dirs_trans _ _ _ K1 K2).
Qed.

(** The labels and cells of the table of one input sheet. *)
Lemma table_of_columns (entry : Path * DataFrame) (c : string) :
  In c (columns (table_of entry)) <->
  c = "driver" \/ c = "maneuver"
  \/ (In c (columns (snd entry)) /\ ~ In c columns_to_remove).
Proof.
  assert (E : forall l, In c ("driver" :: "maneuver" :: l) <->
                        c = "driver" \/ c = "maneuver" \/ In c l).
  { intros l. simpl. intuition. }
  unfold table_of, labelled. cbn [columns].
  rewrite E, filter_In, negb_true_iff, mem_false. reflexivity.
Qed.

Lemma table_of_driver_cell (entry : Path * DataFrame) (row : list Cell) :
  In row (rows (table_of entry)) ->
  cell_at (columns (table_of entry)) row "driver"
  = Value (Pathlib.name (Pathlib.parent (fst entry)))
  /\ cell_at (columns (table_of entry)) row "maneuver"
     = Value (maneuver_label_spec (fst entry)).
Proof.
  unfold table_of, labelled. simpl. intros H. apply in_map_iff in H.
  destruct H as (r & <- & _). split; reflexivity.
Qed.

(** ** Stems and suffixes *)

Lemma length_append (s t : string) :
  String.length (s ++ t) = String.length s + String.length t.
Proof. induction s as [|c s IH]; simpl; [reflexivity|]. rewrite IH. reflexivity. Qed.

Lemma substring_whole (t : string) : substring 0 (String.length t) t = t.
Proof. induction t as [|c t IH]; simpl; [reflexivity|]. rewrite IH. reflexivity. Qed.

Lemma substring_take_app (s t : string) :
  substring 0 (String.length s) (s ++ t) = s.
Proof.
  induction s as [|c s IH]; simpl.
  - destruct t; reflexivity.
  - rewrite IH. reflexivity.
Qed.

Lemma substring_drop_app (s t : string) (n : nat) :
  substring (String.length s) n (s ++ t) = substring 0 n t.
Proof. induction s as [|c s IH]; simpl; [reflexivity|exact IH]. Qed.

Lemma rfind_app (c : ascii) (s t : string) :
  (0 <= PyStr.rfind c t)%Z ->
  PyStr.rfind c (s ++ t) = (PyStr.len s + PyStr.rfind c t)%Z.
Proof.
  intros H. unfold PyStr.len. induction s as [|a s IH]; simpl PyStr.rfind.
  - simpl. lia.
  - simpl append. simpl PyStr.rfind. rewrite IH.
    destruct (Z.leb_spec 0 (Z.of_nat (String.length s) + PyStr.rfind c t));
      simpl String.length; lia.
Qed.

(** A name [base.xlsx] with a base that is not empty has the stem [base]
    and the suffix [.xlsx]. *)
Lemma stem_suffix_xlsx (base : string) :
  base <> EmptyString ->
  stem_of_name (base ++ ".xlsx") = base
  /\ suffix_of_name (base ++ ".xlsx") = ".xlsx".
Proof.
  intros N. unfold stem_of_name, suffix_of_name.
  rewrite rfind_app by (vm_compute; discriminate).
  change (PyStr.rfind "." ".xlsx") with 0%Z. rewrite Z.add_0_r.
  unfold PyStr.len, PyStr.take, PyStr.drop.
  rewrite length_append. simpl (String.length ".xlsx").
  assert (L : 0 < String.length base) by (destruct base; simpl; [congruence|lia]).
  replace ((0 <? Z.of_nat (String.length base))%Z) with true
    by (symmetry; apply Z.ltb_lt; lia).
  replace ((Z.of_nat (String.length base)
            <? Z.of_nat (String.length base + 5) - 1)%Z) with true
    by (symmetry; apply Z.ltb_lt; lia).
  simpl andb. cbv iota. rewrite Nat2Z.id. split.
  - apply substring_take_app.
  - rewrite substring_drop_app.
    replace (String.length base + 5 - String.length base) with 5 by lia.
    reflexivity.
Qed.

(** ** The table that is written *)

Lemma combined_rows (cast : Cast) (frames : list DataFrame)
  (combined : DataFrame) (row : list Cell) :
  Pandas.concat cast frames = Ok combined -> In row (rows combined) ->
  exists df r, In df frames /\ In r (rows df)
               /\ row = reindex (cast frames df) df (columns combined) r.
Proof.
  intros C H. apply concat_ok in C. destruct C as [_ ->]. simpl in *.
  apply in_flat_map in H. destruct H as (df & Hdf & H).
  apply in_map_iff in H. destruct H as (r & <- & Hr). eauto.
Qed.


Lemma string_app_assoc (a b c : string) :
  ((a ++ b) ++ c = a ++ b ++ c)%string.
Proof. induction a as [|x a IH]; simpl; [reflexivity|]. rewrite IH. reflexivity. Qed.

Lemma csv_lines_cons (r : list string) (rs : list (list string)) :
  csv_lines (r :: rs)
  = (csv_record r ++ line_terminator ++ csv_lines rs)%string.
Proof.
  unfold csv_lines. simpl map. destruct rs as [|r' rs].
  - reflexivity.
  - simpl. rewrite string_app_assoc. reflexivity.
Qed.

Lemma add_labels_extend (cols acc : list string) :
  exists ext, fold_left add_label cols acc = acc ++ ext.
Proof.
  revert acc. induction cols as [|c cols IH]; intros acc; simpl.
  - exists []. rewrite app_nil_r. reflexivity.
  - destruct (IH (add_label acc c)) as (ext & ->). unfold add_label.
    destruct (Pandas.mem c acc); [eauto|].
    rewrite <- app_assoc. eauto.
Qed.

Lemma union_from_extend (frames : list DataFrame) (acc : list string) :
  exists ext,
    fold_left (fun acc df => fold_left add_label (columns df) acc) frames acc
    = acc ++ ext.
Proof.
  revert acc. induction frames as [|df frames IH]; intros acc; simpl.
  - exists []. rewrite app_nil_r. reflexivity.
  - destruct (add_labels_extend (columns df) acc) as (e1 & ->).
    destruct (IH (acc ++ e1)) as (e2 & ->). rewrite <- app_assoc. eauto.
Qed.

(** The labels of the first table lead the labels of the result. *)
Lemma union_columns_leading (entry : Path * DataFrame)
  (entries : list (Path * DataFrame)) :
  exists more,
    union_columns (map table_of (entry :: entries))
    = "driver" :: "maneuver" :: more.
Proof.
  unfold union_columns, table_of, labelled. simpl map. cbn [fold_left columns].
  change (add_label (add_label [] "driver") "maneuver")
    with ["driver"; "maneuver"].
  match goal with
  | |- context [fold_left add_label ?cs ["driver"; "maneuver"]] =>
      destruct (add_labels_extend cs ["driver"; "maneuver"]) as (e1 & ->)
  end.
  match goal with
  | |- context [fold_left ?f ?fr (["driver"; "maneuver"] ++ e1)] =>
      destruct (union_from_extend fr (["driver"; "maneuver"] ++ e1))
        as (e2 & E)
  end.
  rewrite E. simpl. eauto.
Qed.

Lemma join_concat (sep : string) (items : list string) :
  PyStr.join sep items = String.concat sep items.
Proof.
  induction items as [|x items IH]; [reflexivity|]. simpl.
  rewrite IH. reflexivity.
Qed.

Lemma csv_field_plain (field : string) : plain field -> csv_field field = field.
Proof.
  intros (A & B & C & D). unfold csv_field, needs_quotes.
  rewrite A, B, C, D. reflexivity.
Qed.

Lemma csv_record_plain (fields : list string) :
  Forall plain fields -> 2 <= List.length fields ->
  csv_record fields = String.concat "," fields.
Proof.
  intros P L. unfold csv_record.
  assert (E : map csv_field fields = fields).
  { clear L. induction P as [|f fields Pf _ IH]; [reflexivity|]. simpl.
    rewrite (csv_field_plain _ Pf), IH. reflexivity. }
  rewrite E, join_concat.
  destruct fields as [|a [|b rest]]; simpl in L; try lia. 
  destruct a; reflexivity.
Qed.

Lemma csv_lines_plain (records : list (list string)) :
  Forall (fun r => Forall plain r /\ 2 <= List.length r) records ->
  csv_lines records = plain_lines records.
Proof.
  intros H. unfold csv_lines, plain_lines. f_equal.
  induction H as [|r records [P L] _ IH]; [reflexivity|]. simpl.
  rewrite (csv_record_plain _ P L), IH. reflexivity.
Qed.

Lemma concat_row_length (cast : Cast) (frames : list DataFrame)
  (combined : DataFrame) :
  Pandas.concat cast frames = Ok combined ->
  Forall (fun r => List.length r = List.length (columns combined))
         (rows combined).
Proof.
  intros C. apply Forall_forall. intros row Hrow.
  destruct (combined_rows _ _ _ _ C Hrow) as (df & r & _ & _ & ->).
  unfold reindex. apply length_map.
Qed.

Lemma to_csv_bytes_header (df : DataFrame) :
  2 <= List.length (columns df) -> Forall plain (columns df) ->
  exists body : string,
    to_csv_bytes df
    = (BOM ++ String.concat "," (columns df) ++ line_terminator
           ++ body)%string.
Proof.
  intros L P. unfold to_csv_bytes.
  rewrite csv_lines_cons, (csv_record_plain _ P L). eauto.
Qed.

Lemma to_csv_bytes_plain (df : DataFrame) :
  2 <= List.length (columns df) ->
  Forall (fun r => List.length r = List.length (columns df)) (rows df) ->
  Forall plain (columns df) ->
  Forall (Forall (fun c => plain (cell_text c))) (rows df) ->
  to_csv_bytes df
  = (BOM ++ plain_lines (columns df :: map (map cell_text) (rows df)))%string.
Proof.
  intros L RL P Q. unfold to_csv_bytes. f_equal. apply csv_lines_plain.
  constructor; [split; assumption|].
  apply Forall_map. rewrite Forall_forall in *. intros row Hrow. split.
  - apply Forall_map. exact (Q row Hrow).
  - rewrite length_map, (RL row Hrow). exact L.
Qed.

(** What a run that returns has written: the aggregated table, whose
    labels start with the two injected ones, as the bytes of the output
    file. *)
Lemma main_written (w : World) (args : Args) (code : Z) :
  exit (main w args) = Ok code ->
  exists (combined : DataFrame) (bytes : string) (more : list string),
    Pandas.concat (number_cast w) (map table_of (used_sheets w args))
    = Ok combined
    /\ columns combined = "driver" :: "maneuver" :: more
    /\ stat (fs_after (main w args)) (output args) = inr (File bytes)
    /\ bytes = to_csv_bytes combined
    /\ (Forall plain (columns combined) ->
        exists body : string,
          bytes
          = (BOM ++ String.concat "," (columns combined) ++ line_terminator
                 ++ body)%string)
    /\ (Forall plain (columns combined) ->
        Forall (Forall (fun c => plain (cell_text c))) (rows combined) ->
        bytes
        = (BOM ++ plain_lines (columns combined
                                 :: map (map cell_text) (rows combined)))%string).
Proof.
  intros H. pose proof (main_success _ _ _ H) as G.
  destruct G as (_ & _ & _ & NE & _). apply main_success_fs in H.
  destruct H as (combined & C & St & _).
  destruct (used_sheets w args) as [|entry entries] eqn:U; [congruence|].
  destruct (union_columns_leading entry entries) as (more & L).
  assert (Hc : columns combined = "driver" :: "maneuver" :: more).
  { pose proof C as C'. apply concat_ok in C'. destruct C' as [_ ->].
    exact L. }
  assert (L2 : 2 <= List.length (columns combined)).
  { rewrite Hc. simpl. lia. }
  exists combined, (to_csv_bytes combined), more.
  split; [exact C|]. split; [exact Hc|]. split; [exact St|].
  split; [reflexivity|]. split.
  - apply to_csv_bytes_header; assumption.
  - apply to_csv_bytes_plain; [exact L2|].
    exact (concat_row_length _ _ _ C).
Qed.

Lemma kept_recast (rewrite : string -> string) (c : Cell) :
  kept c (recast rewrite c).
Proof. destruct c; simpl; auto. Qed.

(** The cell under a label is the cell at the first position of the
    label. *)
Lemma cell_at_first (cols : list string) (row : list Cell) (c : string)
  (i : nat) :
  nth_error cols i = Some c ->
  (forall i0, i0 < i -> nth_error cols i0 <> Some c) ->
  cell_at cols row c = nth i row NaN.
Proof.
  revert row i. induction cols as [|k cols IH]; intros row i H F.
  - destruct i; discriminate.
  - destruct row as [|v row]; simpl; [destruct i; reflexivity|].
    destruct i as [|i]; simpl in H.
    + injection H as ->. rewrite String.eqb_refl. reflexivity.
    + destruct (String.eqb c k) eqn:E.
      * apply String.eqb_eq in E. subst k.
        exfalso. apply (F 0); [lia|reflexivity].
      * apply IH; [exact H|]. intros i0 L. apply (F (S i0)). lia.
Qed.

Lemma nth_error_flat_map {A B : Type} (f : A -> list B) (l : list A)
  (i k : nat) (a : A) (b : B) :
  nth_error l i = Some a -> nth_error (f a) k = Some b ->
  nth_error (flat_map f l)
            (list_sum (map (fun x => List.length (f x)) (firstn i l)) + k)
  = Some b.
Proof.
  revert i. induction l as [|x l IH]; intros i Hi Hk.
  - destruct i; discriminate.
  - destruct i as [|i]; simpl in *.
    + injection Hi as ->. rewrite nth_error_app1; [exact Hk|].
      apply nth_error_Some. congruence.
    + rewrite <- Nat.add_assoc, nth_error_app2 by lia.
      replace (_ + _ - _)
        with (list_sum (map (fun x => List.length (f x)) (firstn i l)) + k)
        by lia.
      apply IH; assumption.
Qed.

Lemma rows_before_reindexed {A : Type} (f : DataFrame -> list Cell -> A)
  (i : nat) (frames : list DataFrame) :
  list_sum (map (fun df => List.length (map (f df) (rows df)))
                (firstn i frames))
  = rows_before i frames.
Proof.
  unfold rows_before. f_equal. apply map_ext. intros df.
  apply length_map.
Qed.

Lemma total_rows_sheets (entries : list (Path * DataFrame)) :
  total_rows (map snd entries)
  = list_sum (map (fun e => List.length (rows (snd e))) entries).
Proof. unfold total_rows. rewrite map_map. reflexivity. Qed.

(** C2. Concatenation gives one table.  Its labels are the union of the
    labels of the inputs, each once.  Its number of rows is the sum of
    the numbers of rows of the inputs.  Row [k] of input [i] is the row
    of the result at position [k] after the rows of the inputs before
    [i]; it has one cell for each label of the result: a missing value
    under a label its table lacks, and otherwise the cell the row had at
    the position of the label, where a text and a missing value are as
    they were and another scalar is a scalar (a number may be written
    anew: a whole number in a column that another table lacks becomes a
    float).  For a run that returns, the tables the loop collected are
    the tables of the sheets read, in discovery order; the number of
    rows of their concatenation, which the run prints, is the sum of the
    numbers of rows of these sheets; and the concatenation is what the
    output file holds: when no label and no cell holds a comma, a quote
    or a line break, the file is the byte order mark, the labels, and
    the rows in this order, one line each. *)
Theorem concat_union_order_and_count :
  (forall (cast : Cast) (frames : list DataFrame) (combined : DataFrame),
      Pandas.concat cast frames = Ok combined ->
      (forall c : string,
          In c (columns combined) <->
          exists df, In df frames /\ In c (columns df))
      /\ NoDup (columns combined)
      /\ List.length (rows combined)
         = list_sum (map (fun df => List.length (rows df)) frames)
      /\ (forall (i k : nat) (df : DataFrame) (row : list Cell),
             nth_error frames i = Some df ->
             nth_error (rows df) k = Some row ->
             exists out_row : list Cell,
               nth_error (rows combined) (rows_before i frames + k)
               = Some out_row
               /\ List.length out_row = List.length (columns combined)
               /\ forall (j : nat) (c : string),
                   nth_error (columns combined) j = Some c ->
                   (~ In c (columns df) -> nth_error out_row j = Some NaN)
                   /\ (forall i' : nat,
                          nth_error (columns df) i' = Some c ->
                          (forall i0, i0 < i' ->
                                      nth_error (columns df) i0 <> Some c) ->
                          exists cell : Cell,
                            nth_error out_row j = Some cell
                            /\ kept (nth i' row NaN) cell)))
  /\ (forall (w : World) (args : Args) (code : Z),
         exit (main w args) = Ok code ->
         exists (combined : DataFrame) (bytes : string),
           per_file_tables w args = Ok (map table_of (used_sheets w args))
           /\ Pandas.concat (number_cast w)
                            (map table_of (used_sheets w args))
              = Ok combined
           /\ List.length (rows combined)
              = list_sum (map (fun e => List.length (rows (snd e)))
                              (used_sheets w args))
           /\ stdout (main w args)
              = [wrote_message
                   (list_sum (map (fun e => List.length (rows (snd e)))
                                  (used_sheets w args)))
                   (resolve (fs_after (main w args)) (output args))]
           /\ stat (fs_after (main w args)) (output args)
              = inr (File bytes)
           /\ (Forall plain (columns combined) ->
               Forall (Forall (fun c => plain (cell_text c)))
                      (rows combined) ->
               bytes
               = (BOM ++ plain_lines (columns combined
                                        :: map (map cell_text)
                                               (rows combined)))%string)).
Proof.
  split.
  - intros cast frames combined C. apply concat_ok in C.
    destruct C as [_ ->]. cbn [columns rows].
    split; [apply union_columns_In|].
    split; [apply union_columns_NoDup|]. split.
    + rewrite flat_map_rows_length. reflexivity.
    + intros i k df row Hi Hk.
      exists (reindex (cast frames df) df (union_columns frames) row).
      split; [|split].
      * rewrite <- (rows_before_reindexed
                      (fun df => reindex (cast frames df) df
                                         (union_columns frames))).
        apply (nth_error_flat_map
                 (fun df => map (reindex (cast frames df) df
                                         (union_columns frames)) (rows df))
                 frames i k df); [exact Hi|].
        apply map_nth_error. exact Hk.
      * unfold reindex. apply length_map.
      * intros j c Hj. unfold reindex.
        rewrite (map_nth_error _ _ _ Hj). split.
        -- intros N. rewrite (cell_at_absent _ _ _ N). reflexivity.
        -- intros i' Hi' F. eexists. split; [reflexivity|].
           rewrite (cell_at_first _ row _ _ Hi' F). apply kept_recast.
  - intros w args code H.
    destruct (main_written _ _ _ H)
      as (combined & bytes & more & C & _ & St & _ & _ & B).
    assert (F : per_file_tables w args
                = Ok (map table_of (used_sheets w args))).
    { destruct (main_returns _ _ _ H)
        as (_ & _ & _ & frames & c0 & f0 & F & _).
      rewrite F. f_equal. exact (per_file_tables_ok _ _ _ F). }
    apply main_success_fs in H.
    destruct H as (combined' & C' & _ & _ & _ & S).
    rewrite C in C'. injection C' as <-. exists combined, bytes.
    split; [exact F|].
    assert (L : Pandas.len combined
                = list_sum (map (fun e => List.length (rows (snd e)))
                                (used_sheets w args))).
    { pose proof C as C'. apply concat_ok in C'. destruct C' as [_ ->].
      unfold Pandas.len. simpl.
      rewrite flat_map_rows_length, total_rows_tables.
      apply total_rows_sheets. }
    split; [exact C|]. split; [exact L|].
    split; [rewrite <- L; exact S|]. split; [exact St|exact B].
Qed.

Lemma listed_mem (c : string) : listed c = Pandas.mem c columns_to_remove.
Proof. reflexivity. Qed.

Lemma listed_In (c : string) : listed c = true <-> In c columns_to_remove.
Proof.
  unfold listed. rewrite existsb_exists. split.
  - intros (x & Hx & E). apply String.eqb_eq in E. subst x. exact Hx.
  - intros H. exists c. split; [exact H|apply String.eqb_refl].
Qed.

Lemma select_combine {A : Type} (f : string -> bool) (cols : list string)
  (row : list A) :
  Pandas.select (map f cols) row
  = map snd (filter (fun cv => f (fst cv)) (combine cols row)).
Proof.
  revert row. induction cols as [|k cols IH]; intros row; [reflexivity|].
  destruct row as [|v row]; [reflexivity|]. simpl.
  destruct (f k); simpl; rewrite IH; reflexivity.
Qed.

Lemma drop_listed (df : DataFrame) :
  Pandas.drop df columns_to_remove
  = mkDF (filter (fun c => negb (listed c)) (columns df))
         (map (kept_cells (columns df)) (rows df)).
Proof.
  unfold Pandas.drop, kept_cells. f_equal.
  - apply (select_filter (fun c => negb (listed c))).
  - apply map_ext. intros r.
    apply (select_combine (fun c => negb (listed c))).
Qed.

Lemma labelled_expected (driver label : string) (sheet : DataFrame) :
  labelled driver label sheet = expected_table driver label sheet.
Proof.
  unfold labelled, expected_table, kept_cells. f_equal.
  apply map_ext. intros r. do 2 f_equal.
  apply (select_combine (fun c => negb (listed c))).
Qed.

Lemma process_file_expected (w : World) (args : Args) (p : Path)
  (v : Sheets) (sheet : DataFrame) :
  read_excel w p (sheet_to_read args) (skiprows args) = Ok v ->
  first_sheet v = Some sheet ->
  ~ In "driver" (columns sheet) -> ~ In "maneuver" (columns sheet) ->
  exists label : string,
    parse_maneuver_from_filename p = Ok label
    /\ process_file w args p
       = Ok (Some (expected_table (Pathlib.name (Pathlib.parent p)) label
                                  sheet)).
Proof.
  intros R S N1 N2. exists (maneuver_label_spec p).
  split; [apply parse_maneuver_returns|].
  rewrite (process_file_read_ok _ _ _ _ R), S.
  destruct (label_and_project_cases (Pathlib.name (Pathlib.parent p))
              (maneuver_label_spec p) sheet) as (_ & _ & C3).
  rewrite (C3 N1 N2). simpl. rewrite labelled_expected. reflexivity.
Qed.

(** C3. The list of removed labels is the list of the specification.
    Dropping removes the listed columns, labels and cells: the labels
    left are the labels not listed, in order, and each row is left with
    the cells that stood under them, in order.  No listed label is a
    label of the table a run writes, whose labels, when none holds a
    comma, a quote or a line break, are the header row of the output
    file.  A table that has none of them is
    left as it is.  A file whose sheet was read contributes the table of
    that sheet with the two labels in front and the listed columns gone,
    whether the sheet had listed columns or not. *)
Theorem denylisted_columns_never_in_output :
  columns_to_remove
  = ["Accidents"; "Collisions"; "Peds Hit"; "Speeding Tics"; "Red Lgt Tics";
     "Speed Exceed"; "Stop Sign Ticks"]
  /\ (forall c : string, listed c = true <-> In c columns_to_remove)
  /\ (forall df : DataFrame,
         columns (Pandas.drop df columns_to_remove)
         = filter (fun c => negb (listed c)) (columns df)
         /\ rows (Pandas.drop df columns_to_remove)
            = map (fun row =>
                     map snd (filter (fun cv => negb (listed (fst cv)))
                                     (combine (columns df) row)))
                  (rows df))
  /\ (forall (df : DataFrame) (c : string),
         In c (columns (Pandas.drop df columns_to_remove)) <->
         In c (columns df) /\ ~ In c columns_to_remove)
  /\ (forall (w : World) (args : Args) (code : Z),
         exit (main w args) = Ok code ->
         exists (combined : DataFrame) (bytes : string),
           Pandas.concat (number_cast w) (map table_of (used_sheets w args))
           = Ok combined
           /\ stat (fs_after (main w args)) (output args)
              = inr (File bytes)
           /\ (forall c : string,
                  In c columns_to_remove -> ~ In c (columns combined))
           /\ (Forall plain (columns combined) ->
               exists body : string,
                 bytes
                 = (BOM ++ String.concat "," (columns combined)
                        ++ line_terminator ++ body)%string))
  /\ (forall df : DataFrame,
         (forall c, In c columns_to_remove -> ~ In c (columns df)) ->
         Forall (fun r => List.length r = List.length (columns df))
                (rows df) ->
         Pandas.drop df columns_to_remove = df)
  /\ (forall (w : World) (args : Args) (p : Path) (sheet : DataFrame),
         sheet_of w args p = Some sheet ->
         ~ In "driver" (columns sheet) -> ~ In "maneuver" (columns sheet) ->
         exists label : string,
           parse_maneuver_from_filename p = Ok label
           /\ process_file w args p
              = Ok (Some (expected_table (Pathlib.name (Pathlib.parent p))
                                         label sheet))).
Proof.
  split; [reflexivity|]. split; [apply listed_In|].
  split; [intros df; rewrite drop_listed; split; reflexivity|].
  split; [intros; apply drop_columns_In|].
  split; [|split].
  - intros w args code H.
    destruct (main_written _ _ _ H)
      as (combined & bytes & more & C & _ & St & _ & Hd & _).
    exists combined, bytes.
    split; [exact C|]. split; [exact St|]. split; [|exact Hd].
    intros c Hc Hin.
    apply concat_ok in C. destruct C as [_ ->]. simpl in Hin.
    apply union_columns_In in Hin. destruct Hin as (df & Hdf & Hin).
    apply in_map_iff in Hdf. destruct Hdf as (entry & <- & _).
    apply table_of_columns in Hin.
    destruct Hin as [->|[->|[_ N]]]; [| |exact (N Hc)];
      revert Hc; vm_compute; intuition discriminate.
  - intros df. apply drop_absent.
  - intros w args p sheet S N1 N2. unfold sheet_of in S.
    destruct (read_excel w p (sheet_to_read args) (skiprows args))
      as [v|e] eqn:R; [|discriminate].
    exact (process_file_expected _ _ _ _ _ R S N1 N2).
Qed.

(** C10. Every path that discovery yields has a name ending in [.xlsx]
    (so its pathlib suffix is [.xlsx], unless the whole name is [.xlsx],
    which pathlib reads as a name without suffix) and lies in a directory
    whose name starts with [Driver].  Consequently, in every row of the
    table a run writes, the cell under [driver] is a text starting with
    [Driver]. *)
Theorem discovered_paths_and_driver_field :
  (forall (fsys : FileSystem) (root p : Path),
      In p (iter_excel_files fsys root) ->
      PyStr.ends_with ".xlsx" (Pathlib.name p)
      /\ (Pathlib.name p <> ".xlsx" -> Pathlib.suffix p = ".xlsx")
      /\ PyStr.starts_with "Driver" (Pathlib.name (Pathlib.parent p))
      /\ is_dir fsys (Pathlib.parent p) = true)
  /\ (forall (w : World) (args : Args) (code : Z),
         exit (main w args) = Ok code ->
         exists combined : DataFrame,
           stat (fs_after (main w args)) (output args)
           = inr (File (to_csv_bytes combined))
           /\ In "driver" (columns combined)
           /\ forall row : list Cell,
               In row (rows combined) ->
               exists d : string,
                 cell_at (columns combined) row "driver" = Value d
                 /\ PyStr.starts_with "Driver" d).
Proof.
  split.
  - intros fsys root p H. apply iter_excel_files_In in H.
    destruct H as (d & f & -> & _ & Md & D & _ & Mf).
    rewrite parent_joinpath, !name_joinpath.
    split; [exact Mf|]. split; [|split; assumption].
    intros N. unfold Pathlib.suffix. rewrite name_joinpath.
    destruct Mf as (base & ->). apply stem_suffix_xlsx.
    intros ->. apply N. reflexivity.
  - intros w args code H. pose proof (main_success _ _ _ H) as G.
    destruct G as (_ & _ & _ & NE & _).
    apply main_success_fs in H.
    destruct H as (combined & C & St & _). exists combined.
    split; [exact St|].
    assert (Hd : In "driver" (columns combined)).
    { pose proof C as C'. apply concat_ok in C'. destruct C' as [_ ->].
      simpl. apply union_columns_In.
      destruct (used_sheets w args) as [|entry entries]; [congruence|].
      exists (table_of entry). split; [left; reflexivity|].
      apply table_of_columns. auto. }
    split; [exact Hd|]. intros row Hrow.
    destruct (combined_rows _ _ _ _ C Hrow) as (df & r & Hdf & Hr & ->).
    apply in_map_iff in Hdf. destruct Hdf as ([p sheet] & <- & He).
    rewrite (cell_at_reindex _ _ _ _ _ Hd).
    destruct (table_of_driver_cell _ _ Hr) as [E _]. rewrite E.
    eexists. split; [reflexivity|]. simpl.
    apply used_sheets_In in He. destruct He as [Hp _].
    apply iter_excel_files_In in Hp.
    destruct Hp as (d & f & -> & _ & Md & _).
    rewrite parent_joinpath, name_joinpath. exact Md.
Qed.

(** ** Failures *)

Lemma main_no_tables (w : World) (args : Args) :
  (forall p, In p (iter_excel_files (fsys w) (input args)) ->
             skipped w args p) ->
  exists message : string,
    main w args = mkOutcome (fsys w) [] (Raise (SystemExit message))
    /\ (is_dir (fsys w) (input args) = true ->
        pandas_import_error w = None ->
        message = no_files_message (input args)).
Proof.
  intros H. apply main_no_frames. unfold per_file_tables.
  apply collect_frames_all_skipped. exact H.
Qed.







(** C6. When the reader hands back a collection of sheets, the table of
    the file is made from the first sheet: the two labels in front, the
    listed columns gone, the other sheets unused; a first entry without
    table makes the loop pass over the file.  In every case the file is
    processed as if the reader had handed back the first sheet alone.
    When the collection is empty the file is passed over: the body of
    the loop raises nothing and adds no table, and the loop goes on with
    the tables it had. *)
Theorem first_sheet_is_used_and_empty_is_skipped :
  (forall (w : World) (args : Args) (p : Path) (k : string)
          (first : DataFrame) (others : list (string * option DataFrame)),
      read_excel w p (sheet_to_read args) (skiprows args)
      = Ok (SheetDict ((k, Some first) :: others)) ->
      ~ In "driver" (columns first) -> ~ In "maneuver" (columns first) ->
      exists label : string,
        parse_maneuver_from_filename p = Ok label
        /\ process_file w args p
           = Ok (Some (expected_table (Pathlib.name (Pathlib.parent p))
                                      label first))
        /\ forall (files : list Path) (frames : list DataFrame),
            collect_frames w args (p :: files) frames
            = collect_frames w args files
                (frames ++ [expected_table (Pathlib.name (Pathlib.parent p))
                                           label first]))
  /\ (forall (w : World) (args : Args) (p : Path) (k : string)
             (others : list (string * option DataFrame)),
         read_excel w p (sheet_to_read args) (skiprows args)
         = Ok (SheetDict ((k, None) :: others)) ->
         process_file w args p = Ok None)
  /\ (forall (w w' : World) (args : Args) (p : Path) (k : string)
             (first : option DataFrame)
             (others : list (string * option DataFrame)),
         read_excel w p (sheet_to_read args) (skiprows args)
         = Ok (SheetDict ((k, first) :: others)) ->
         read_excel w' p (sheet_to_read args) (skiprows args)
         = Ok (single first) ->
         process_file w args p = process_file w' args p)
  /\ (forall (w : World) (args : Args) (p : Path),
         read_excel w p (sheet_to_read args) (skiprows args)
         = Ok (SheetDict []) ->
         process_file w args p = Ok None
         /\ forall (files : list Path) (frames : list DataFrame),
             collect_frames w args (p :: files) frames
             = collect_frames w args files frames).
Proof.
  split; [|split; [|split]].
  - intros w args p k first others R N1 N2.
    destruct (process_file_expected w args p _ first R eq_refl N1 N2)
      as (label & L & E).
    exists label. split; [exact L|]. split; [exact E|].
    intros files frames. simpl. rewrite E. reflexivity.
  - intros w args p k others R.
    rewrite (process_file_read_ok _ _ _ _ R). reflexivity.
  - intros w w' args p k first others R R'.
    rewrite (process_file_read_ok _ _ _ _ R),
            (process_file_read_ok _ _ _ _ R').
    destruct first; reflexivity.
  - intros w args p R.
    assert (E : process_file w args p = Ok None).
    { rewrite (process_file_read_ok _ _ _ _ R). reflexivity. }
    split; [exact E|]. intros files frames. simpl. rewrite E. reflexivity.
Qed.

Lemma main_file_raises (w : World) (args : Args) (p : Path) (e : exn) :
  In p (iter_excel_files (fsys w) (input args)) ->
  process_file w args p = Raise e ->
  aborted w (main w args).
Proof.
  intros Hp H.
  destruct (collect_frames_raises w args _ [] p e Hp H) as (e' & E).
  exact (main_loop_raises w args e' E).
Qed.

Lemma aborted_facts (w : World) (o : Outcome) :
  aborted w o ->
  exit_status o <> 0%Z /\ fs_after o = fsys w /\ stdout o = [].
Proof.
  intros A. pose proof (aborted_status _ _ A) as S.
  destruct A as (F & O & _). rewrite S. repeat split; auto. discriminate.
Qed.

(** C7. A run fails without output in each of these cases: the input
    path does not exist or is not a directory; pandas cannot be
    imported; there is no data (no file is found, or every file is passed
    over); the reading of some discovered file raises.  Then the exit
    status is not 0, nothing is printed on the standard output, and the
    file system is as it was before the run: no output file, whole or
    partial.  The exception of a reading is not caught: when the reading
    of the first discovered file raises, the run ends with that very
    exception. *)
Theorem fatal_failures_leave_no_output :
  (forall (w : World) (args : Args),
      exists_ (fsys w) (input args) = false
      \/ is_dir (fsys w) (input args) = false
      \/ pandas_import_error w <> None
      \/ (forall p, In p (iter_excel_files (fsys w) (input args)) ->
                    skipped w args p)
      \/ (exists p e,
             In p (iter_excel_files (fsys w) (input args))
             /\ read_excel w p (sheet_to_read args) (skiprows args)
                = Raise e) ->
      exit_status (main w args) <> 0%Z
      /\ fs_after (main w args) = fsys w
      /\ stdout (main w args) = [])
  /\ (forall (w : World) (args : Args) (p : Path) (rest : list Path)
             (e : exn),
         is_dir (fsys w) (input args) = true ->
         pandas_import_error w = None ->
         iter_excel_files (fsys w) (input args) = p :: rest ->
         read_excel w p (sheet_to_read args) (skiprows args) = Raise e ->
         exit (main w args) = Raise e).
Proof.
  split.
  - intros w args [H|[H|[H|[H|(p & e & Hp & R)]]]].
    + rewrite (main_bad_input w args (or_introl H)). simpl.
      unfold exit_status. simpl. repeat split. discriminate.
    + rewrite (main_bad_input w args (or_intror H)). simpl.
      unfold exit_status. simpl. repeat split. discriminate.
    + destruct (pandas_import_error w) as [exc|] eqn:P; [|congruence].
      destruct (main_missing_pandas w args exc P) as (m & ->).
      unfold exit_status. simpl. repeat split. discriminate.
    + destruct (main_no_tables w args H) as (m & -> & _).
      unfold exit_status. simpl. repeat split. discriminate.
    + apply aborted_facts.
      exact (main_file_raises w args p e Hp
               (process_file_read_raises _ _ _ _ R)).
  - intros w args p rest e D P F R. unfold main.
    pose proof (main_good_input _ _ D) as G. rewrite G, P, F.
    simpl. rewrite (process_file_read_raises _ _ _ _ R). reflexivity.
Qed.

(** C9. A sheet that already has a column named [driver] or [maneuver]
    makes the insertion raise a [ValueError] for its file, and a run that
    discovers such a file ends with an exception, nothing written.  A
    sheet that has neither takes both insertions without error, and the
    two labels lead its columns, each row starting with the two values. *)
Theorem injected_label_clash_aborts :
  (forall (w : World) (args : Args) (p : Path) (sheet : DataFrame),
      In p (iter_excel_files (fsys w) (input args)) ->
      sheet_of w args p = Some sheet ->
      In "driver" (columns sheet) \/ In "maneuver" (columns sheet) ->
      (exists c : string,
          (c = "driver" \/ c = "maneuver")
          /\ process_file w args p
             = Raise (ValueError
                        ("cannot insert " ++ c ++ ", already exists")))
      /\ exit_status (main w args) <> 0%Z
      /\ fs_after (main w args) = fsys w
      /\ stdout (main w args) = [])
  /\ (forall (driver maneuver : string) (sheet : DataFrame),
         ~ In "driver" (columns sheet) -> ~ In "maneuver" (columns sheet) ->
         exists df1 df2 : DataFrame,
           Pandas.insert sheet 0 "driver" (Value driver) = Ok df1
           /\ Pandas.insert df1 1 "maneuver" (Value maneuver) = Ok df2
           /\ columns df2 = "driver" :: "maneuver" :: columns sheet
           /\ rows df2
              = map (fun r => Value driver :: Value maneuver :: r)
                    (rows sheet)).
Proof.
  split.
  - intros w args p sheet Hp S Hc. unfold sheet_of in S.
    destruct (read_excel w p (sheet_to_read args) (skiprows args))
      as [v|e] eqn:R; [|discriminate].
    assert (X : exists c : string,
               (c = "driver" \/ c = "maneuver")
               /\ process_file w args p
                  = Raise (ValueError
                             ("cannot insert " ++ c ++ ", already exists"))).
    { rewrite (process_file_read_ok _ _ _ _ R), S.
      destruct (label_and_project_cases (Pathlib.name (Pathlib.parent p))
                  (maneuver_label_spec p) sheet) as (C1 & C2 & _).
      destruct (Pandas.mem "driver" (columns sheet)) eqn:M1.
      - apply mem_In in M1. exists "driver". rewrite (C1 M1). auto.
      - apply mem_false in M1. destruct Hc as [Hc|Hc]; [contradiction|].
        exists "maneuver". rewrite (C2 M1 Hc). auto. }
    split; [exact X|]. destruct X as (c & _ & E).
    apply aborted_facts. exact (main_file_raises w args p _ Hp E).
  - intros driver maneuver sheet N1 N2.
    exists (mkDF ("driver" :: columns sheet)
                 (map (cons (Value driver)) (rows sheet))),
      (mkDF ("driver" :: "maneuver" :: columns sheet)
            (map (fun r => Value driver :: Value maneuver :: r) (rows sheet))).
    split; [apply insert_front; exact N1|].
    split; [|split; reflexivity].
    apply insert_second. simpl. intros [E|E]; [discriminate|contradiction].
Qed.


(** ** What a run does to the files *)

Lemma leaf_file (d : string) : leaf (File d).
Proof. intros c rest. reflexivity. Qed.

Lemma leaf_empty_dir : leaf (Dir []).
Proof. intros c rest. reflexivity. Qed.

(** Storing a leaf where there is no directory changes no file
    elsewhere. *)
Lemma put_leaf_files (t : Node) (loc : list string) (new : Node) :
  is_dir_at t loc = false -> leaf new ->
  forall (q : list string) (d : string),
    q <> loc ->
    (node_at (put t loc new) q = Some (File d)
     <-> node_at t q = Some (File d)).
Proof.
  unfold is_dir_at. intros D L. revert t D.
  induction loc as [|c rest IH]; intros t D q d N; simpl.
  - destruct t as [d0|es]; [|discriminate].
    destruct q as [|c qs]; [congruence|]. rewrite (L c qs). simpl.
    split; discriminate.
  - destruct t as [d0|entries]; [reflexivity|].
    simpl in D. destruct (assoc c entries) as [child|] eqn:E.
    + destruct q as [|c' qs]; simpl; [split; discriminate|].
      destruct (String.eqb_spec c' c) as [->|Q].
      * rewrite E, assoc_set_entry_same. apply IH; [exact D|congruence].
      * rewrite (assoc_set_entry_other _ _ _ _ Q). reflexivity.
    + destruct rest as [|r rest]; [|reflexivity].
      destruct q as [|c' qs]; simpl; [split; discriminate|].
      destruct (String.eqb_spec c' c) as [->|Q].
      * rewrite E, assoc_set_entry_same.
        destruct qs as [|c2 qs]; [congruence|]. rewrite (L c2 qs).
        split; discriminate.
      * rewrite (assoc_set_entry_other _ _ _ _ Q). reflexivity.
Qed.

Lemma same_files_refl (fsys : FileSystem) : same_files fsys fsys.
Proof. intros loc d. reflexivity. Qed.

Lemma same_files_trans (a b c : FileSystem) :
  same_files a b -> same_files b c -> same_files a c.
Proof. intros H1 H2 loc d. rewrite (H2 loc d). apply H1. Qed.

Lemma os_mkdir_files (fsys fsys' : FileSystem) (p : Path) :
  os_mkdir fsys p = inr fsys' -> same_files fsys fsys'.
Proof.
  unfold os_mkdir. destruct (parts p) as [|c0 cs] eqn:P; [discriminate|].
  destruct (locate fsys p) as [e|loc] eqn:L; [discriminate|].
  destruct (node_at (tree fsys) loc) as [n|] eqn:N; [discriminate|].
  intros H. injection H as <-. intros q d. simpl.
  destruct (list_eq_dec string_dec q loc) as [->|Q].
  - rewrite N. unfold locate in L. rewrite P in L.
    apply walk_end in L; [|discriminate].
    destruct L as [(pre & c & -> & Dp)|(n & E)]; [|congruence].
    rewrite (put_new _ _ _ _ Dp N). split; discriminate.
  - apply put_leaf_files; [|apply leaf_empty_dir|exact Q].
    unfold is_dir_at. rewrite N. reflexivity.
Qed.

Lemma mkdir_exist_ok_files (fsys fsys' : FileSystem) (p : Path)
  (r : option exn) :
  mkdir_exist_ok fsys p = (fsys', r) ->
  same_files fsys fsys' /\ extends fsys fsys'.
Proof.
  unfold mkdir_exist_ok. destruct (os_mkdir fsys p) as [e|f] eqn:M.
  - destruct e; try destruct (is_dir fsys p);
      intros H; injection H as <- _;
      (split; [apply same_files_refl|apply extends_refl]).
  - intros H. injection H as <- _.
    split; [exact (os_mkdir_files _ _ _ M)|].
    apply os_mkdir_ok in M. tauto.
Qed.

Lemma mkdir_parents_rev_files (anch : bool) (rparts : list string)
  (fsys fsys' : FileSystem) (r : option exn) :
  mkdir_parents_rev fsys anch rparts = (fsys', r) ->
  same_files fsys fsys' /\ extends fsys fsys'.
Proof.
  revert fsys fsys' r.
  induction rparts as [|c rparent IH]; intros fsys fsys' r;
    rewrite mkdir_parents_rev_eq;
    match goal with
    | |- context [os_mkdir fsys ?q] =>
        destruct (os_mkdir fsys q) as [e|f] eqn:M
    end;
    try (intros H; injection H as <- _;
         split; [exact (os_mkdir_files _ _ _ M)|];
         apply os_mkdir_ok in M; tauto);
    destruct e;
    try match goal with
        | |- context [is_dir fsys ?q] => destruct (is_dir fsys q)
        end;
    try (intros H; injection H as <- _;
         split; [apply same_files_refl|apply extends_refl]).
  destruct (mkdir_parents_rev fsys anch rparent) as [fs1 [e1|]] eqn:R.
  - intros H. injection H as <- _. exact (IH _ _ _ R).
  - intros H. apply mkdir_exist_ok_files in H. apply IH in R.
    destruct H as [H1 H2], R as [R1 R2].
    split; [exact (same_files_trans _ _ _ R1 H1)
           |exact (extends_trans _ _ _ R2 H2)].
Qed.

(** Making directories creates, changes and removes no file and no
    directory is lost, also when it fails on the way. *)
Lemma mkdir_parents_files (fsys fsys' : FileSystem) (p : Path)
  (r : option exn) :
  mkdir_parents fsys p = (fsys', r) ->
  same_files fsys fsys' /\ extends fsys fsys'.
Proof. apply mkdir_parents_rev_files. Qed.


Lemma write_file_located (fsys fsys' : FileSystem) (p : Path)
  (data : string) :
  write_file None fsys p data = (fsys', None) ->
  exists loc, locate fsys p = inr loc /\ same_files_but loc fsys fsys'.
Proof.
  unfold write_file. destruct (locate fsys p) as [e|loc] eqn:L;
    [discriminate|].
  intros H. exists loc. split; [reflexivity|].
  assert (D : is_dir_at (tree fsys) loc = false ->
              same_files_but loc fsys
                (mkFS (put (tree fsys) loc (File data)) (cwd fsys))).
  { intros D q d Q. simpl. apply put_leaf_files; auto using leaf_file. }
  unfold is_dir_at in D.
  destruct (node_at (tree fsys) loc) as [[d|es]|] eqn:N.
  - injection H as <-. auto.
  - discriminate.
  - destruct (parts p); [discriminate|]. injection H as <-. auto.
Qed.



(** ** Emission *)


(** ** Concrete runs *)

(** The label of a discovered workbook, through the case [a_b] of the
    statement on labels. *)
Lemma parse_maneuver_witness :
  PyStr.contains "_" "STISIMData" = false
  /\ PyStr.contains "_" "U-Turnings" = false
  /\ parse_maneuver_from_filename
       (mkPath false ["data"; "DriverA"; "STISIMData_U-Turnings.xlsx"])
     = Ok "U-Turnings".
Proof.
  split; [reflexivity|]. split; [reflexivity|].
  apply (proj1 (proj2 (proj2 parse_maneuver_total_and_correct))
           (mkPath false ["data"; "DriverA"; "STISIMData_U-Turnings.xlsx"])
           "STISIMData" "U-Turnings");
    reflexivity.
Defined.

(** In the sample tree, the folder [Other] and the file [Driver.txt]
    contribute nothing. *)
Lemma iter_excel_files_witness :
  ~ PyStr.starts_with "Driver" "Other"
  /\ is_dir (mkFS Sample.root_two_drivers [])
            (joinpath (mkPath false ["data"]) "Driver.txt") = false
  /\ ~ In (mkPath false ["data"; "Other"; "STISIMData_X.xlsx"])
          (iter_excel_files (mkFS Sample.root_two_drivers [])
                            (mkPath false ["data"]))
  /\ ~ In (mkPath false ["data"; "Driver.txt"; "x.xlsx"])
          (iter_excel_files (mkFS Sample.root_two_drivers [])
                            (mkPath false ["data"])).
Proof.
  assert (N : ~ PyStr.starts_with "Driver" "Other").
  { intros (rest & E). discriminate. }
  split; [exact N|]. split; [reflexivity|]. split.
  - exact (proj2 (proj2 (proj2
             (iter_excel_files_exact_and_sorted
                (mkFS Sample.root_two_drivers []) (mkPath false ["data"]))))
             "Other" (or_intror N) "STISIMData_X.xlsx").
  - exact (proj2 (proj2 (proj2
             (iter_excel_files_exact_and_sorted
                (mkFS Sample.root_two_drivers []) (mkPath false ["data"]))))
             "Driver.txt" (or_introl eq_refl) "x.xlsx").
Defined.

(** Two sheets of numbers, concatenated as pandas does: the whole
    numbers under [Speed] and [Collisions], which the second sheet
    lacks, come out as floats; the row of the second sheet is the third
    row of the result, with a missing value under [Speed] and its own
    scalar under [Brake].  The run on the two workbooks prints the count
    of three rows. *)
Lemma concat_witness :
  Pandas.concat Sample.float_cast [Sample.table_speed; Sample.table_brake]
  = Ok Sample.table_both
  /\ (exists out_row : list Cell,
         nth_error (rows Sample.table_both) 2 = Some out_row
         /\ List.length out_row = 4
         /\ nth_error out_row 1 = Some NaN
         /\ exists cell : Cell,
             nth_error out_row 3 = Some cell /\ kept (Scalar "0.3") cell)
  /\ stdout (main Sample.world_numbers Sample.args_data)
     = ["Wrote 3 rows to: /out/merged.csv"].
Proof.
  assert (C : Pandas.concat Sample.float_cast
                            [Sample.table_speed; Sample.table_brake]
              = Ok Sample.table_both) by (vm_compute; reflexivity).
  split; [exact C|]. split.
  - destruct (proj1 concat_union_order_and_count _ _ _ C) as (_ & _ & _ & R).
    destruct (R 1 0 Sample.table_brake [Scalar "0.0"; Scalar "0.3"]
                eq_refl eq_refl) as (out_row & N & Len & J).
    exists out_row. split; [exact N|]. split; [exact Len|].
    destruct (J 1 "Speed" eq_refl) as [A _].
    destruct (J 3 "Brake" eq_refl) as [_ B].
    split; [apply A; simpl; intros [E|[E|[]]]; discriminate|].
    apply (B 1 eq_refl). intros [|i0] L; [discriminate|lia].
  - destruct (proj2 concat_union_order_and_count
                Sample.world_numbers Sample.args_data 0%Z)
      as (combined & bytes & _ & _ & _ & S & _); [vm_compute; reflexivity|].
    rewrite S. vm_compute. reflexivity.
Defined.

(** A workbook whose sheet has a column [Collisions]: the table of the
    file has neither the label nor the cells of that column.  The sample
    run: [Collisions], a column of one sheet only, is not in the header
    row of what is written. *)
Lemma denylist_witness :
  sheet_of (Sample.world_of (Sample.root_one_file "S_x.xlsx" "A"))
           Sample.args_data (Sample.the_file "S_x.xlsx")
  = Some Sample.table_a
  /\ In "Collisions" (columns Sample.table_a)
  /\ process_file (Sample.world_of (Sample.root_one_file "S_x.xlsx" "A"))
                  Sample.args_data (Sample.the_file "S_x.xlsx")
     = Ok (Some (mkDF ["driver"; "maneuver"; "Time"; "Speed"]
                      [[Value "Driver1"; Value "x"; Value "0.0"; Value "10"];
                       [Value "Driver1"; Value "x"; Value "0.1"; Value "12"]]))
  /\ exists body : string,
      stat (fs_after (main (Sample.world_of Sample.root_two_drivers)
                           Sample.args_data))
           (output Sample.args_data)
      = inr (File (BOM ++ "driver,maneuver,Time,Speed,Brake"
                       ++ line_terminator ++ body)).
Proof.
  split; [vm_compute; reflexivity|]. split; [simpl; auto|]. split.
  - destruct (proj2 (proj2 (proj2 (proj2 (proj2 (proj2
                denylisted_columns_never_in_output)))))
                (Sample.world_of (Sample.root_one_file "S_x.xlsx" "A"))
                Sample.args_data (Sample.the_file "S_x.xlsx") Sample.table_a)
      as (label & L & E).
    + vm_compute. reflexivity.
    + simpl. intros [H|[H|[H|[]]]]; discriminate.
    + simpl. intros [H|[H|[H|[]]]]; discriminate.
    + rewrite E. vm_compute in L. injection L as <-.
      vm_compute. reflexivity.
  - destruct (proj1 (proj2 (proj2 (proj2 (proj2
                denylisted_columns_never_in_output))))
                (Sample.world_of Sample.root_two_drivers) Sample.args_data 0%Z)
      as (combined & bytes & C & St & _ & B); [vm_compute; reflexivity|].
    vm_compute in C. injection C as <-.
    destruct B as (body & ->); [repeat constructor|].
    exists body. exact St.
Defined.





(** A reading that is a collection of two sheets: the table of the file
    is made from the first sheet, and nothing of the second ([Brake]) is
    in it; the file is processed as the reading of the first sheet
    alone; an empty collection is passed over. *)
Lemma first_sheet_witness :
  read_excel (Sample.world_of (Sample.root_one_file "S_x.xlsx" "AB"))
             (Sample.the_file "S_x.xlsx")
             (sheet_to_read Sample.args_data) (skiprows Sample.args_data)
  = Ok (SheetDict [("s1", Some Sample.table_a); ("s2", Some Sample.table_b)])
  /\ process_file (Sample.world_of (Sample.root_one_file "S_x.xlsx" "AB"))
                  Sample.args_data (Sample.the_file "S_x.xlsx")
     = Ok (Some (mkDF ["driver"; "maneuver"; "Time"; "Speed"]
                      [[Value "Driver1"; Value "x"; Value "0.0"; Value "10"];
                       [Value "Driver1"; Value "x"; Value "0.1"; Value "12"]]))
  /\ process_file (Sample.world_of (Sample.root_one_file "S_x.xlsx" "AB"))
                  Sample.args_data (Sample.the_file "S_x.xlsx")
     = process_file (Sample.world_of (Sample.root_one_file "S_x.xlsx" "A"))
                    Sample.args_data (Sample.the_file "S_x.xlsx")
  /\ process_file (Sample.world_of Sample.root_all_skipped)
                  Sample.args_data (Sample.the_file "S_a.xlsx")
     = Ok None.
Proof.
  assert (R : read_excel
                (Sample.world_of (Sample.root_one_file "S_x.xlsx" "AB"))
                (Sample.the_file "S_x.xlsx")
                (sheet_to_read Sample.args_data) (skiprows Sample.args_data)
              = Ok (SheetDict [("s1", Some Sample.table_a);
                               ("s2", Some Sample.table_b)]))
    by (vm_compute; reflexivity).
  split; [exact R|]. split; [|split].
  - destruct (proj1 first_sheet_is_used_and_empty_is_skipped
                (Sample.world_of (Sample.root_one_file "S_x.xlsx" "AB"))
                Sample.args_data (Sample.the_file "S_x.xlsx")
                "s1" Sample.table_a [("s2", Some Sample.table_b)] R)
      as (label & L & E & _).
    + simpl. intros [H|[H|[H|[]]]]; discriminate.
    + simpl. intros [H|[H|[H|[]]]]; discriminate.
    + rewrite E. vm_compute in L. injection L as <-.
      vm_compute. reflexivity.
  - apply (proj1 (proj2 (proj2 first_sheet_is_used_and_empty_is_skipped))
             (Sample.world_of (Sample.root_one_file "S_x.xlsx" "AB"))
             (Sample.world_of (Sample.root_one_file "S_x.xlsx" "A"))
             Sample.args_data (Sample.the_file "S_x.xlsx")
             "s1" (Some Sample.table_a) [("s2", Some Sample.table_b)]);
      vm_compute; reflexivity.
  - apply (proj2 (proj2 (proj2 first_sheet_is_used_and_empty_is_skipped))
             (Sample.world_of Sample.root_all_skipped)
             Sample.args_data (Sample.the_file "S_a.xlsx")).
    vm_compute. reflexivity.
Defined.

(** A missing input folder, and a workbook that cannot be parsed: the
    run fails and the file system is as before. *)
Lemma fatal_failures_witness :
  (exists_ (fsys (Sample.world_of Sample.root_two_drivers))
           (input Sample.args_nowhere) = false
   /\ exit_status (main (Sample.world_of Sample.root_two_drivers)
                        Sample.args_nowhere) <> 0%Z
   /\ fs_after (main (Sample.world_of Sample.root_two_drivers)
                     Sample.args_nowhere)
      = fsys (Sample.world_of Sample.root_two_drivers))
  /\ (read_excel (Sample.world_of (Sample.root_one_file "S_x.xlsx" "zip"))
                 (Sample.the_file "S_x.xlsx")
                 (sheet_to_read Sample.args_data) (skiprows Sample.args_data)
      = Raise (ReaderError "File is not a zip file")
      /\ exit (main (Sample.world_of (Sample.root_one_file "S_x.xlsx" "zip"))
                    Sample.args_data)
         = Raise (ReaderError "File is not a zip file")
      /\ fs_after (main (Sample.world_of
                           (Sample.root_one_file "S_x.xlsx" "zip"))
                        Sample.args_data)
         = fsys (Sample.world_of (Sample.root_one_file "S_x.xlsx" "zip"))).
Proof.
  split.
  - split; [reflexivity|].
    destruct (proj1 fatal_failures_leave_no_output
                (Sample.world_of Sample.root_two_drivers) Sample.args_nowhere)
      as (S & F & _); [left; reflexivity|].
    split; [exact S|exact F].
  - split; [vm_compute; reflexivity|]. split.
    + apply (proj2 fatal_failures_leave_no_output
               (Sample.world_of (Sample.root_one_file "S_x.xlsx" "zip"))
               Sample.args_data (Sample.the_file "S_x.xlsx") []);
        vm_compute; reflexivity.
    + destruct (proj1 fatal_failures_leave_no_output
                  (Sample.world_of (Sample.root_one_file "S_x.xlsx" "zip"))
                  Sample.args_data) as (_ & F & _); [|exact F].
      do 4 right. exists (Sample.the_file "S_x.xlsx"), (ReaderError "File is not a zip file").
      split; [vm_compute; auto|vm_compute; reflexivity].
Defined.


(** A sheet with a column [driver] aborts the run; a sheet without the
    two labels takes both insertions. *)
Lemma injected_label_witness :
  (sheet_of (Sample.world_of (Sample.root_one_file "S_x.xlsx" "D"))
            Sample.args_data (Sample.the_file "S_x.xlsx")
   = Some Sample.table_driver
   /\ In "driver" (columns Sample.table_driver)
   /\ exit_status (main (Sample.world_of
                           (Sample.root_one_file "S_x.xlsx" "D"))
                        Sample.args_data) <> 0%Z)
  /\ exists df1 df2 : DataFrame,
      Pandas.insert Sample.table_b 0 "driver" (Value "Driver1") = Ok df1
      /\ Pandas.insert df1 1 "maneuver" (Value "x") = Ok df2
      /\ columns df2 = ["driver"; "maneuver"; "Time"; "Brake"].
Proof.
  split.
  - split; [vm_compute; reflexivity|]. split; [simpl; auto|].
    destruct (proj1 injected_label_clash_aborts
                (Sample.world_of (Sample.root_one_file "S_x.xlsx" "D"))
                Sample.args_data (Sample.the_file "S_x.xlsx")
                Sample.table_driver) as (_ & S & _).
    + vm_compute. auto.
    + vm_compute. reflexivity.
    + left. simpl. auto.
    + exact S.
  - destruct (proj2 injected_label_clash_aborts "Driver1" "x" Sample.table_b)
      as (df1 & df2 & I1 & I2 & C & _).
    + simpl. intros [E|[E|[]]]; discriminate.
    + simpl. intros [E|[E|[]]]; discriminate.
    + exists df1, df2. split; [exact I1|]. split; [exact I2|exact C].
Defined.

(** The sample run: both discovered paths end in [.xlsx] under a
    [Driver] folder, and every row written starts with a driver name. *)
Lemma driver_field_witness :
  In (mkPath false ["data"; "DriverB"; "STISIMData_Braking.xlsx"])
     (iter_excel_files (mkFS Sample.root_two_drivers [])
                       (mkPath false ["data"]))
  /\ Pathlib.suffix (mkPath false ["data"; "DriverB"; "STISIMData_Braking.xlsx"])
     = ".xlsx"
  /\ PyStr.starts_with "Driver" "DriverB"
  /\ exists combined : DataFrame,
      stat (fs_after (main (Sample.world_of Sample.root_two_drivers)
                           Sample.args_data))
           (output Sample.args_data)
      = inr (File (to_csv_bytes combined))
      /\ In "driver" (columns combined).
Proof.
  assert (H : In (mkPath false ["data"; "DriverB"; "STISIMData_Braking.xlsx"])
                 (iter_excel_files (mkFS Sample.root_two_drivers [])
                                   (mkPath false ["data"]))).
  { vm_compute. auto. }
  destruct (proj1 discovered_paths_and_driver_field _ _ _ H)
    as (_ & S & D & _).
  split; [exact H|]. split; [apply S; discriminate|]. split; [exact D|].
  destruct (proj2 discovered_paths_and_driver_field
              (Sample.world_of Sample.root_two_drivers) Sample.args_data 0%Z)
    as (combined & St & C & _); [vm_compute; reflexivity|].
  exists combined. split; [exact St|exact C].
Defined.

(** ** Where the statements stop *)

(** [glob] reports entries of any kind: a folder named [folder.xlsx] is
    yielded like a file, and so is a file named [.xlsx], which pathlib
    reads as a name without suffix. *)
Example glob_reports_any_kind :
  iter_excel_files (mkFS Sample.root_odd_names []) (mkPath false ["data"])
  = [mkPath false ["data"; "Driver1"; ".xlsx"];
     mkPath false ["data"; "Driver1"; "folder.xlsx"]]
  /\ is_dir (mkFS Sample.root_odd_names [])
            (mkPath false ["data"; "Driver1"; "folder.xlsx"]) = true
  /\ Pathlib.suffix (mkPath false ["data"; "Driver1"; ".xlsx"]) = EmptyString
  /\ exit (main (Sample.world_of Sample.root_odd_names) Sample.args_data)
     = Raise (OSError "EISDIR" "data/Driver1/folder.xlsx").
Proof. vm_compute. auto. Qed.

(** * Further properties *)

(** ** The order of discovery *)

Lemma ascii_compare_lt_trans (a b c : ascii) :
  Ascii.compare a b = Lt -> Ascii.compare b c = Lt -> Ascii.compare a c = Lt.
Proof.
  unfold Ascii.compare. rewrite !N.compare_lt_iff. apply N.lt_trans.
Qed.

Lemma string_compare_lt_trans (a b c : string) :
  String.compare a b = Lt -> String.compare b c = Lt ->
  String.compare a c = Lt.
Proof.
  revert b c. induction a as [|x a IH]; intros [|y b] [|z c]; simpl;
    try congruence.
  destruct (Ascii.compare x y) eqn:Exy; try discriminate;
    destruct (Ascii.compare y z) eqn:Eyz; try discriminate.
  - apply Ascii.compare_eq_iff in Exy, Eyz. subst.
    unfold Ascii.compare. rewrite N.compare_refl. apply IH.
  - apply Ascii.compare_eq_iff in Exy. subst. rewrite Eyz. reflexivity.
  - apply Ascii.compare_eq_iff in Eyz. subst. rewrite Exy. reflexivity.
  - rewrite (ascii_compare_lt_trans _ _ _ Exy Eyz). reflexivity.
Qed.

Lemma list_leb_trans (a b c : list string) :
  list_leb a b = true -> list_leb b c = true -> list_leb a c = true.
Proof.
  revert b c. induction a as [|x a IH]; intros [|y b] [|z c]; simpl;
    try congruence.
  destruct (String.compare x y) eqn:Exy; try discriminate;
    destruct (String.compare y z) eqn:Eyz; try discriminate.
  - apply String.compare_eq_iff in Exy, Eyz. subst.
    rewrite string_compare_refl. apply IH.
  - apply String.compare_eq_iff in Exy. subst. rewrite Eyz. reflexivity.
  - apply String.compare_eq_iff in Eyz. subst. rewrite Exy. reflexivity.
  - rewrite (string_compare_lt_trans _ _ _ Exy Eyz). reflexivity.
Qed.

Lemma path_le_trans (p q r : Path) : path_le p q -> path_le q r -> path_le p r.
Proof. apply list_leb_trans. Qed.

Lemma sorted_StronglySorted (l : list Path) :
  StronglySorted path_le (sorted l).
Proof.
  apply Sorted_StronglySorted; [|apply sorted_Sorted].
  intros p q r. apply path_le_trans.
Qed.

Lemma joinpath_inj (p : Path) (a b : string) :
  joinpath p a = joinpath p b -> a = b.
Proof.
  intros E. apply (f_equal Pathlib.name) in E.
  rewrite !name_joinpath in E. exact E.
Qed.

(** A child of [p/a] comes before a child of [p/b] when [a] is strictly
    before [b]. *)
Lemma path_le_cousins (p : Path) (a b x y : string) :
  path_le (joinpath p a) (joinpath p b) -> a <> b ->
  path_le (joinpath (joinpath p a) x) (joinpath (joinpath p b) y).
Proof.
  unfold path_le. rewrite path_leb_siblings. unfold String.leb.
  intros L N. unfold path_leb, cparts, joinpath. simpl.
  rewrite <- !app_assoc, !list_leb_app. simpl.
  destruct (String.compare a b) eqn:E; [|reflexivity|discriminate].
  apply String.compare_eq_iff in E. contradiction.
Qed.

Lemma NoDup_map_joinpath (p : Path) (l : list string) :
  NoDup l -> NoDup (map (joinpath p) l).
Proof.
  induction 1 as [|a l Ha N IH]; simpl; constructor; [|exact IH].
  intros H. apply in_map_iff in H. destruct H as (b & E & Hb).
  apply joinpath_inj in E. subst b. contradiction.
Qed.

Lemma glob_NoDup (fsys : FileSystem) (p : Path) (pattern : string) :
  NoDup (listdir fsys p) -> NoDup (glob fsys p pattern).
Proof.
  intros N. unfold glob. destruct (is_dir fsys p); [|constructor].
  apply NoDup_map_joinpath, NoDup_filter, N.
Qed.

Lemma sorted_NoDup (l : list Path) : NoDup l -> NoDup (sorted l).
Proof. apply Permutation_NoDup, sorted_perm. Qed.

Lemma StronglySorted_strict (l : list Path) :
  StronglySorted path_le l -> NoDup l -> StronglySorted path_lt l.
Proof.
  induction 1 as [|x l S IH F]; intros N; constructor.
  - apply IH. inversion N; assumption.
  - inversion N as [|? ? Hx _]; subst. rewrite Forall_forall in *.
    intros y Hy. split; [apply F, Hy|]. intros ->. contradiction.
Qed.

Lemma StronglySorted_app (R : Path -> Path -> Prop) (l1 l2 : list Path) :
  StronglySorted R l1 -> StronglySorted R l2 ->
  (forall x y, In x l1 -> In y l2 -> R x y) ->
  StronglySorted R (l1 ++ l2).
Proof.
  intros S1 S2 H. induction S1 as [|x l S IH F]; simpl; [exact S2|].
  constructor.
  - apply IH. intros a b Ha. apply H. right. exact Ha.
  - apply Forall_app. split; [exact F|].
    apply Forall_forall. intros y Hy. apply H; [left; reflexivity|exact Hy].
Qed.

Lemma StronglySorted_flat_map (f : Path -> list Path) (dirs : list Path) :
  StronglySorted path_lt dirs ->
  (forall d, StronglySorted path_le (f d)) ->
  (forall d d' x y, In d dirs -> In d' dirs -> path_lt d d' ->
                    In x (f d) -> In y (f d') -> path_le x y) ->
  StronglySorted path_le (flat_map f dirs).
Proof.
  intros S Hin Hx. induction S as [|d dirs S IH F]; simpl; [constructor|].
  apply StronglySorted_app; [apply Hin| |].
  - apply IH. intros d0 d' x y H0 H'. apply Hx; right; assumption.
  - intros x y Hxd Hy. apply in_flat_map in Hy.
    destruct Hy as (d' & Hd' & Hy). rewrite Forall_forall in F.
    apply (Hx d d' x y); auto; [left; reflexivity|right; exact Hd'].
Qed.

Lemma NoDup_flat_map (f : Path -> list Path) (dirs : list Path) :
  NoDup dirs -> (forall d, In d dirs -> NoDup (f d)) ->
  (forall d d' x, In x (f d) -> In x (f d') -> d = d') ->
  NoDup (flat_map f dirs).
Proof.
  intros N Hf Hd. induction N as [|d dirs Hn N IH]; simpl; [constructor|].
  apply NoDup_app; [apply Hf; left; reflexivity| |].
  - apply IH. intros d0 H0. apply Hf. right. exact H0.
  - intros x Hx Hy. apply in_flat_map in Hy. destruct Hy as (d' & Hd' & Hy).
    rewrite (Hd d d' x Hx Hy) in Hn. contradiction.
Qed.

Lemma glob_eq (fsys : FileSystem) (p : Path) (pattern : string) :
  glob fsys p pattern
  = map (joinpath p) (filter (fnmatch pattern) (listdir fsys p)).
Proof.
  unfold glob, is_dir, listdir.
  destruct (stat fsys p) as [e|[d|es]]; reflexivity.
Qed.

(** The files that one entry of the root contributes. *)
Lemma xlsx_of_dir_parent (fsys : FileSystem) (d x : Path) :
  In x (if negb (is_dir fsys d) then []
        else sorted (glob fsys d "*.xlsx")) ->
  exists nm, x = joinpath d nm.
Proof.
  intros H. apply xlsx_of_dir_In in H. destruct H as (_ & nm & E & _). eauto.
Qed.

(** X1. When the root and the folders under it list every name once, as
    directories do, the files are discovered in the order of their paths,
    each before all the later ones, and no path comes twice. *)
Theorem discovery_sorted_without_repeats :
  forall (fsys : FileSystem) (root : Path),
    NoDup (listdir fsys root) ->
    (forall d : string, NoDup (listdir fsys (joinpath root d))) ->
    StronglySorted path_le (iter_excel_files fsys root)
    /\ NoDup (iter_excel_files fsys root).
Proof.
  intros fsys root Nr Nd. unfold iter_excel_files.
  assert (Dn : NoDup (sorted (glob fsys root "Driver*"))).
  { apply sorted_NoDup, glob_NoDup, Nr. }
  assert (Din : forall d, In d (sorted (glob fsys root "Driver*")) ->
                          exists a, d = joinpath root a).
  { intros d H. apply sorted_In, glob_In in H.
    destruct H as (a & E & _). eauto. }
  split.
  - apply StronglySorted_flat_map.
    + apply StronglySorted_strict; [apply sorted_StronglySorted|exact Dn].
    + intros d. destruct (negb (is_dir fsys d)); [constructor|].
      apply sorted_StronglySorted.
    + intros d d' x y Hd Hd' [L N] Hx Hy.
      destruct (Din d Hd) as (a & ->). destruct (Din d' Hd') as (b & ->).
      apply xlsx_of_dir_parent in Hx, Hy.
      destruct Hx as (nx & ->). destruct Hy as (ny & ->).
      apply path_le_cousins; [exact L|]. intros ->. apply N. reflexivity.
  - apply NoDup_flat_map; [exact Dn| |].
    + intros d Hd. destruct (Din d Hd) as (a & ->).
      destruct (negb (is_dir fsys (joinpath root a))); [constructor|].
      apply sorted_NoDup, glob_NoDup, Nd.
    + intros d d' x Hx Hx'. apply xlsx_of_dir_parent in Hx, Hx'.
      destruct Hx as (nx & ->). destruct Hx' as (ny & E).
      apply (f_equal Pathlib.parent) in E. rewrite !parent_joinpath in E.
      exact E.
Qed.

Lemma StronglySorted_unique (l l' : list Path) :
  StronglySorted path_le l -> StronglySorted path_le l' ->
  Permutation l l' ->
  (forall x y, In x l -> In y l -> path_le x y -> path_le y x -> x = y) ->
  l = l'.
Proof.
  intros S. revert l'. induction S as [|a l S IH F]; intros l' S' P A.
  - apply Permutation_nil in P. subst. reflexivity.
  - destruct S' as [|b l' S' F'].
    + apply Permutation_sym, Permutation_nil in P. discriminate.
    + assert (E : a = b).
      { rewrite Forall_forall in F, F'.
        assert (Ha : In a (b :: l')).
        { apply (Permutation_in _ P). left. reflexivity. }
        assert (Hb : In b (a :: l)).
        { apply (Permutation_in _ (Permutation_sym P)). left. reflexivity. }
        destruct Ha as [Ha|Ha]; [auto|]. destruct Hb as [Hb|Hb]; [auto|].
        apply A; [left; reflexivity|right; exact Hb|apply F, Hb|apply F', Ha]. }
      subst b. f_equal. apply IH; [exact S'| |].
      * exact (Permutation_cons_inv P).
      * intros x y Hx Hy. apply A; right; assumption.
Qed.

Lemma sorted_of_permutation (l l' : list Path) :
  Permutation l l' ->
  (forall x y, In x l -> In y l -> path_le x y -> path_le y x -> x = y) ->
  sorted l = sorted l'.
Proof.
  intros P A. apply StronglySorted_unique; try apply sorted_StronglySorted.
  - rewrite <- (sorted_perm l), <- (sorted_perm l'). exact P.
  - intros x y Hx Hy. apply A; apply sorted_In; assumption.
Qed.

Lemma siblings_antisym (p : Path) (names : list string) (x y : Path) :
  In x (map (joinpath p) names) -> In y (map (joinpath p) names) ->
  path_le x y -> path_le y x -> x = y.
Proof.
  intros Hx Hy. apply in_map_iff in Hx, Hy.
  destruct Hx as (a & <- & _). destruct Hy as (b & <- & _).
  unfold path_le. rewrite !path_leb_siblings. intros L1 L2.
  rewrite (String.leb_antisym _ _ L1 L2). reflexivity.
Qed.

Lemma sorted_glob_of_permutation (fsys fsys' : FileSystem) (p : Path)
  (pattern : string) :
  Permutation (listdir fsys p) (listdir fsys' p) ->
  sorted (glob fsys p pattern) = sorted (glob fsys' p pattern).
Proof.
  intros P. rewrite !glob_eq. apply sorted_of_permutation.
  - apply Permutation_map. clear -P.
    induction P as [|x l l' P IH|x y l|l1 l2 l3 P1 IH1 P2 IH2]; simpl.
    + constructor.
    + destruct (fnmatch pattern x); [apply perm_skip|]; exact IH.
    + destruct (fnmatch pattern x), (fnmatch pattern y);
        try reflexivity. apply perm_swap.
    + exact (Permutation_trans IH1 IH2).
  - apply siblings_antisym.
Qed.

Lemma flat_map_ext_on {A B : Type} (f g : A -> list B) (l : list A) :
  (forall a, In a l -> f a = g a) -> flat_map f l = flat_map g l.
Proof.
  induction l as [|a l IH]; intros H; simpl; [reflexivity|].
  rewrite (H a (or_introl eq_refl)), IH; [reflexivity|].
  intros b Hb. apply H. right. exact Hb.
Qed.

(** X2. The order in which the operating system lists a directory does
    not show in the result: two file systems whose root and folders hold
    the same names, listed in any order, with the same entries being
    directories, give the same sequence of files. *)
Theorem discovery_ignores_listing_order :
  forall (fsys fsys' : FileSystem) (root : Path),
    Permutation (listdir fsys root) (listdir fsys' root) ->
    (forall d : string,
        is_dir fsys (joinpath root d) = is_dir fsys' (joinpath root d)) ->
    (forall d : string,
        Permutation (listdir fsys (joinpath root d))
                    (listdir fsys' (joinpath root d))) ->
    iter_excel_files fsys root = iter_excel_files fsys' root.
Proof.
  intros fsys fsys' root Pr Hd Pd. unfold iter_excel_files.
  rewrite <- (sorted_glob_of_permutation fsys fsys' root "Driver*" Pr).
  apply flat_map_ext_on. intros d H. apply sorted_In, glob_In in H.
  destruct H as (a & -> & _). rewrite <- Hd.
  destruct (negb (is_dir fsys (joinpath root a))); [reflexivity|].
  apply sorted_glob_of_permutation, Pd.
Qed.

(** Case analysis on a name looked up in concrete directories. *)
Ltac by_name d :=
  repeat match goal with
         | |- context [String.eqb d ?s] => destruct (String.eqb d s)
         end.

Lemma sample_unique_root :
  NoDup (listdir (mkFS Sample.root_two_drivers []) (mkPath false ["data"])).
Proof.
  vm_compute. repeat constructor; simpl; intuition discriminate.
Qed.

Lemma sample_unique_folders (d : string) :
  NoDup (listdir (mkFS Sample.root_two_drivers [])
                 (joinpath (mkPath false ["data"]) d)).
Proof.
  unfold listdir, stat, locate, joinpath. cbn. by_name d; cbn; by_name d;
    cbn; repeat constructor; simpl; intuition discriminate.
Qed.

(** The sample tree: the two workbooks, in order, none twice. *)
Lemma discovery_sorted_witness :
  StronglySorted path_le
    (iter_excel_files (mkFS Sample.root_two_drivers []) (mkPath false ["data"]))
  /\ NoDup
       (iter_excel_files (mkFS Sample.root_two_drivers [])
                         (mkPath false ["data"])).
Proof.
  exact (discovery_sorted_without_repeats
           (mkFS Sample.root_two_drivers []) (mkPath false ["data"])
           sample_unique_root sample_unique_folders).
Defined.

(** Case analysis that keeps what is learnt about the name. *)
Ltac by_name_eq d :=
  repeat match goal with
         | |- context [String.eqb d ?s] =>
             destruct (String.eqb_spec d s); [subst d|]; cbn
         end.

Ltac same_names :=
  apply NoDup_Permutation;
  [ repeat constructor; simpl; intuition discriminate
  | repeat constructor; simpl; intuition discriminate
  | intros; simpl; intuition ].

(** The sample tree and the same tree listed in another order. *)
Lemma discovery_order_witness :
  iter_excel_files (mkFS Sample.root_two_drivers []) (mkPath false ["data"])
  = iter_excel_files (mkFS Sample.root_two_drivers_shuffled [])
                     (mkPath false ["data"]).
Proof.
  apply discovery_ignores_listing_order.
  - vm_compute. same_names.
  - intros d. unfold is_dir, stat, locate, joinpath. cbn.
    by_name_eq d; reflexivity.
  - intros d. unfold listdir, stat, locate, joinpath. cbn.
    by_name_eq d; same_names.
Defined.


(** ** The content of the table that is written *)



(** X4. Every row of the table a run writes comes from a discovered file
    whose sheet was read: its cell under [driver] is the name of the
    folder of that file and its cell under [maneuver] is the label that
    [parse_maneuver_from_filename] gives for that file. *)
Theorem output_rows_carry_the_labels_of_their_file :
  forall (w : World) (args : Args) (code : Z),
    exit (main w args) = Ok code ->
    exists combined : DataFrame,
      stat (fs_after (main w args)) (output args)
      = inr (File (to_csv_bytes combined))
      /\ forall row : list Cell,
          In row (rows combined) ->
          exists (p : Path) (label : string),
            In p (iter_excel_files (fsys w) (input args))
            /\ parse_maneuver_from_filename p = Ok label
            /\ cell_at (columns combined) row "driver"
               = Value (Pathlib.name (Pathlib.parent p))
            /\ cell_at (columns combined) row "maneuver" = Value label.
Proof.
  intros w args code H. apply main_success_fs in H.
  destruct H as (combined & C & St & _). exists combined.
  split; [exact St|]. intros row Hrow.
  destruct (combined_rows _ _ _ _ C Hrow) as (df & r & Hdf & Hr & ->).
  apply in_map_iff in Hdf. destruct Hdf as ([p sheet] & <- & He).
  assert (Hc : forall c, c = "driver" \/ c = "maneuver" ->
                         In c (columns combined)).
  { intros c Hc. apply concat_ok in C. destruct C as [_ ->]. simpl.
    apply union_columns_In. exists (table_of (p, sheet)).
    split; [apply in_map; exact He|]. apply table_of_columns. tauto. }
  exists p, (maneuver_label_spec p).
  apply used_sheets_In in He. destruct He as [Hp _].
  split; [exact Hp|]. split; [apply parse_maneuver_returns|].
  rewrite !cell_at_reindex by auto.
  destruct (table_of_driver_cell _ _ Hr) as [E1 E2]. rewrite E1, E2.
  split; reflexivity.
Qed.






(** The sample run: every row written names a discovered file. *)
Lemma output_rows_witness :
  exists combined : DataFrame,
    stat (fs_after (main (Sample.world_of Sample.root_two_drivers)
                         Sample.args_data))
         (output Sample.args_data)
    = inr (File (to_csv_bytes combined))
    /\ forall row : list Cell,
        In row (rows combined) ->
        exists p : Path,
          In p (iter_excel_files
                  (fsys (Sample.world_of Sample.root_two_drivers))
                  (input Sample.args_data))
          /\ cell_at (columns combined) row "driver"
             = Value (Pathlib.name (Pathlib.parent p)).
Proof.
  destruct (output_rows_carry_the_labels_of_their_file
              (Sample.world_of Sample.root_two_drivers) Sample.args_data 0%Z)
    as (combined & St & H); [vm_compute; reflexivity|].
  exists combined. split; [exact St|]. intros row Hrow.
  destruct (H row Hrow) as (p & label & Hp & _ & D & _). eauto.
Defined.


(** ** The label *)

Lemma split_segments_clean (sep : ascii) (s seg : string) :
  In seg (PyStr.split sep s) -> PyStr.contains sep seg = false.
Proof.
  revert seg. induction s as [|c s IH]; intros seg; simpl.
  - intros [<-|[]]. reflexivity.
  - destruct (Ascii.eqb c sep) eqn:E.
    + intros [<-|H]; [reflexivity|apply IH, H].
    + destruct (PyStr.split sep s) as [|x xs] eqn:S.
      * intros [<-|[]]. simpl. rewrite E. reflexivity.
      * intros [<-|H].
        -- simpl. rewrite E. apply IH. left. reflexivity.
        -- apply IH. right. exact H.
Qed.

(** A text with a separator is what stands before the first one, the
    separator, and the rest. *)
Lemma first_separator (sep : ascii) (s : string) :
  PyStr.contains sep s = true ->
  exists a t, s = (a ++ String sep t)%string /\ PyStr.contains sep a = false.
Proof.
  induction s as [|c s IH]; simpl; [discriminate|].
  destruct (Ascii.eqb c sep) eqn:E; simpl.
  - intros _. apply Ascii.eqb_eq in E. subst c.
    exists EmptyString, s. auto.
  - intros H. destruct (IH H) as (a & t & -> & Ha).
    exists (String c a), t. simpl. rewrite E. auto.
Qed.

Lemma string_app_nil (a : string) : (a ++ EmptyString)%string = a.
Proof. induction a as [|x a IH]; simpl; [reflexivity|]. rewrite IH. reflexivity. Qed.

(** X6. The label is the text between the first and the second
    underscore of the stem, or up to its end when there is one
    underscore only; it never holds an underscore itself.  (A stem
    without underscore has the empty label.) *)
Theorem label_is_between_the_underscores :
  forall p : Path,
    exists label : string,
      parse_maneuver_from_filename p = Ok label
      /\ PyStr.contains "_" label = false
      /\ (PyStr.contains "_" (Pathlib.stem p) = false /\ label = EmptyString
          \/ exists a rest : string,
              Pathlib.stem p = (a ++ String "_" label ++ rest)%string
              /\ PyStr.contains "_" a = false
              /\ (rest = EmptyString \/ PyStr.starts_with "_" rest)).
Proof.
  intros p. exists (maneuver_label_spec p).
  split; [apply parse_maneuver_returns|]. unfold maneuver_label_spec.
  destruct (PyStr.contains "_" (stem p)) eqn:C.
  - destruct (first_separator _ _ C) as (a & t & E & Ha). rewrite E.
    rewrite (split_app_sep _ _ _ Ha).
    destruct (PyStr.contains "_" t) eqn:Ct.
    + destruct (first_separator _ _ Ct) as (b & t' & -> & Hb).
      rewrite (split_app_sep _ _ _ Hb). split; [exact Hb|]. right.
      exists a, (String "_" t'). split; [reflexivity|]. split; [exact Ha|].
      right. exists t'. reflexivity.
    + rewrite (split_no_sep _ _ Ct). split; [exact Ct|]. right.
      exists a, EmptyString. split; [|auto].
      rewrite string_app_nil. reflexivity.
  - rewrite (split_no_sep _ _ C). split; [reflexivity|]. left. auto.
Qed.

(** X7. For every discovered file but one named exactly [.xlsx], the
    stem that the label is cut from is the name without its final
    [.xlsx]. *)
Theorem discovered_stem_is_name_without_xlsx :
  forall (fsys : FileSystem) (root p : Path),
    In p (iter_excel_files fsys root) ->
    Pathlib.name p <> ".xlsx" ->
    Pathlib.name p = (Pathlib.stem p ++ ".xlsx")%string.
Proof.
  intros fsys root p H N. apply iter_excel_files_In in H.
  destruct H as (d & f & -> & _ & _ & _ & _ & (base & ->)).
  unfold Pathlib.stem. rewrite name_joinpath in *.
  destruct (stem_suffix_xlsx base) as [-> _]; [|reflexivity].
  intros ->. apply N. reflexivity.
Qed.

Lemma discovered_stem_witness :
  Pathlib.name (mkPath false ["data"; "DriverA"; "STISIMData_U-Turnings.xlsx"])
  = (Pathlib.stem
       (mkPath false ["data"; "DriverA"; "STISIMData_U-Turnings.xlsx"])
     ++ ".xlsx")%string.
Proof.
  apply (discovered_stem_is_name_without_xlsx
           (mkFS Sample.root_two_drivers []) (mkPath false ["data"])).
  - vm_compute. auto.
  - discriminate.
Defined.

(** ** What a failed and a successful run leave *)


(** X9. A run that returns 0 has written one file, the output, and has
    created, changed or removed no other: the workbooks it read are as
    they were, unless the output path is one of them. *)
Theorem successful_run_writes_one_file :
  forall (w : World) (args : Args) (code : Z),
    exit (main w args) = Ok code ->
    exists (loc : list string) (bytes : string),
      resolve (fs_after (main w args)) (output args) = mkPath true loc
      /\ node_at (tree (fs_after (main w args))) loc = Some (File bytes)
      /\ same_files_but loc (fsys w) (fs_after (main w args)).
Proof.
  intros w args code H. pose proof (main_success _ _ _ H) as G.
  destruct G as (_ & _ & _ & _ & combined & fs1 & _ & M & W & _).
  pose proof (write_file_ok _ _ _ _ _ W) as [St X].
  destruct (write_file_located _ _ _ _ W) as (loc & L & F).
  pose proof (extends_locate _ _ _ _ X L) as L'.
  exists loc, (to_csv_bytes combined). unfold resolve. rewrite L'.
  split; [reflexivity|]. split.
  - unfold stat in St. rewrite L' in St.
    destruct (node_at (tree (fs_after (main w args))) loc); congruence.
  - intros q d Q. rewrite (F q d Q). apply (mkdir_parents_files _ _ _ _ M).
Qed.


(** The sample run: the workbook of driver A is as it was. *)
Lemma successful_run_witness :
  exists loc : list string,
    resolve (fs_after (main (Sample.world_of Sample.root_two_drivers)
                            Sample.args_data))
            (output Sample.args_data)
    = mkPath true loc
    /\ (["data"; "DriverA"; "STISIMData_U-Turnings.xlsx"] <> loc ->
        node_at (tree (fs_after (main (Sample.world_of Sample.root_two_drivers)
                                      Sample.args_data)))
                ["data"; "DriverA"; "STISIMData_U-Turnings.xlsx"]
        = Some (File "A")).
Proof.
  destruct (successful_run_writes_one_file
              (Sample.world_of Sample.root_two_drivers) Sample.args_data 0%Z)
    as (loc & bytes & R & _ & F); [vm_compute; reflexivity|].
  exists loc. split; [exact R|]. intros N. apply (F _ _ N). reflexivity.
Defined.

(** ** An output path that is in the way *)

Lemma walk_snoc (t : Node) (cur comps : list string) (c : string)
  (loc : list string) :
  walk t cur (comps ++ [c]) = inr loc ->
  exists cur', walk t cur comps = inr cur' /\ is_dir_at t cur' = true.
Proof.
  unfold is_dir_at. revert cur. induction comps as [|x comps IH]; intros cur; simpl.
  - destruct (node_at t cur) as [[d|es]|] eqn:E; try discriminate.
    intros _. exists cur. rewrite E. auto.
  - destruct (node_at t cur) as [[d|es]|]; try discriminate. apply IH.
Qed.

(** The parent of a path that resolves is a directory. *)
Lemma located_parent_is_dir (fsys : FileSystem) (p : Path)
  (loc : list string) :
  parts p <> [] -> locate fsys p = inr loc ->
  is_dir fsys (Pathlib.parent p) = true.
Proof.
  intros N L. apply is_dir_iff. unfold locate, Pathlib.parent in *. simpl.
  destruct (@exists_last _ (parts p) N) as (pre & c & E). rewrite E in *.
  rewrite removelast_last. apply walk_snoc in L.
  destruct L as (cur' & W & D). eauto.
Qed.

Lemma main_until_emission (w : World) (args : Args)
  (frames : list DataFrame) :
  is_dir (fsys w) (input args) = true ->
  pandas_import_error w = None ->
  per_file_tables w args = Ok frames -> frames <> [] ->
  exists combined,
    Pandas.concat (number_cast w) frames = Ok combined
    /\ main w args
       = match mkdir_parents (fsys w) (Pathlib.parent (output args)) with
         | (fs1, Some e) => mkOutcome fs1 [] (Raise e)
         | (fs1, None) =>
             match write_file (write_fault w (output args)
                                 (to_csv_bytes combined))
                              fs1 (output args) (to_csv_bytes combined) with
             | (fs2, Some e) => mkOutcome fs2 [] (Raise e)
             | (fs2, None) =>
                 mkOutcome fs2
                   [wrote_message (Pandas.len combined)
                                  (resolve fs2 (output args))]
                   (Ok 0%Z)
             end
         end.
Proof.
  intros D P F N.
  destruct (concat_nonempty (number_cast w) frames N) as (combined & C).
  exists combined. split; [exact C|]. unfold main.
  pose proof (main_good_input _ _ D) as G. rewrite G, P.
  unfold per_file_tables in F. rewrite F.
  destruct frames as [|df frames]; [congruence|]. rewrite C. reflexivity.
Qed.

(** X10. When the parent of the output path is a file, the directory
    cannot be made: after all the reading the run ends with the
    [FileExistsError] of [mkdir], and the file system is as it was. *)
Theorem output_parent_that_is_a_file_aborts :
  forall (w : World) (args : Args) (frames : list DataFrame) (d : string),
    is_dir (fsys w) (input args) = true ->
    pandas_import_error w = None ->
    per_file_tables w args = Ok frames -> frames <> [] ->
    stat (fsys w) (Pathlib.parent (output args)) = inr (File d) ->
    main w args
    = mkOutcome (fsys w) []
        (Raise (OSError "EEXIST"
                        (Pathlib.to_str (Pathlib.parent (output args))))).
Proof.
  intros w args frames d D P F N St.
  destruct (main_until_emission w args frames D P F N) as (combined & _ & ->).
  set (q := Pathlib.parent (output args)) in *.
  assert (Dq : is_dir (fsys w) q = false).
  { unfold is_dir. rewrite St. reflexivity. }
  assert (M : os_mkdir (fsys w) q = inl EEXIST).
  { unfold os_mkdir. destruct (parts q) eqn:Pq; [reflexivity|].
    unfold stat in St. destruct (locate (fsys w) q) as [e|loc]; [discriminate|].
    destruct (node_at (tree (fsys w)) loc); [reflexivity|discriminate]. }
  unfold mkdir_parents. rewrite mkdir_parents_rev_eq, rev_involutive.
  replace (mkPath (anchored q) (parts q)) with q by (destruct q; reflexivity).
  rewrite M, Dq. reflexivity.
Qed.

(** X11. When the output path is an existing directory, nothing is
    written: after all the reading the run ends with the
    [IsADirectoryError] of the write, and the file system is as it
    was. *)
Theorem output_path_that_is_a_directory_aborts :
  forall (w : World) (args : Args) (frames : list DataFrame),
    is_dir (fsys w) (input args) = true ->
    pandas_import_error w = None ->
    per_file_tables w args = Ok frames -> frames <> [] ->
    is_dir (fsys w) (output args) = true ->
    main w args
    = mkOutcome (fsys w) []
        (Raise (OSError "EISDIR" (Pathlib.to_str (output args)))).
Proof.
  intros w args frames D P F N Do.
  destruct (main_until_emission w args frames D P F N) as (combined & _ & ->).
  assert (Dp : is_dir (fsys w) (Pathlib.parent (output args)) = true).
  { destruct (parts (output args)) as [|c cs] eqn:Po.
    - replace (Pathlib.parent (output args)) with (output args); [exact Do|].
      unfold Pathlib.parent. rewrite Po. destruct (output args).
      simpl in *. subst. reflexivity.
    - apply is_dir_iff in Do. destruct Do as (loc & L & _).
      apply (located_parent_is_dir _ _ loc); [rewrite Po; discriminate|exact L]. }
  rewrite (mkdir_parents_existing _ _ Dp).
  apply is_dir_iff in Do. destruct Do as (loc & L & A).
  unfold write_file. rewrite L. unfold is_dir_at in A.
  destruct (node_at (tree (fsys w)) loc) as [[d|es]|]; try discriminate.
  reflexivity.
Qed.

(** ** The first failure *)

Lemma collect_frames_first_raise (w : World) (args : Args)
  (before after : list Path) (p : Path) (e : exn) (acc : list DataFrame) :
  (forall q, In q before -> exists r, process_file w args q = Ok r) ->
  process_file w args p = Raise e ->
  collect_frames w args (before ++ p :: after) acc = Raise e.
Proof.
  revert acc. induction before as [|q before IH]; intros acc Hb Hp; simpl.
  - rewrite Hp. reflexivity.
  - destruct (Hb q (or_introl eq_refl)) as (r & ->). simpl.
    apply IH; [|exact Hp]. intros q' Hq. apply Hb. right. exact Hq.
Qed.

(** X12. The files are processed in the order of discovery and the
    first one whose processing raises ends the run with its exception:
    the later files are not read, and nothing is written. *)
Theorem first_failing_file_ends_the_run :
  forall (w : World) (args : Args) (before after : list Path) (p : Path)
         (e : exn),
    is_dir (fsys w) (input args) = true ->
    pandas_import_error w = None ->
    iter_excel_files (fsys w) (input args) = before ++ p :: after ->
    (forall q, In q before -> exists r, process_file w args q = Ok r) ->
    process_file w args p = Raise e ->
    main w args = mkOutcome (fsys w) [] (Raise e).
Proof.
  intros w args before after p e D P F Hb Hp. unfold main.
  pose proof (main_good_input _ _ D) as G. rewrite G, P, F.
  rewrite (collect_frames_first_raise _ _ _ _ _ _ _ Hb Hp). reflexivity.
Qed.

(** ** Concrete runs with an output path in the way *)

Lemma output_parent_witness :
  stat (fsys (Sample.world_of Sample.root_two_drivers))
       (Pathlib.parent (output Sample.args_under_file))
  = inr (File "A")
  /\ main (Sample.world_of Sample.root_two_drivers) Sample.args_under_file
     = mkOutcome (fsys (Sample.world_of Sample.root_two_drivers)) []
         (Raise (OSError "EEXIST"
                         "data/DriverA/STISIMData_U-Turnings.xlsx")).
Proof.
  split; [vm_compute; reflexivity|].
  apply (output_parent_that_is_a_file_aborts
           (Sample.world_of Sample.root_two_drivers) Sample.args_under_file
           (tables_or_none (Sample.world_of Sample.root_two_drivers)
                           Sample.args_under_file) "A").
  - vm_compute. reflexivity.
  - reflexivity.
  - vm_compute. reflexivity.
  - vm_compute. discriminate.
  - vm_compute. reflexivity.
Defined.

Lemma output_directory_witness :
  is_dir (fsys (Sample.world_of Sample.root_two_drivers))
         (output Sample.args_onto_folder) = true
  /\ main (Sample.world_of Sample.root_two_drivers) Sample.args_onto_folder
     = mkOutcome (fsys (Sample.world_of Sample.root_two_drivers)) []
         (Raise (OSError "EISDIR" "data")).
Proof.
  split; [vm_compute; reflexivity|].
  apply (output_path_that_is_a_directory_aborts
           (Sample.world_of Sample.root_two_drivers) Sample.args_onto_folder
           (tables_or_none (Sample.world_of Sample.root_two_drivers)
                           Sample.args_onto_folder)).
  - vm_compute. reflexivity.
  - reflexivity.
  - vm_compute. reflexivity.
  - vm_compute. discriminate.
  - vm_compute. reflexivity.
Defined.

(** A good workbook, an unreadable one, one with a column [driver]: the
    run ends with the error of the second. *)
Lemma first_failing_file_witness :
  iter_excel_files (fsys (Sample.world_of Sample.root_mixed))
                   (input Sample.args_data)
  = [Sample.the_file "S_a.xlsx"] ++ Sample.the_file "S_b.xlsx"
      :: [Sample.the_file "S_c.xlsx"]
  /\ main (Sample.world_of Sample.root_mixed) Sample.args_data
     = mkOutcome (fsys (Sample.world_of Sample.root_mixed)) []
         (Raise (ReaderError "File is not a zip file")).
Proof.
  split; [vm_compute; reflexivity|].
  apply (first_failing_file_ends_the_run
           (Sample.world_of Sample.root_mixed) Sample.args_data
           [Sample.the_file "S_a.xlsx"] [Sample.the_file "S_c.xlsx"]
           (Sample.the_file "S_b.xlsx")).
  - vm_compute. reflexivity.
  - reflexivity.
  - vm_compute. reflexivity.
  - intros q [<-|[]]. eexists. vm_compute. reflexivity.
  - vm_compute. reflexivity.
Defined.

(** ** The count that is printed *)

Lemma group_thousands_step (a b c d : ascii) (more : list ascii) :
  group_thousands (a :: b :: c :: d :: more)
  = a :: b :: c :: ","%char :: group_thousands (d :: more).
Proof. reflexivity. Qed.

Lemma group_thousands_commas (l : list ascii) :
  filter (fun c => negb (Ascii.eqb c ",")) (group_thousands l)
  = filter (fun c => negb (Ascii.eqb c ",")) l.
Proof.
  remember (List.length l) as n eqn:E.
  assert (H : List.length l <= n) by lia. clear E. revert l H.
  induction n as [|n IH]; intros l H.
  - destruct l; [reflexivity|simpl in H; lia].
  - destruct l as [|a [|b [|c [|d more]]]]; try reflexivity.
    rewrite group_thousands_step.
    change (a :: b :: c :: ","%char :: group_thousands (d :: more))
      with ([a; b; c] ++ ","%char :: group_thousands (d :: more)).
    change (a :: b :: c :: d :: more) with ([a; b; c] ++ d :: more).
    rewrite !filter_app. f_equal.
    change (filter ?f (","%char :: ?t)) with (filter f t).
    apply IH. simpl in *. lia.
Qed.

Lemma decimal_digits_string (d : Decimal.uint) :
  string_of_list_ascii (decimal_digits d) = NilEmpty.string_of_uint d.
Proof. induction d; simpl; rewrite ?IHd; reflexivity. Qed.

Lemma decimal_digits_no_comma (d : Decimal.uint) :
  forallb (fun c => negb (Ascii.eqb c ",")) (decimal_digits d) = true.
Proof. induction d; simpl; auto. Qed.

(** X13. The count in the message reads back: with its commas put
    aside, the numeral printed for [n] rows is the decimal numeral of
    [n]. *)
Theorem printed_count_reads_back :
  forall n : nat, read_count (format_thousands n) = Some n.
Proof.
  intros n. unfold read_count, without_commas, format_thousands.
  rewrite list_ascii_of_string_of_list_ascii, filter_rev,
          group_thousands_commas, <- filter_rev, rev_involutive.
  rewrite (forallb_filter_id _ _ (decimal_digits_no_comma _)).
  rewrite decimal_digits_string, NilEmpty.usu. simpl.
  rewrite Unsigned.of_to. reflexivity.
Qed.
